(** * Network service mesh broker: registry, connection broker, socket lifecycle

    A shallow embedding of [plugins/nsmserver/nsmserver_client.go] (package
    [nsmserver]) and of the dataplane store of package [objectstore], with
    the properties of the broker stated and proved over it.

    Conventions of the embedding:
    - a Go map is a [gmap]; a nil pointer is [None];
    - a Go call yields an [outcome]: it returns, panics or blocks forever;
    - functions that mutate their receiver return the new receiver;
    - [logger] calls change neither state nor results and are left out,
      except in the watch loop, whose error branch consists of one;
    - the mutexes are taken and released on every path of the functions
      modelled here, so the sequential model does not carry them. *)

From Stdlib Require Import String Ascii List ZArith Lia.
From stdpp Require Import base option gmap strings list fin_maps.

(** ** Go runtime notions shared by both packages *)
Module Go.

(** What a call does: return a value, panic, or block forever. *)
Inductive outcome (A : Type) : Type :=
  | Returns (a : A)
  | Panics (msg : string)
  | Blocks.
Arguments Returns {A} a.
Arguments Panics {A} msg.
Arguments Blocks {A}.

(** Sequencing: what follows a call runs only if the call returns. The
    instances give [x ← m; k] for it. *)
#[global] Instance outcome_ret : MRet outcome := fun A a => Returns a.
#[global] Instance outcome_bind : MBind outcome := fun A B k m =>
  match m with
  | Returns a => k a
  | Panics msg => Panics msg
  | Blocks => Blocks
  end.

(** The runtime error of a field access through a nil pointer. *)
Definition nil_dereference : string :=
  "runtime error: invalid memory address or nil pointer dereference".

(** [error] values are carried by the text [Error()] gives. *)
Definition error : Type := string.

(** [fmt.Sprintf] for the verbs the package uses, [%s], [%v] and [%+v], on
    operands that are strings or errors (all three print the text as is).
    A verb without operand prints Go's [%!s(MISSING)] marker. *)
Fixpoint Sprintf (format : string) (args : list string) : string :=
  match format with
  | EmptyString => EmptyString
  | String "%" (String "s" rest) =>
      match args with
      | a :: args' => a +:+ Sprintf rest args'
      | [] => "%!s(MISSING)" +:+ Sprintf rest []
      end
  | String "%" (String "v" rest) =>
      match args with
      | a :: args' => a +:+ Sprintf rest args'
      | [] => "%!v(MISSING)" +:+ Sprintf rest []
      end
  | String "%" (String "+" (String "v" rest)) =>
      match args with
      | a :: args' => a +:+ Sprintf rest args'
      | [] => "%!v(MISSING)" +:+ Sprintf rest []
      end
  | String c rest => String c (Sprintf rest args)
  end.

(** The line feed that Go writes [\n]. *)
Definition newline : string := String "010" EmptyString.

(** [strings.Contains s substr]. *)
Fixpoint Contains (s substr : string) : bool :=
  String.prefix substr s ||
  match s with
  | EmptyString => false
  | String _ s' => Contains s' substr
  end.

End Go.

(** ** Package objectstore: the dataplane store *)
Module objectstore.
Import Go.

(** [type Dataplane struct]; its own mutex guards [Parameters] against the
    monitoring routine and plays no part in the store's operations. *)
Record Dataplane : Type := {
  RegisteredName : string;
  SocketLocation : string;
  Parameters : gmap string string
}.

(** The store keeps [*Dataplane]: an address into the heap of descriptors,
    or nil. Go has no dangling pointers: an address in use is live. *)
Definition addr : Type := positive.

Record dataplaneStore : Type := {
  dataplanes : gmap string (option addr)
}.

Definition newDataplaneStore : dataplaneStore := {| dataplanes := ∅ |}.

(** [dp.RegisteredName]: the read through the pointer that [Add] performs. *)
Definition registeredNameOf (heap : gmap addr Dataplane) (dp : option addr)
  : outcome string :=
  match dp with
  | None => Panics nil_dereference
  | Some a =>
      match heap !! a with
      | Some v => Returns (RegisteredName v)
      | None => Panics nil_dereference
      end
  end.

(** [func (d *dataplaneStore) Add(dp *Dataplane)] *)
Definition Add (heap : gmap addr Dataplane) (d : dataplaneStore) (dp : option addr)
  : outcome dataplaneStore :=
  name ← registeredNameOf heap dp;
  match dataplanes d !! name with
  | Some _ => Returns d
  | None => Returns {| dataplanes := <[name := dp]> (dataplanes d) |}
  end.

(** [func (d *dataplaneStore) Get(registeredName string) *Dataplane] *)
Definition Get (d : dataplaneStore) (registeredName : string) : option addr :=
  match dataplanes d !! registeredName with
  | None => None
  | Some dp => dp
  end.

(** [func (d *dataplaneStore) Delete(registeredName string)] *)
Definition Delete (d : dataplaneStore) (registeredName : string) : dataplaneStore :=
  match dataplanes d !! registeredName with
  | Some _ => {| dataplanes := delete registeredName (dataplanes d) |}
  | None => d
  end.

(** [func (d *dataplaneStore) List() []*Dataplane]; Go ranges over a map in
    an unspecified order, the model fixes the order of [map_to_list]. *)
Definition List (d : dataplaneStore) : list (option addr) :=
  snd <$> map_to_list (dataplanes d).

End objectstore.

(** ** The parts of imported packages the broker touches *)

(** [google.golang.org/grpc/codes] *)
Module codes.
Inductive Code : Type :=
  | OK | Canceled | Unknown | InvalidArgument | DeadlineExceeded | NotFound
  | AlreadyExists | PermissionDenied | ResourceExhausted | FailedPrecondition
  | Aborted | OutOfRange | Unimplemented | Internal | Unavailable | DataLoss
  | Unauthenticated.

#[global] Instance Code_eq_dec : EqDecision Code.
Proof. solve_decision. Defined.
End codes.

(** [google.golang.org/grpc/status]: the error a handler returns next to
    its reply; [status.Error] gives nil for [codes.OK]. *)
Module status.
Record Status : Type := { Code : codes.Code; Message : string }.

Definition Error (c : codes.Code) (msg : string) : option Status :=
  match c with
  | codes.OK => None
  | _ => Some {| Code := c; Message := msg |}
  end.
End status.

(** [pkg/nsm/apis/netmesh] *)
Module netmesh.
(** Modelled from the spec: the generated type [netmesh.NetworkService] is
    not part of the sources at hand; the spec gives it an identity (name)
    and an ordered collection of channels. The broker only tests a pointer
    to it for nil. *)
Record NetworkService : Type := {
  Name : string;
  Channel : list string
}.
End netmesh.

(** [pkg/nsm/apis/nsmconnect] *)
Module nsmconnect.
(** Modelled from the spec: the generated message types of [nsmconnect] are
    not part of the sources at hand. The request carries the fields the
    handler reads; connection parameters are a string-to-string mapping,
    empty in [&nsmconnect.ConnectionParameters{}]. *)
Record ConnectionParameters : Type := {
  Params : gmap string string
}.

Definition emptyConnectionParameters : ConnectionParameters := {| Params := ∅ |}.

Record ConnectionRequest : Type := {
  RequestId : string;
  NetworkServiceName : string;
  LinuxNamespace : string
}.

Record ConnectionReply : Type := {
  Accepted : bool;
  AdmissionError : string;
  ReplyConnectionParameters : option ConnectionParameters
}.
End nsmconnect.

(** [pkg/apis/networkservicemesh.io/v1] *)
Module nsmapi.
(** Modelled from the spec: an endpoint is an advertisement record (provider
    identity, service name, socket location); the broker only counts them. *)
Record NetworkServiceEndpoint : Type := {
  NseProviderName : string;
  NetworkServiceName : string;
  SocketLocation : string
}.
End nsmapi.

(** [k8s.io/kubernetes/pkg/kubelet/apis/deviceplugin/v1beta1] *)
Module pluginapi.
Definition Healthy : string := "Healthy".

Record Device : Type := { ID : string; Health : string }.

Record Mount : Type := {
  ContainerPath : string;
  HostPath : string;
  ReadOnly : bool
}.

Record ContainerAllocateRequest : Type := { DevicesIDs : list string }.
Record AllocateRequest : Type := {
  ContainerRequests : list ContainerAllocateRequest
}.

Record ContainerAllocateResponse : Type := { Mounts : list Mount }.
Record AllocateResponse : Type := {
  ContainerResponses : list ContainerAllocateResponse
}.

Record ListAndWatchResponse : Type := { Devices : list (option Device) }.

Record DevicePluginOptions : Type := { PreStartRequired : bool }.
Record PreStartContainerRequest : Type := { PreStartDevicesIDs : list string }.
Record PreStartContainerResponse : Type := { }.
End pluginapi.

(** [plugins/objectstore]: the interface through which the broker reads the
    registry of network services. Its implementation is outside the broker;
    the broker holds a value of the interface, that is, its method. A nil
    result means the service is not registered. *)
Module objectstoreapi.
Record Interface : Type := {
  GetNetworkService : string -> option netmesh.NetworkService
}.

(** Modelled from the spec: the registry of network services is a mapping
    keyed by name whose lookup returns the descriptor or an absent result. *)
Definition registry (services : gmap string netmesh.NetworkService) : Interface :=
  {| GetNetworkService := fun name => services !! name |}.
End objectstoreapi.

(** [pkg/client/clientset/versioned]: the one call the broker makes,
    [NetworkserviceV1().NetworkServiceEndpoints(namespace).List(options)],
    answered by the cluster with a list of endpoints or with an error. *)
Module nsmclient.
Record Clientset : Type := {
  ListNetworkServiceEndpoints :
    string -> string -> Go.error + list nsmapi.NetworkServiceEndpoint
}.
End nsmclient.

(** [pkg/nsm/apis/common] *)
Module common.
(** Modelled from the spec: the generated types of [common] are not part of
    the sources at hand. An interface descriptor carries a type and a
    preference ranking, both protobuf enumerations (numbers); a local
    mechanism carries a type and string parameters. The field the source
    calls [Type] is [Type'] here. *)
Record Interface : Type := {
  Type' : Z;
  Preference : Z
}.

Record LocalMechanism : Type := {
  MechanismType : Z;
  Parameters : gmap string string
}.
End common.

(** Package [net] of the Go library, as far as the listener wrapper of
    the broker and the example endpoint touch it. *)
Module net.
(** [net.UnixAddr] *)
Record UnixAddr : Type := { Name : string; Net : string }.

(** A [net.Addr]: a pointer to a [UnixAddr], or an address of another
    kind given by what its methods [Network] and [String] return. *)
Inductive Addr : Type :=
  | unixAddr (a : option UnixAddr)
  | otherAddr (network text : string).

(** A [net.Conn], by the addresses of its two ends. *)
Record Conn : Type := { LocalAddr : Addr; RemoteAddr : Addr }.

(** A [net.Listener], by what its next [Accept] answers. *)
Record Listener : Type := { Accept : Go.error + Conn }.

(** [net.Interface] *)
Record Interface : Type := { InterfaceName : string }.
End net.

(** ** Package nsmserver *)
Module nsmserver.
Import Go.

(** What the file takes from the rest of its package, from libraries and
    from the world around one call. *)
Class Environment : Type := {
  (** package constants declared in other files of [nsmserver] *)
  EndpointServiceLabel : string;
  SocketBaseDir : string;
  ServerSock : string;
  folderMask : N;
  (** [labels.SelectorFromSet(labels.Set(m)).String()] *)
  selectorString : list (string * string) -> string;
  (** [path.Join] *)
  path_Join : list string -> string;
  (** [os.MkdirAll path perm]: the answer of the file system for a path *)
  os_MkdirAll : string -> N -> option error;
  (** whether the task holding the receiving end of a stop channel takes
      the stop signal and sends its confirmation back *)
  stopConfirmed : nat -> bool;
  (** package constant [socketMask] *)
  socketMask : N;
  (** [tools.SocketCleanup], [net.Listen] on a unix socket and
      [tools.SocketOperationCheck]: their answers for a socket path *)
  tools_SocketCleanup : string -> option error;
  net_Listen : string -> option error;
  tools_SocketOperationCheck : string -> option error;
  (** whether a stop signal is ever sent on a channel (by [Allocate], which
      then waits for the confirmation) *)
  stopRequested : nat -> bool
}.

(** [time.Second], in nanoseconds. *)
Definition Second : Z := 1000000000.

(** [type nsmSocket struct]; a channel is the number [make] gave it, nil is
    [None]. *)
Record nsmSocket : Type := {
  device : option pluginapi.Device;
  socketPath : string;
  stopChannel : option nat;
  allocated : bool
}.

(** [type clientNetworkService struct] (the flag is [isInProgress] in the
    source, a name the accessor function below keeps). *)
Record clientNetworkService : Type := {
  networkService : option netmesh.NetworkService;
  ConnectionParameters : option nsmconnect.ConnectionParameters;
  inProgress : bool
}.

(** [type nsmClientEndpoints struct]. [k8sClient] is passed along and never
    used by the code below. *)
Record nsmClientEndpoints : Type := {
  nsmSockets : gmap string nsmSocket;
  objectStore : objectstoreapi.Interface;
  clientConnections : gmap string (gmap string (option clientNetworkService));
  nsmClient : nsmclient.Clientset;
  namespace : string
}.

Definition set_nsmSockets (n : nsmClientEndpoints) (m : gmap string nsmSocket)
  : nsmClientEndpoints :=
  {| nsmSockets := m;
     objectStore := objectStore n;
     clientConnections := clientConnections n;
     nsmClient := nsmClient n;
     namespace := namespace n |}.

Definition set_clientConnections (n : nsmClientEndpoints)
    (m : gmap string (gmap string (option clientNetworkService)))
  : nsmClientEndpoints :=
  {| nsmSockets := nsmSockets n;
     objectStore := objectStore n;
     clientConnections := m;
     nsmClient := nsmClient n;
     namespace := namespace n |}.

Section broker.
Context `{Environment}.

(** [func getNetworkServiceEndpoint(k8sClient, nsmClient, networkService,
    namespace) ([]nsmapi.NetworkServiceEndpoint, error)] *)
Definition getNetworkServiceEndpoint (nsmClient : nsmclient.Clientset)
    (networkService namespace : string)
  : list nsmapi.NetworkServiceEndpoint * option error :=
  let selector := selectorString [(EndpointServiceLabel, networkService)] in
  match nsmclient.ListNetworkServiceEndpoints nsmClient namespace selector with
  | inl err => ([], Some err)
  | inr items => (items, None)
  end.

(** [func isInProgress(networkService *clientNetworkService) bool] *)
Definition isInProgress (networkService : option clientNetworkService)
  : outcome bool :=
  match networkService with
  | None => Panics nil_dereference
  | Some cns => Returns (inProgress cns)
  end.

(** [func (n *nsmClientEndpoints) RequestConnection(ctx, cr)]: the receiver
    after the call, and the reply with the status error returned next to
    it. *)
Definition RequestConnection (n : nsmClientEndpoints)
    (cr : nsmconnect.ConnectionRequest)
  : nsmClientEndpoints *
    outcome (nsmconnect.ConnectionReply * option status.Status) :=
  let RequestId := nsmconnect.RequestId cr in
  let NetworkServiceName := nsmconnect.NetworkServiceName cr in
  let newRequest :=
    let '(endpointList, err) :=
      getNetworkServiceEndpoint (nsmClient n) NetworkServiceName (namespace n) in
    match err with
    | Some err =>
        (n, Returns
          ({| nsmconnect.Accepted := false;
              nsmconnect.AdmissionError :=
                Sprintf "connection request %s failed to get a list of endpoints for requested Network Service %s with error: %+v"
                  [RequestId; NetworkServiceName; err];
              nsmconnect.ReplyConnectionParameters := None |},
           status.Error codes.Aborted
             "failed to get a list of endpoints for requested Network Service"))
    | None =>
        if Nat.eqb (length endpointList) 0 then
          (n, Returns
            ({| nsmconnect.Accepted := false;
                nsmconnect.AdmissionError :=
                  Sprintf "connection request %s failed no endpoints were found for requested Network Service %s"
                    [RequestId; NetworkServiceName];
                nsmconnect.ReplyConnectionParameters := None |},
             status.Error codes.NotFound
               "failed no endpoints were found for requested Network Service"))
        else
          (n, Returns
            ({| nsmconnect.Accepted := true;
                nsmconnect.AdmissionError := EmptyString;
                nsmconnect.ReplyConnectionParameters :=
                  Some nsmconnect.emptyConnectionParameters |},
             None))
    end in
  match objectstoreapi.GetNetworkService (objectStore n) NetworkServiceName with
  | None =>
      (n, Returns
        ({| nsmconnect.Accepted := false;
            nsmconnect.AdmissionError :=
              Sprintf "requested Network Service %s does not exist" [RequestId];
            nsmconnect.ReplyConnectionParameters := None |},
         status.Error codes.NotFound "requested network service not found"))
  | Some ns =>
      match clientConnections n !! RequestId with
      | Some services =>
          match services !! NetworkServiceName with
          | Some entry =>
              match isInProgress entry with
              | Returns true =>
                  (n, Returns
                    ({| nsmconnect.Accepted := false;
                        nsmconnect.AdmissionError :=
                          Sprintf "dataplane for requested Network Service %s is still being programmed, retry"
                            [RequestId];
                        nsmconnect.ReplyConnectionParameters := None |},
                     status.Error codes.AlreadyExists
                       "dataplane for requested network service is being programmed, retry"))
              | Returns false =>
                  (n, Returns
                    ({| nsmconnect.Accepted := true;
                        nsmconnect.AdmissionError := EmptyString;
                        nsmconnect.ReplyConnectionParameters :=
                          Some nsmconnect.emptyConnectionParameters |},
                     None))
              | Panics msg => (n, Panics msg)
              | Blocks => (n, Blocks)
              end
          | None => newRequest
          end
      | None => newRequest
      end
  end.

(** [func cleanConnectionRequest(requestID string, n *nsmClientEndpoints)] *)
Definition cleanConnectionRequest (requestID : string) (n : nsmClientEndpoints)
  : nsmClientEndpoints :=
  set_clientConnections n (delete requestID (clientConnections n)).

(** *** The device plugin side *)

(** The part of the Go runtime [Allocate] acts on: the channels made so
    far (numbered in order of creation), those closed, and the tasks
    started with [go startClientServer(id, n)], oldest first. *)
Record runtime : Type := {
  channelsMade : nat;
  closedChannels : gset nat;
  started : list string
}.

(** [make(chan bool)] *)
Definition makeChan (rt : runtime) : nat * runtime :=
  (channelsMade rt,
   {| channelsMade := S (channelsMade rt);
      closedChannels := closedChannels rt;
      started := started rt |}).

(** The three statements on the stop channel of a used socket:
    [ch <- true], [<-ch], [close(ch)]. A send on a nil channel blocks
    forever, a send on a closed channel panics; the channel is unbuffered,
    so send and receive complete only with the task at the other end. *)
Definition stopServer (rt : runtime) (ch : option nat) : outcome runtime :=
  match ch with
  | None => Blocks
  | Some c =>
      if decide (c ∈ closedChannels rt) then Panics "send on closed channel"
      else if stopConfirmed c then
        Returns {| channelsMade := channelsMade rt;
                   closedChannels := {[c]} ∪ closedChannels rt;
                   started := started rt |}
      else Blocks
  end.

(** [go startClientServer(id, n)] *)
Definition goStartClientServer (id : string) (rt : runtime) : runtime :=
  {| channelsMade := channelsMade rt;
     closedChannels := closedChannels rt;
     started := started rt ++ [id] |}.

(** The mount [Allocate] builds for a device id. *)
Definition mountFor (id : string) : pluginapi.Mount :=
  {| pluginapi.ContainerPath := SocketBaseDir;
     pluginapi.HostPath := path_Join [SocketBaseDir; Sprintf "nsm-%s" [id]];
     pluginapi.ReadOnly := false |}.

(** The body of the inner loop of [Allocate], for one device id. *)
Definition allocateDevice (id : string)
    (st : nsmClientEndpoints * runtime * list pluginapi.Mount)
  : outcome (nsmClientEndpoints * runtime * list pluginapi.Mount) :=
  let '(n, rt, mounts) := st in
  match nsmSockets n !! id with
  | None => Returns (n, rt, mounts)
  | Some sock =>
      rt ← (if allocated sock then stopServer rt (stopChannel sock)
            else Returns rt);
      let mount := mountFor id in
      let '(ch, rt) := makeChan rt in
      let n :=
        set_nsmSockets n
          (<[id := {| device := Some {| pluginapi.ID := id;
                                        pluginapi.Health := pluginapi.Healthy |};
                      socketPath := path_Join [pluginapi.HostPath mount; ServerSock];
                      stopChannel := Some ch;
                      allocated := true |}]> (nsmSockets n)) in
      match os_MkdirAll (pluginapi.HostPath mount) folderMask with
      | None => Returns (n, goStartClientServer id rt, mounts ++ [mount])
      | Some _ => Returns (n, rt, mounts)
      end
  end.

(** [for _, id := range req.DevicesIDs { ... }] *)
Fixpoint allocateDevices (ids : list string)
    (st : nsmClientEndpoints * runtime * list pluginapi.Mount)
  : outcome (nsmClientEndpoints * runtime * list pluginapi.Mount) :=
  match ids with
  | [] => Returns st
  | id :: ids' => st' ← allocateDevice id st; allocateDevices ids' st'
  end.

(** [for _, req := range reqs.ContainerRequests { ... }] *)
Fixpoint allocateContainers (reqs : list pluginapi.ContainerAllocateRequest)
    (st : nsmClientEndpoints * runtime)
    (responses : list pluginapi.ContainerAllocateResponse)
  : outcome (nsmClientEndpoints * runtime *
             list pluginapi.ContainerAllocateResponse) :=
  match reqs with
  | [] => Returns (st, responses)
  | req :: reqs' =>
      '(n, rt, mounts) ←
        allocateDevices (pluginapi.DevicesIDs req) (st.1, st.2, []);
      let response := {| pluginapi.Mounts := mounts |} in
      allocateContainers reqs' (n, rt) (responses ++ [response])
  end.

(** [func (n *nsmClientEndpoints) Allocate(ctx, reqs)]: the receiver and
    the runtime after the call, the response, and the error returned next
    to it, which is always nil. *)
Definition Allocate (n : nsmClientEndpoints) (rt : runtime)
    (reqs : pluginapi.AllocateRequest)
  : outcome (nsmClientEndpoints * runtime *
             (pluginapi.AllocateResponse * option error)) :=
  '(n, rt, responses) ←
    allocateContainers (pluginapi.ContainerRequests reqs) (n, rt) [];
  Returns (n, rt, ({| pluginapi.ContainerResponses := responses |}, None)).

(** What a client server task does to the world, in order. *)
Inductive serverEvent : Type :=
  | SocketCleanup (path : string)
  | Umask (mask : N)
  | Listen (path : string)
  | GoServe (path : string)
  | OperationCheck (path : string)
  | ReceiveStop (ch : nat)
  | SendConfirmation (ch : nat).

(** One run of [startClientServer]: what it did, its local variable
    [client] when it ended, the socket on which the gRPC server it started
    is serving when it ended (the function holds the only reference to
    that server and ends without a call of its [Stop]), and how it ended. *)
Record serverRun : Type := {
  trace : list serverEvent;
  client : nsmSocket;
  serving : option string;
  finished : outcome unit
}.

(** The zero value of [nsmSocket], which indexing the table gives for a
    missing key. *)
Definition zeroSocket : nsmSocket :=
  {| device := None; socketPath := EmptyString; stopChannel := None;
     allocated := false |}.

Definition disallocate (client : nsmSocket) : nsmSocket :=
  {| device := device client; socketPath := socketPath client;
     stopChannel := stopChannel client; allocated := false |}.

(** [func startClientServer(id string, endpoints *nsmClientEndpoints)]: the
    receiver after the call and the run. [client] is a copy of the table
    entry (the table holds structs, not pointers), so the assignments to
    [client.allocated] stay in the copy. *)
Definition startClientServer (id : string) (endpoints : nsmClientEndpoints)
    (rt : runtime) : nsmClientEndpoints * serverRun :=
  let client := default zeroSocket (nsmSockets endpoints !! id) in
  let listenEndpoint := socketPath client in
  match tools_SocketCleanup listenEndpoint with
  | Some _ =>
      (endpoints,
       {| trace := [SocketCleanup listenEndpoint];
          client := disallocate client; serving := None;
          finished := Returns tt |})
  | None =>
      match net_Listen listenEndpoint with
      | Some _ =>
          (endpoints,
           {| trace := [SocketCleanup listenEndpoint; Umask socketMask;
                        Listen listenEndpoint];
              client := disallocate client; serving := None;
              finished := Returns tt |})
      | None =>
          let started :=
            [SocketCleanup listenEndpoint; Umask socketMask;
             Listen listenEndpoint; GoServe listenEndpoint;
             OperationCheck listenEndpoint] in
          match tools_SocketOperationCheck listenEndpoint with
          | Some _ =>
              (endpoints,
               {| trace := started;
                  client := disallocate client;
                  serving := Some listenEndpoint;
                  finished := Returns tt |})
          | None =>
              (* select { case <-client.stopChannel: } *)
              match stopChannel client with
              | None =>
                  (endpoints,
                   {| trace := started; client := client;
                      serving := Some listenEndpoint; finished := Blocks |})
              | Some ch =>
                  if decide (ch ∈ closedChannels rt) then
                    (* the receive yields at once, the send panics *)
                    (endpoints,
                     {| trace := started ++ [ReceiveStop ch];
                        client := disallocate client;
                        serving := Some listenEndpoint;
                        finished := Panics "send on closed channel" |})
                  else if stopRequested ch then
                    (endpoints,
                     {| trace := started ++ [ReceiveStop ch; SendConfirmation ch];
                        client := disallocate client;
                        serving := Some listenEndpoint;
                        finished := Returns tt |})
                  else
                    (endpoints,
                     {| trace := started; client := client;
                        serving := Some listenEndpoint; finished := Blocks |})
              end
          end
      end
  end.

(** What the watch loop does to the world, in order. *)
Inductive event : Type :=
  | Send (resp : pluginapi.ListAndWatchResponse)
  | LogErrorf (msg : string)
  | Sleep (nanoseconds : Z).

(** How one pass through a loop body ends. *)
Inductive control (A : Type) : Type :=
  | Continue
  | Return (a : A).
#[global] Arguments Continue {A}.
#[global] Arguments Return {A} a.

(** The response built at the head of the loop body: the device of every
    socket in the table (Go leaves the order of a map range unspecified,
    the model takes that of [map_to_list]). *)
Definition deviceTable (n : nsmClientEndpoints) : pluginapi.ListAndWatchResponse :=
  {| pluginapi.Devices := (fun kv => device kv.2) <$> map_to_list (nsmSockets n) |}.

(** The body of the [for] loop of [ListAndWatch], given the receiver as it
    is when the pass starts and the answer of [s.Send]. *)
Definition listAndWatchPass (n : nsmClientEndpoints) (sendResult : option error)
  : list event * control (option error) :=
  let resp := deviceTable n in
  let logged :=
    match sendResult with
    | Some err =>
        [LogErrorf (Sprintf ("Failed to send response to kubelet: %v" +:+ newline)
                      [err])]
    | None => []
    end in
  ([Send resp] ++ logged ++ [Sleep (5 * Second)], Continue).

(** [func (n *nsmClientEndpoints) ListAndWatch(e, s) error], unfolded for
    [passes] passes from pass number [i]. The table is read anew in each
    pass ([table j] is the receiver during pass [j], other tasks may have
    changed it in between) and [sendResult j] is what the [j]-th [s.Send]
    answers. The result is what the call has done so far and, if it has
    returned, the error it returned. *)
Fixpoint ListAndWatch (passes : nat) (table : nat -> nsmClientEndpoints)
    (sendResult : nat -> option error) (i : nat)
  : list event * option (option error) :=
  match passes with
  | O => ([], None)
  | S passes' =>
      let '(events, ctl) := listAndWatchPass (table i) (sendResult i) in
      match ctl with
      | Return err => (events, Some err)
      | Continue =>
          let '(events', result) :=
            ListAndWatch passes' table sendResult (S i) in
          (events ++ events', result)
      end
  end.

End broker.

(** *** The interface list ordered by preference *)

(** [type sortedInterfaceList struct]: a slice of pointers. *)
Record sortedInterfaceList : Type := {
  interfaceList : list (option common.Interface)
}.

(** The runtime error of an index outside a slice. *)
Definition index_out_of_range : string := "runtime error: index out of range".

(** [func (s sortedInterfaceList) Len() int] *)
Definition Len (s : sortedInterfaceList) : nat := length (interfaceList s).

(** [func (s sortedInterfaceList) Swap(i, j int)]: the list after the
    call (the receiver is a copy, its slice shares the elements). Both
    elements are read before either is written. *)
Definition Swap (s : sortedInterfaceList) (i j : nat) : outcome sortedInterfaceList :=
  match interfaceList s !! j, interfaceList s !! i with
  | Some atJ, Some atI =>
      Returns {| interfaceList := <[j := atI]> (<[i := atJ]> (interfaceList s)) |}
  | _, _ => Panics index_out_of_range
  end.

(** [func (s sortedInterfaceList) Less(i, j int) bool] *)
Definition Less (s : sortedInterfaceList) (i j : nat) : outcome bool :=
  match interfaceList s !! i with
  | None => Panics index_out_of_range
  | Some None => Panics nil_dereference
  | Some (Some atI) =>
      match interfaceList s !! j with
      | None => Panics index_out_of_range
      | Some None => Panics nil_dereference
      | Some (Some atJ) =>
          Returns (Z.ltb (common.Preference atI) (common.Preference atJ))
      end
  end.

(** *** The remaining device plugin calls *)

(** [func (n *nsmClientEndpoints) GetDevicePluginOptions(ctx, empty)] *)
Definition GetDevicePluginOptions (n : nsmClientEndpoints)
  : nsmClientEndpoints * (pluginapi.DevicePluginOptions * option error) :=
  (n, ({| pluginapi.PreStartRequired := false |}, None)).

(** [func (n *nsmClientEndpoints) PreStartContainer(ctx, req)] *)
Definition PreStartContainer (n : nsmClientEndpoints)
    (req : pluginapi.PreStartContainerRequest)
  : nsmClientEndpoints * (pluginapi.PreStartContainerResponse * option error) :=
  (n, (pluginapi.Build_PreStartContainerResponse, None)).

(** *** The listener that names its socket *)

(** [type customConn struct]: the embedded connection and the address
    reported for its remote end. *)
Record customConn : Type := {
  Conn : net.Conn;
  localAddr : option net.UnixAddr
}.

(** [func (c customConn) RemoteAddr() net.Addr] *)
Definition RemoteAddr (c : customConn) : net.Addr := net.unixAddr (localAddr c).

(** [type customListener struct]; the embedded listener is an interface
    value, nil in the zero value. *)
Record customListener : Type := {
  Listener : option net.Listener;
  serverSocket : string
}.

(** [func (l customListener) Accept() (net.Conn, error)]: the connection
    returned is a pointer to a [customConn]. *)
Definition Accept (l : customListener) : outcome (option customConn * option error) :=
  match Listener l with
  | None => Panics nil_dereference
  | Some inner =>
      match net.Accept inner with
      | inl err => Returns (None, Some err)
      | inr conn =>
          Returns
            (Some {| Conn := conn;
                     localAddr := Some {| net.Net := "unix";
                                          net.Name := serverSocket l |} |},
             None)
      end
  end.

(** [func newCustomListener(socket string) (customListener, error)], given
    [net.Listen] as the function of network and address it is. *)
Definition newCustomListener
    (net_Listen : string -> string -> error + net.Listener) (socket : string)
  : customListener * option error :=
  match net_Listen "unix" socket with
  | inr listener =>
      ({| Listener := Some listener; serverSocket := socket |}, None)
  | inl err => ({| Listener := None; serverSocket := EmptyString |}, Some err)
  end.

End nsmserver.


(** [pkg/nsm/apis/netmesh]: the advertisement record *)
Module netmeshapi.
(** Modelled from the spec: an endpoint advertisement carries the provider
    identity, the service name, the socket location and the supported
    local mechanisms; the fields are those the example endpoint sets. *)
Record NetworkServiceEndpoint : Type := {
  NseProviderName : string;
  NetworkServiceName : string;
  SocketLocation : string;
  LocalMechanisms : list (option common.LocalMechanism)
}.
End netmeshapi.

(** [pkg/nsm/apis/nseconnect]: the messages of the endpoint API.
    Modelled from the spec and from the fields the example endpoint reads
    and writes: the generated types are not part of the sources at hand. *)
Module nseconnect.

Module EndpointConnectionRequest.
Record t : Type := { RequestId : string; NetworkServiceName : string }.
End EndpointConnectionRequest.

Module EndpointConnectionReply.
Record t : Type := {
  RequestId : string;
  NetworkServiceName : string;
  LinuxNamespace : string
}.
End EndpointConnectionReply.

Module EndpointConnectionMechanism.
Record t : Type := {
  RequestId : string;
  NetworkServiceName : string;
  LocalMechanism : option common.LocalMechanism
}.
End EndpointConnectionMechanism.

Module EndpointConnectionMechanismReply.
Record t : Type := { RequestId : string; MechanismFound : bool }.
End EndpointConnectionMechanismReply.

Module EndpointAdvertiseRequest.
Record t : Type := {
  RequestId : string;
  NetworkEndpoint : option netmeshapi.NetworkServiceEndpoint
}.
End EndpointAdvertiseRequest.

Module EndpointAdvertiseReply.
Record t : Type := { Accepted : bool; AdmissionError : string }.
End EndpointAdvertiseReply.

End nseconnect.

(** ** Package main of [cmd/examples/nse]: the example endpoint *)
Module nse.
Import Go.

Definition networkServiceName : string := "gold-network".
Definition EndpointSocketBaseDir : string := "/var/lib/networkservicemesh".
Definition EndpointSocket : string := "nsm.endpoint.io.sock".
Definition NSMkeyNSELocalMechanism : string := "nselocalmechanism".

(** [common.LocalMechanismType_KERNEL_INTERFACE], a protobuf enumeration
    value declared outside the sources at hand; its number is not used. *)
Definition LocalMechanismType_KERNEL_INTERFACE : Z := 0.

(** What the endpoint takes from libraries and from the world around it. *)
Class World : Type := {
  (** [rest.Config] and [kubernetes.Clientset] *)
  Config : Type;
  Clientset : Type;
  (** [os.Getenv] *)
  os_Getenv : string -> string;
  (** [flag.Parse] on the arguments of the process. The command-line flag
      set is [flag.ExitOnError]: when it refuses the arguments, [Parse]
      prints the usage and ends the process itself, with the status given
      here (2 for a flag that is not defined); [None] when the arguments
      were parsed *)
  flag_Parse : option Z;
  (** the value of the [-kubeconfig] flag once [flag.Parse] has run *)
  flag_kubeconfig : string;
  (** [clientcmd.BuildConfigFromFlags], [rest.InClusterConfig] and
      [kubernetes.NewForConfig] *)
  clientcmd_BuildConfigFromFlags : string -> string -> error + Config;
  rest_InClusterConfig : error + Config;
  kubernetes_NewForConfig : Config -> error + Clientset;
  (** [k8s.CoreV1().Pods(namespace).Get(podName, ...)], then [GetUID] of
      the pod found *)
  getPodUID : Clientset -> string -> string -> error + string;
  (** [tools.GetCurrentNS] *)
  tools_GetCurrentNS : error + string;
  (** [path.Join] *)
  path_Join : list string -> string;
  (** [tools.SocketCleanup], [net.Listen], [tools.SocketOperationCheck]
      and [os.Stat] *)
  tools_SocketCleanup : string -> option error;
  net_Listen : string -> string -> error + net.Listener;
  tools_SocketOperationCheck : string -> option error;
  os_Stat : string -> option error;
  (** [AdvertiseEndpoint] of the client made on the connection to the
      socket given *)
  AdvertiseEndpoint :
    string -> nseconnect.EndpointAdvertiseRequest.t ->
    error + nseconnect.EndpointAdvertiseReply.t;
  (** [strings.ToLower] and [net.Interfaces] *)
  strings_ToLower : string -> string;
  net_Interfaces : error + list net.Interface
}.

(** [type nseConnection struct] *)
Record nseConnection : Type := {
  podUID : string;
  nseNetworkServiceName : string;
  linuxNamespace : string
}.

(** [func (n nseConnection) RequestEndpointConnection(ctx, req)] *)
Definition RequestEndpointConnection (n : nseConnection)
    (req : nseconnect.EndpointConnectionRequest.t)
  : nseconnect.EndpointConnectionReply.t * option error :=
  ({| nseconnect.EndpointConnectionReply.RequestId := podUID n;
      nseconnect.EndpointConnectionReply.NetworkServiceName := nseNetworkServiceName n;
      nseconnect.EndpointConnectionReply.LinuxNamespace := linuxNamespace n |},
   None).

Section endpoint.
Context `{World}.

(** The loop of [SendEndpointConnectionMechanism] over the interfaces of
    the host: whether it returns from inside, at the first interface whose
    lower-cased name is the lower-cased name looked for. *)
Fixpoint interfaceListed (interfaces : list net.Interface) (interfaceName : string)
  : bool :=
  match interfaces with
  | [] => false
  | intfs :: rest =>
      if String.eqb (strings_ToLower (net.InterfaceName intfs))
                    (strings_ToLower interfaceName)
      then true
      else interfaceListed rest interfaceName
  end.

(** [func (n nseConnection) SendEndpointConnectionMechanism(ctx, req)] *)
Definition SendEndpointConnectionMechanism (n : nseConnection)
    (req : nseconnect.EndpointConnectionMechanism.t)
  : outcome (nseconnect.EndpointConnectionMechanismReply.t * option error) :=
  let reply found :=
    {| nseconnect.EndpointConnectionMechanismReply.RequestId :=
         nseconnect.EndpointConnectionMechanism.RequestId req;
       nseconnect.EndpointConnectionMechanismReply.MechanismFound := found |} in
  match nseconnect.EndpointConnectionMechanism.LocalMechanism req with
  | None => Panics nil_dereference
  | Some mechanism =>
      match common.Parameters mechanism !! NSMkeyNSELocalMechanism with
      | None =>
          Returns (reply false,
                   Some (Sprintf "Missing nselocalmechansim key in parameters" []))
      | Some interfaceName =>
          match net_Interfaces with
          | inl err =>
              Returns (reply false,
                       Some (Sprintf "Failed to lists interfaces with error: %+v" [err]))
          | inr interfaces =>
              if interfaceListed interfaces interfaceName
              then Returns (reply true, None)
              else Returns (reply false,
                            Some (Sprintf "Interface %s is not found" [interfaceName]))
          end
      end
  end.

(** [func buildClient()], given the string the package variable
    [kubeconfig] points to: that string after the call, and the client
    and error returned. *)
Definition buildClient (kubeconfig : string)
  : string * (option Clientset * option error) :=
  let kubeconfigEnv := os_Getenv "KUBECONFIG" in
  let kubeconfig :=
    if String.eqb kubeconfigEnv EmptyString then kubeconfig else kubeconfigEnv in
  let config :=
    if String.eqb kubeconfig EmptyString then rest_InClusterConfig
    else clientcmd_BuildConfigFromFlags EmptyString kubeconfig in
  match config with
  | inl err => (kubeconfig, (None, Some err))
  | inr config =>
      match kubernetes_NewForConfig config with
      | inl err => (kubeconfig, (None, Some err))
      | inr k8s => (kubeconfig, (Some k8s, None))
      end
  end.

(** What [main] does to the world, in order. *)
Inductive event : Type :=
  | GetPod (namespace podName : string)
  | CleanSocket (path : string)
  | ListenOn (path : string)
  | Serve (path : string) (server : nseConnection)
  | Probe (path : string)
  | Stat (path : string)
  | Advertise (socket : string) (req : nseconnect.EndpointAdvertiseRequest.t)
  | Stop.

(** How [main] ends: the process exits with a status, panics, or has
    reached [wg.Wait()] with its server running. *)
Inductive ending : Type :=
  | Exit (code : Z)
  | Panic (msg : string)
  | Wait.

(** A stretch of [main]: what it did, and either how the process ended in
    it or the value it goes on with. *)
Inductive proc (A : Type) : Type :=
  | Proc (trace : list event) (result : ending + A).
#[global] Arguments Proc {A} trace result.

Definition traceOf {A : Type} (p : proc A) : list event :=
  match p with Proc trace _ => trace end.
Definition resultOf {A : Type} (p : proc A) : ending + A :=
  match p with Proc _ result => result end.

#[global] Instance proc_ret : MRet proc := fun A a => Proc [] (inr a).
#[global] Instance proc_bind : MBind proc := fun A B k m =>
  match m with
  | Proc trace (inl e) => Proc trace (inl e)
  | Proc trace (inr a) =>
      match k a with
      | Proc trace' result => Proc (trace ++ trace') result
      end
  end.

Definition emit (e : event) : proc unit := Proc [e] (inr tt).
Definition endWith {A : Type} (e : ending) : proc A := Proc [] (inl e).

(** [if err != nil { log; os.Exit(1) }], which is also what
    [logrus.Fatalf] amounts to. *)
Definition orExit {A : Type} (r : error + A) : proc A :=
  match r with
  | inl _ => endWith (Exit 1)
  | inr a => mret a
  end.
Definition check (err : option error) : proc unit :=
  match err with
  | Some _ => endWith (Exit 1)
  | None => mret tt
  end.

(** [flag.Parse()], the first statement of [main]. *)
Definition parseFlags : proc unit :=
  match flag_Parse with
  | Some status => endWith (Exit status)
  | None => mret tt
  end.

(** [func main()], up to [wg.Wait()]. The task started with [go] to run
    [grpcServer.Serve] is recorded by [Serve] and not followed; every
    [logrus.Fatalf] and every [os.Exit(1)] ends the process with status
    1, without running the deferred [conn.Close()]. *)
Definition main : proc unit :=
  _ ← parseFlags;
  k8s ← match (buildClient flag_kubeconfig).2 with
        | (_, Some _) => endWith (Exit 1)
        | (Some k8s, None) => mret k8s
        | (None, None) => endWith (Panic nil_dereference)
        end;
  let namespace := os_Getenv "INIT_NAMESPACE" in
  if String.eqb namespace EmptyString then endWith (Exit 1) else
  let podName := os_Getenv "HOSTNAME" in
  _ ← emit (GetPod namespace podName);
  podUID ← orExit (getPodUID k8s namespace podName);
  linuxNS ← orExit tools_GetCurrentNS;
  let connectionServerSocket :=
    path_Join [EndpointSocketBaseDir; podUID +:+ ".nse.io.sock"] in
  _ ← emit (CleanSocket connectionServerSocket);
  _ ← check (tools_SocketCleanup connectionServerSocket);
  _ ← emit (ListenOn connectionServerSocket);
  connectionServer ← orExit (net_Listen "unix" connectionServerSocket);
  let nseConn :=
    {| podUID := podUID;
       nseNetworkServiceName := networkServiceName;
       linuxNamespace := linuxNS |} in
  _ ← emit (Serve connectionServerSocket nseConn);
  _ ← emit (Probe connectionServerSocket);
  _ ← check (tools_SocketOperationCheck connectionServerSocket);
  let advertiseSocket := path_Join [EndpointSocketBaseDir; EndpointSocket] in
  _ ← emit (Stat advertiseSocket);
  _ ← check (os_Stat advertiseSocket);
  _ ← emit (Probe advertiseSocket);
  _ ← check (tools_SocketOperationCheck advertiseSocket);
  let endpoint :=
    {| netmeshapi.NseProviderName := podUID;
       netmeshapi.NetworkServiceName := networkServiceName;
       netmeshapi.SocketLocation := connectionServerSocket;
       netmeshapi.LocalMechanisms :=
         [Some {| common.MechanismType := LocalMechanismType_KERNEL_INTERFACE;
                  common.Parameters := ∅ |}] |} in
  let req :=
    {| nseconnect.EndpointAdvertiseRequest.RequestId := podUID;
       nseconnect.EndpointAdvertiseRequest.NetworkEndpoint := Some endpoint |} in
  _ ← emit (Advertise advertiseSocket req);
  match AdvertiseEndpoint advertiseSocket req with
  | inl _ => _ ← emit Stop; endWith (Exit 1)
  | inr resp =>
      if nseconnect.EndpointAdvertiseReply.Accepted resp
      then endWith Wait
      else _ ← emit Stop; endWith (Exit 1)
  end.

End endpoint.
End nse.
(** ** Vocabulary of the statements about the broker *)
Module broker_terms.
Import Go nsmserver.

(** The replies and status errors of the five exits of [RequestConnection]. *)
Definition unknownServiceReply (cr : nsmconnect.ConnectionRequest)
  : nsmconnect.ConnectionReply :=
  {| nsmconnect.Accepted := false;
     nsmconnect.AdmissionError :=
       "requested Network Service " +:+ nsmconnect.RequestId cr +:+ " does not exist";
     nsmconnect.ReplyConnectionParameters := None |}.

Definition beingProgrammedReply (cr : nsmconnect.ConnectionRequest)
  : nsmconnect.ConnectionReply :=
  {| nsmconnect.Accepted := false;
     nsmconnect.AdmissionError :=
       "dataplane for requested Network Service " +:+ nsmconnect.RequestId cr
       +:+ " is still being programmed, retry";
     nsmconnect.ReplyConnectionParameters := None |}.

Definition listFailedReply (cr : nsmconnect.ConnectionRequest) (err : error)
  : nsmconnect.ConnectionReply :=
  {| nsmconnect.Accepted := false;
     nsmconnect.AdmissionError :=
       "connection request " +:+ nsmconnect.RequestId cr
       +:+ " failed to get a list of endpoints for requested Network Service "
       +:+ nsmconnect.NetworkServiceName cr +:+ " with error: " +:+ err;
     nsmconnect.ReplyConnectionParameters := None |}.

Definition noEndpointsReply (cr : nsmconnect.ConnectionRequest)
  : nsmconnect.ConnectionReply :=
  {| nsmconnect.Accepted := false;
     nsmconnect.AdmissionError :=
       "connection request " +:+ nsmconnect.RequestId cr
       +:+ " failed no endpoints were found for requested Network Service "
       +:+ nsmconnect.NetworkServiceName cr;
     nsmconnect.ReplyConnectionParameters := None |}.

Definition acceptedReply : nsmconnect.ConnectionReply :=
  {| nsmconnect.Accepted := true;
     nsmconnect.AdmissionError := EmptyString;
     nsmconnect.ReplyConnectionParameters :=
       Some {| nsmconnect.Params := ∅ |} |}.

Definition statusOf (c : codes.Code) (msg : string) : option status.Status :=
  Some {| status.Code := c; status.Message := msg |}.

(** What the two nested lookups of [RequestConnection] find for the pair
    (request id, service name) of a request: nothing ([None], for want of a
    table for the request id or of the service in it), or the pointer
    stored, which may be nil. *)
Definition dedupEntry (n : nsmClientEndpoints) (cr : nsmconnect.ConnectionRequest)
  : option (option clientNetworkService) :=
  match clientConnections n !! nsmconnect.RequestId cr with
  | Some services => services !! nsmconnect.NetworkServiceName cr
  | None => None
  end.

(** The query [RequestConnection] sends to the cluster for a request. *)
Definition endpointQuery `{Environment} (n : nsmClientEndpoints)
    (cr : nsmconnect.ConnectionRequest)
  : error + list nsmapi.NetworkServiceEndpoint :=
  nsmclient.ListNetworkServiceEndpoints (nsmClient n) (namespace n)
    (selectorString [(EndpointServiceLabel, nsmconnect.NetworkServiceName cr)]).

(** The descriptor [Allocate] stores for a device id, with stop channel
    [ch]. *)
Definition socketFor `{Environment} (id : string) (ch : nat) : nsmSocket :=
  {| device := Some {| pluginapi.ID := id; pluginapi.Health := pluginapi.Healthy |};
     socketPath :=
       path_Join [path_Join [SocketBaseDir; "nsm-" +:+ id]; ServerSock];
     stopChannel := Some ch;
     allocated := true |}.

(** The mount of a device id: the socket base directory as container path,
    its subdirectory [nsm-<id>] as host path. *)
Definition deviceMount `{Environment} (id : string) : pluginapi.Mount :=
  {| pluginapi.ContainerPath := SocketBaseDir;
     pluginapi.HostPath := path_Join [SocketBaseDir; "nsm-" +:+ id];
     pluginapi.ReadOnly := false |}.

(** A device id is prepared when it is a key of the socket table and its
    host directory can be made. *)
Definition prepared `{Environment} (known : gset string) (id : string) : Prop :=
  id ∈ known /\
  os_MkdirAll (path_Join [SocketBaseDir; "nsm-" +:+ id]) folderMask = None.

#[global] Instance prepared_dec `{Environment} known id : Decision (prepared known id).
Proof. unfold prepared. apply _. Defined.

(** The mounts of the prepared ids of a container request, in the order of
    the request. *)
Definition mountsFor `{Environment} (known : gset string) (ids : list string)
  : list pluginapi.Mount :=
  deviceMount <$> filter (prepared known) ids.

(** All device ids of a batch. *)
Definition batchIds (reqs : pluginapi.AllocateRequest) : list string :=
  concat (pluginapi.DevicesIDs <$> pluginapi.ContainerRequests reqs).

(** The stop channels of the table agree with the runtime: a socket flagged
    allocated holds a channel that was made and is not closed, no two such
    sockets share their channel, and only channels that were made are
    closed. *)
Definition channelsSound (n : nsmClientEndpoints) (rt : runtime) : Prop :=
  (forall id sock, nsmSockets n !! id = Some sock -> allocated sock = true ->
     exists c, stopChannel sock = Some c /\ c < channelsMade rt
               /\ c ∉ closedChannels rt)
  /\ (forall id1 id2 sock1 sock2,
       id1 <> id2 ->
       nsmSockets n !! id1 = Some sock1 -> nsmSockets n !! id2 = Some sock2 ->
       allocated sock1 = true -> allocated sock2 = true ->
       stopChannel sock1 <> stopChannel sock2)
  /\ (forall c, c ∈ closedChannels rt -> c < channelsMade rt).

(** What [Allocate] has done to the plugin once it is through the device
    ids [ids]: only the socket table changed; it has the same keys; every
    id of [ids] that is a key now holds the descriptor [socketFor] with a
    channel made during the call; the other keys hold what they held; and
    the channels still agree with the runtime. *)
Definition reallocated `{Environment} (ids : list string)
    (n : nsmClientEndpoints) (rt : runtime)
    (n' : nsmClientEndpoints) (rt' : runtime) : Prop :=
  channelsSound n' rt'
  /\ n' = set_nsmSockets n (nsmSockets n')
  /\ dom (nsmSockets n') = dom (nsmSockets n)
  /\ channelsMade rt <= channelsMade rt'
  /\ (forall id, id ∈ ids -> id ∈ dom (nsmSockets n) ->
       exists ch, nsmSockets n' !! id = Some (socketFor id ch)
                  /\ channelsMade rt <= ch < channelsMade rt')
  /\ (forall id, id ∉ ids -> nsmSockets n' !! id = nsmSockets n !! id).

(** What one pass of the watch loop does: it sends the device table as it
    is, logs the error if the send failed, and sleeps five seconds. *)
Definition watchPass (n : nsmClientEndpoints) (sendResult : option error)
  : list event :=
  [Send (deviceTable n)]
  ++ match sendResult with
     | Some err =>
         [LogErrorf ("Failed to send response to kubelet: " +:+ err +:+ newline)]
     | None => []
     end
  ++ [Sleep 5000000000].

(** The events of the watch loop that are sends. *)
Definition sends (events : list event) : list pluginapi.ListAndWatchResponse :=
  omap (fun e => match e with Send resp => Some resp | _ => None end) events.

End broker_terms.

(** ** Vocabulary of the further statements *)
Module more_terms.
Import Go nsmserver broker_terms.

(** What [Allocate] has done once it has returned from the device ids
    [ids], whatever the state it started in: only the socket table
    changed and it has the same keys; one channel was made for each id
    that is a key, one server task started for each prepared id, in
    order; no closed channel was reopened; every id of [ids] that is a
    key holds a new descriptor, the other keys hold what they held; and
    the channel of every entry of [ids] that was flagged allocated is
    closed. *)
Definition stepped `{Environment} (ids : list string)
    (n : nsmClientEndpoints) (rt : runtime)
    (n' : nsmClientEndpoints) (rt' : runtime) : Prop :=
  n' = set_nsmSockets n (nsmSockets n')
  /\ dom (nsmSockets n') = dom (nsmSockets n)
  /\ channelsMade rt'
     = channelsMade rt + length (filter (fun id => id ∈ dom (nsmSockets n)) ids)
  /\ started rt' = started rt ++ filter (prepared (dom (nsmSockets n))) ids
  /\ closedChannels rt ⊆ closedChannels rt'
  /\ (forall id, id ∈ ids -> id ∈ dom (nsmSockets n) ->
       exists ch, nsmSockets n' !! id = Some (socketFor id ch))
  /\ (forall id, id ∉ ids -> nsmSockets n' !! id = nsmSockets n !! id)
  /\ (forall id sock c,
       id ∈ ids -> nsmSockets n !! id = Some sock ->
       allocated sock = true -> stopChannel sock = Some c ->
       c ∈ closedChannels rt').

(** The responses of [Allocate] for the container requests [reqs] against
    a table with the keys [known]. *)
Definition responsesFor `{Environment} (known : gset string)
    (reqs : list pluginapi.ContainerAllocateRequest)
  : list pluginapi.ContainerAllocateResponse :=
  (fun req => {| pluginapi.Mounts := mountsFor known (pluginapi.DevicesIDs req) |})
    <$> reqs.

(** The device ids of a batch that are keys of the socket table, in the
    order of the batch and as often as they occur in it. *)
Definition batchKeys (n : nsmClientEndpoints) (reqs : pluginapi.AllocateRequest)
  : list string :=
  filter (fun id => id ∈ dom (nsmSockets n)) (batchIds reqs).

(** The stop handshake of the entries of [ids] goes through: every entry
    of the table under an id of [ids] that is flagged allocated holds a
    channel on which the stop signal is confirmed. *)
Definition stopsConfirmed `{Environment} (ids : list string)
    (n : nsmClientEndpoints) : Prop :=
  forall id sock c,
    id ∈ ids -> nsmSockets n !! id = Some sock ->
    allocated sock = true -> stopChannel sock = Some c ->
    stopConfirmed c = true.

(** Every id of [ids] that was a key holds the descriptor [socketFor] on
    a channel made between the two runtimes. *)
Definition madeDuring `{Environment} (ids : list string)
    (n : nsmClientEndpoints) (rt : runtime)
    (n' : nsmClientEndpoints) (rt' : runtime) : Prop :=
  forall id, id ∈ ids -> id ∈ dom (nsmSockets n) ->
    exists ch, nsmSockets n' !! id = Some (socketFor id ch)
               /\ channelsMade rt <= ch < channelsMade rt'.

(** One container asking for one device id. *)
Definition single (id : string) : pluginapi.AllocateRequest :=
  {| pluginapi.ContainerRequests := [ {| pluginapi.DevicesIDs := [id] |} ] |}.

(** The index [Swap i j] moves to position [k]. *)
Definition swapped (i j k : nat) : nat :=
  if decide (k = i) then j else if decide (k = j) then i else k.

(** The preference of the interface at an index, if the index is in range
    and the pointer there is not nil. *)
Definition preferenceAt (s : sortedInterfaceList) (i : nat) : option Z :=
  match interfaceList s !! i with
  | Some (Some intf) => Some (common.Preference intf)
  | _ => None
  end.

End more_terms.

(** ** Vocabulary of the statements about the example endpoint *)
Module nse_terms.
Import Go nse.

(** The socket on which the endpoint of a pod serves, and the socket of
    the broker on which it advertises. *)
Definition connectionSocket `{World} (uid : string) : string :=
  path_Join [EndpointSocketBaseDir; uid +:+ ".nse.io.sock"].
Definition advertiseSocket `{World} : string :=
  path_Join [EndpointSocketBaseDir; EndpointSocket].

(** The advertisement of the endpoint of a pod. *)
Definition advertisement `{World} (uid : string)
  : nseconnect.EndpointAdvertiseRequest.t :=
  {| nseconnect.EndpointAdvertiseRequest.RequestId := uid;
     nseconnect.EndpointAdvertiseRequest.NetworkEndpoint :=
       Some {| netmeshapi.NseProviderName := uid;
               netmeshapi.NetworkServiceName := networkServiceName;
               netmeshapi.SocketLocation := connectionSocket uid;
               netmeshapi.LocalMechanisms :=
                 [Some {| common.MechanismType := LocalMechanismType_KERNEL_INTERFACE;
                          common.Parameters := ∅ |}] |} |}.

(** What [main] has done when it advertises: it has looked up its pod,
    cleaned, bound, served and probed its own socket, and found and
    probed the socket of the broker. *)
Definition startup `{World} (uid linuxNS : string) : list event :=
  [ GetPod (os_Getenv "INIT_NAMESPACE") (os_Getenv "HOSTNAME");
    CleanSocket (connectionSocket uid);
    ListenOn (connectionSocket uid);
    Serve (connectionSocket uid)
      {| podUID := uid; nseNetworkServiceName := networkServiceName;
         linuxNamespace := linuxNS |};
    Probe (connectionSocket uid);
    Stat advertiseSocket;
    Probe advertiseSocket ].

(** Every step before the advertisement succeeded, for the pod uid and
    the linux namespace given. *)
Definition started `{World} (uid linuxNS : string) : Prop :=
  os_Getenv "INIT_NAMESPACE" <> EmptyString
  /\ (exists k8s, (buildClient flag_kubeconfig).2 = (Some k8s, None)
                  /\ getPodUID k8s (os_Getenv "INIT_NAMESPACE") (os_Getenv "HOSTNAME")
                     = inr uid)
  /\ tools_GetCurrentNS = inr linuxNS
  /\ tools_SocketCleanup (connectionSocket uid) = None
  /\ (exists listener, net_Listen "unix" (connectionSocket uid) = inr listener)
  /\ tools_SocketOperationCheck (connectionSocket uid) = None
  /\ os_Stat advertiseSocket = None
  /\ tools_SocketOperationCheck advertiseSocket = None.

(** The broker took the advertisement. *)
Definition taken `{World} (uid : string) : Prop :=
  exists resp,
    AdvertiseEndpoint advertiseSocket (advertisement uid) = inr resp
    /\ nseconnect.EndpointAdvertiseReply.Accepted resp = true.

End nse_terms.

(** ** Concrete worlds, stores and requests the examples run on *)
Module Samples.
Import Go.

(** [path.Join] on two clean, slash-free elements. *)
Definition joinPath (elems : list string) : string :=
  match elems with
  | [] => EmptyString
  | e :: rest => fold_left (fun acc x => acc +:+ "/" +:+ x) rest e
  end.

(** [labels.Set.String] on a single well-formed pair. *)
Definition selectorOf (set : list (string * string)) : string :=
  match set with
  | (k, v) :: _ => k +:+ "=" +:+ v
  | [] => EmptyString
  end.

(** A world in which every directory can be made except that of device
    [ro], sockets can be cleaned, bound and reached, and every stop signal
    is sent and confirmed. *)
Definition world : nsmserver.Environment :=
  {| nsmserver.EndpointServiceLabel := "networkservicemesh.io/service";
     nsmserver.SocketBaseDir := "/var/lib/networkservicemesh";
     nsmserver.ServerSock := "nsm.ligato.io.sock";
     nsmserver.folderMask := 511;
     nsmserver.selectorString := selectorOf;
     nsmserver.path_Join := joinPath;
     nsmserver.os_MkdirAll := fun path _ =>
       if String.eqb path "/var/lib/networkservicemesh/nsm-ro"
       then Some "mkdir /var/lib/networkservicemesh/nsm-ro: read-only file system"
       else None;
     nsmserver.stopConfirmed := fun _ => true;
     nsmserver.socketMask := 63;
     nsmserver.tools_SocketCleanup := fun _ => None;
     nsmserver.net_Listen := fun _ => None;
     nsmserver.tools_SocketOperationCheck := fun _ => None;
     nsmserver.stopRequested := fun _ => true |}.

Definition vpp : objectstore.Dataplane :=
  {| objectstore.RegisteredName := "vpp";
     objectstore.SocketLocation := "/var/lib/networkservicemesh/vpp.sock";
     objectstore.Parameters := ∅ |}.

Definition vpp' : objectstore.Dataplane :=
  {| objectstore.RegisteredName := "vpp";
     objectstore.SocketLocation := "/var/lib/networkservicemesh/vpp2.sock";
     objectstore.Parameters := ∅ |}.

(** Two descriptors registered under the same name, at addresses 1 and 2. *)
Definition heap : gmap objectstore.addr objectstore.Dataplane :=
  <[2%positive := vpp']> (<[1%positive := vpp]> ∅).

Definition storeWithVpp : objectstore.dataplaneStore :=
  {| objectstore.dataplanes := <["vpp" := Some 1%positive]> ∅ |}.

Definition gold : netmesh.NetworkService :=
  {| netmesh.Name := "gold-network"; netmesh.Channel := [] |}.

Definition goldEndpoint : nsmapi.NetworkServiceEndpoint :=
  {| nsmapi.NseProviderName := "nse-1";
     nsmapi.NetworkServiceName := "gold-network";
     nsmapi.SocketLocation := "/var/lib/networkservicemesh/nse-1.nse.io.sock" |}.

(** A cluster that answers every query with [answer]. *)
Definition cluster (answer : error + list nsmapi.NetworkServiceEndpoint)
  : nsmclient.Clientset :=
  {| nsmclient.ListNetworkServiceEndpoints := fun _ _ => answer |}.

(** A broker with the given registry, dedup table and cluster, and no
    sockets. *)
Definition broker (services : gmap string netmesh.NetworkService)
    (connections : gmap string (gmap string (option nsmserver.clientNetworkService)))
    (answer : error + list nsmapi.NetworkServiceEndpoint)
  : nsmserver.nsmClientEndpoints :=
  {| nsmserver.nsmSockets := ∅;
     nsmserver.objectStore := objectstoreapi.registry services;
     nsmserver.clientConnections := connections;
     nsmserver.nsmClient := cluster answer;
     nsmserver.namespace := "default" |}.

Definition goldRegistry : gmap string netmesh.NetworkService :=
  <["gold-network" := gold]> ∅.

(** The request of workload [w1] for [gold-network]. *)
Definition request : nsmconnect.ConnectionRequest :=
  {| nsmconnect.RequestId := "w1";
     nsmconnect.NetworkServiceName := "gold-network";
     nsmconnect.LinuxNamespace := "/proc/17/ns/net" |}.

(** The dedup table holding one entry for ([w1], [gold-network]). *)
Definition connectionsOfW1 (programming : bool)
  : gmap string (gmap string (option nsmserver.clientNetworkService)) :=
  <["w1" := <["gold-network" :=
       Some {| nsmserver.networkService := Some gold;
               nsmserver.ConnectionParameters :=
                 Some nsmconnect.emptyConnectionParameters;
               nsmserver.inProgress := programming |}]> ∅]> ∅.

(** The cluster's answers used below: an error, no endpoint, one endpoint. *)
Definition refused : error + list nsmapi.NetworkServiceEndpoint :=
  inl "connection refused".
Definition noEndpoint : error + list nsmapi.NetworkServiceEndpoint := inr [].
Definition oneEndpoint : error + list nsmapi.NetworkServiceEndpoint :=
  inr [goldEndpoint].

(** A socket as the plugin registers it before any allocation. *)
Definition idle (id : string) : nsmserver.nsmSocket :=
  {| nsmserver.device :=
       Some {| pluginapi.ID := id; pluginapi.Health := pluginapi.Healthy |};
     nsmserver.socketPath := EmptyString;
     nsmserver.stopChannel := None;
     nsmserver.allocated := false |}.

(** A socket in use, its server waiting on stop channel [ch]. *)
Definition inUse (id : string) (ch : nat) : nsmserver.nsmSocket :=
  {| nsmserver.device :=
       Some {| pluginapi.ID := id; pluginapi.Health := pluginapi.Healthy |};
     nsmserver.socketPath :=
       "/var/lib/networkservicemesh/nsm-" +:+ id +:+ "/nsm.ligato.io.sock";
     nsmserver.stopChannel := Some ch;
     nsmserver.allocated := true |}.

(** A plugin with three devices: [dev-A] idle, [dev-B] in use on channel 0,
    [ro] idle (its directory cannot be made in [world]). *)
Definition plugin : nsmserver.nsmClientEndpoints :=
  {| nsmserver.nsmSockets :=
       <["dev-A" := idle "dev-A"]> (<["dev-B" := inUse "dev-B" 0]>
         (<["ro" := idle "ro"]> ∅));
     nsmserver.objectStore := objectstoreapi.registry ∅;
     nsmserver.clientConnections := ∅;
     nsmserver.nsmClient := cluster noEndpoint;
     nsmserver.namespace := "default" |}.

(** The runtime in which channel 0 has been made and nothing else done. *)
Definition oneChannel : nsmserver.runtime :=
  {| nsmserver.channelsMade := 1;
     nsmserver.closedChannels := ∅;
     nsmserver.started := [] |}.

Definition noChannel : nsmserver.runtime :=
  {| nsmserver.channelsMade := 0;
     nsmserver.closedChannels := ∅;
     nsmserver.started := [] |}.

(** One container asking for the given device ids. *)
Definition allocate (ids : list string) : pluginapi.AllocateRequest :=
  {| pluginapi.ContainerRequests := [ {| pluginapi.DevicesIDs := ids |} ] |}.

(** A watcher that has gone away: every send fails. *)
Definition brokenStream : nat -> option error :=
  fun _ => Some "rpc error: code = Unavailable desc = transport is closing".

End Samples.


(** ** Further concrete values the examples run on *)
Module MoreSamples.
Import Go.

Definition ovs : objectstore.Dataplane :=
  {| objectstore.RegisteredName := "ovs";
     objectstore.SocketLocation := "/var/lib/networkservicemesh/ovs.sock";
     objectstore.Parameters := ∅ |}.

(** The heap of [Samples] with a third descriptor, [ovs], at address 3. *)
Definition heap : gmap objectstore.addr objectstore.Dataplane :=
  <[3%positive := ovs]> Samples.heap.

(** The batch of the plugin examples: one container asking for [dev-A],
    [zz], [ro] and [dev-B]. *)
Definition batch : pluginapi.AllocateRequest :=
  Samples.allocate ["dev-A"; "zz"; "ro"; "dev-B"].

(** What [Allocate] returns for [batch] on the sample plugin. *)
Definition afterAllocate
  : nsmserver.nsmClientEndpoints * nsmserver.runtime
    * (pluginapi.AllocateResponse * option error) :=
  match @nsmserver.Allocate Samples.world Samples.plugin Samples.oneChannel batch with
  | Returns r => r
  | _ => (Samples.plugin, Samples.oneChannel,
          ({| pluginapi.ContainerResponses := [] |}, None))
  end.

(** The world of [Samples], except that the stop signal is confirmed on
    the channels picked out by [confirmed] only. *)
Definition withServers (confirmed : nat -> bool) : nsmserver.Environment :=
  {| nsmserver.EndpointServiceLabel := @nsmserver.EndpointServiceLabel Samples.world;
     nsmserver.SocketBaseDir := @nsmserver.SocketBaseDir Samples.world;
     nsmserver.ServerSock := @nsmserver.ServerSock Samples.world;
     nsmserver.folderMask := @nsmserver.folderMask Samples.world;
     nsmserver.selectorString := @nsmserver.selectorString Samples.world;
     nsmserver.path_Join := @nsmserver.path_Join Samples.world;
     nsmserver.os_MkdirAll := @nsmserver.os_MkdirAll Samples.world;
     nsmserver.stopConfirmed := confirmed;
     nsmserver.socketMask := @nsmserver.socketMask Samples.world;
     nsmserver.tools_SocketCleanup := fun _ => None;
     nsmserver.net_Listen := fun _ => None;
     nsmserver.tools_SocketOperationCheck := fun _ => None;
     nsmserver.stopRequested := fun _ => true |}.

(** The runtime of the sample plugin while the server of [dev-B] runs:
    channel 0 has been made and the task of [dev-B] started. *)
Definition running : nsmserver.runtime :=
  {| nsmserver.channelsMade := 1;
     nsmserver.closedChannels := ∅;
     nsmserver.started := ["dev-B"] |}.

(** One server task is running, that of [dev-B] on channel 0: no other
    channel has a task that could confirm a stop signal. *)
Definition oneServer : nsmserver.Environment := withServers (Nat.eqb 0).

(** No server task confirms: that of [dev-B] has gone. *)
Definition noServer : nsmserver.Environment := withServers (fun _ => false).

(** The server tasks on the channels 0, 1 and 2 confirm, and no other. *)
Definition threeServers : nsmserver.Environment :=
  withServers (fun c => Nat.ltb c 3).

(** One container asking for [dev-A], [zz] and [dev-B]: the directory of
    every key in it can be made. *)
Definition usable : pluginapi.AllocateRequest :=
  Samples.allocate ["dev-A"; "zz"; "dev-B"].

(** Three interface descriptors with preferences 2, 0 and 1. *)
Definition interfaces : nsmserver.sortedInterfaceList :=
  {| nsmserver.interfaceList :=
       [Some {| common.Type' := 1; common.Preference := 2 |};
        Some {| common.Type' := 2; common.Preference := 0 |};
        Some {| common.Type' := 3; common.Preference := 1 |}] |}.

(** The world of [Samples], except that no socket answers the operation
    check. *)
Definition unreachable : nsmserver.Environment :=
  {| nsmserver.EndpointServiceLabel := @nsmserver.EndpointServiceLabel Samples.world;
     nsmserver.SocketBaseDir := @nsmserver.SocketBaseDir Samples.world;
     nsmserver.ServerSock := @nsmserver.ServerSock Samples.world;
     nsmserver.folderMask := @nsmserver.folderMask Samples.world;
     nsmserver.selectorString := @nsmserver.selectorString Samples.world;
     nsmserver.path_Join := @nsmserver.path_Join Samples.world;
     nsmserver.os_MkdirAll := @nsmserver.os_MkdirAll Samples.world;
     nsmserver.stopConfirmed := fun _ => false;
     nsmserver.socketMask := @nsmserver.socketMask Samples.world;
     nsmserver.tools_SocketCleanup := fun _ => None;
     nsmserver.net_Listen := fun _ => None;
     nsmserver.tools_SocketOperationCheck := fun _ => Some "connection refused";
     nsmserver.stopRequested := fun _ => false |}.

(** A listener whose next [Accept] gives a connection with anonymous
    ends, as a unix socket reports them. *)
Definition anonymous : net.Listener :=
  {| net.Accept :=
       inr {| net.LocalAddr := net.otherAddr "unix" "/var/lib/networkservicemesh/nsm-dev-A/nsm.ligato.io.sock";
              net.RemoteAddr := net.otherAddr "unix" "@" |} |}.

(** [strings.ToLower] on the letters A to Z, other characters kept. *)
Definition lowerAscii (c : ascii) : ascii :=
  let n := nat_of_ascii c in
  if (65 <=? n)%nat && (n <=? 90)%nat then ascii_of_nat (n + 32) else c.

Fixpoint toLower (s : string) : string :=
  match s with
  | EmptyString => EmptyString
  | String c rest => String (lowerAscii c) (toLower rest)
  end.

(** A pod [nse-pod] of uid [uid-42] in namespace [default], its endpoint
    started without arguments, in a cluster and on a host where every
    step of the endpoint succeeds; the host has the interfaces [lo],
    [eth0] and [NSE0]. *)
Definition endpointWorld : nse.World :=
  {| nse.Config := unit;
     nse.Clientset := unit;
     nse.os_Getenv := fun key =>
       if String.eqb key "INIT_NAMESPACE" then "default"
       else if String.eqb key "HOSTNAME" then "nse-pod"
       else EmptyString;
     nse.flag_Parse := None;
     nse.flag_kubeconfig := EmptyString;
     nse.clientcmd_BuildConfigFromFlags := fun _ _ => inl "no such file";
     nse.rest_InClusterConfig := inr tt;
     nse.kubernetes_NewForConfig := fun _ => inr tt;
     nse.getPodUID := fun _ _ _ => inr "uid-42";
     nse.tools_GetCurrentNS := inr "net:[4026532281]";
     nse.path_Join := Samples.joinPath;
     nse.tools_SocketCleanup := fun _ => None;
     nse.net_Listen := fun _ _ => inr anonymous;
     nse.tools_SocketOperationCheck := fun _ => None;
     nse.os_Stat := fun _ => None;
     nse.AdvertiseEndpoint := fun _ _ =>
       inr {| nseconnect.EndpointAdvertiseReply.Accepted := true;
              nseconnect.EndpointAdvertiseReply.AdmissionError := EmptyString |};
     nse.strings_ToLower := toLower;
     nse.net_Interfaces :=
       inr [ {| net.InterfaceName := "lo" |};
             {| net.InterfaceName := "eth0" |};
             {| net.InterfaceName := "NSE0" |} ] |}.

(** The same pod, its endpoint started as [nse -bogus]: the flag is not
    defined, and [flag.Parse] ends the process with status 2. *)
Definition bogusFlag : nse.World :=
  {| nse.Config := unit;
     nse.Clientset := unit;
     nse.os_Getenv := @nse.os_Getenv endpointWorld;
     nse.flag_Parse := Some 2%Z;
     nse.flag_kubeconfig := EmptyString;
     nse.clientcmd_BuildConfigFromFlags := fun _ _ => inl "no such file";
     nse.rest_InClusterConfig := inr tt;
     nse.kubernetes_NewForConfig := fun _ => inr tt;
     nse.getPodUID := fun _ _ _ => inr "uid-42";
     nse.tools_GetCurrentNS := inr "net:[4026532281]";
     nse.path_Join := Samples.joinPath;
     nse.tools_SocketCleanup := fun _ => None;
     nse.net_Listen := fun _ _ => inr anonymous;
     nse.tools_SocketOperationCheck := fun _ => None;
     nse.os_Stat := fun _ => None;
     nse.AdvertiseEndpoint := @nse.AdvertiseEndpoint endpointWorld;
     nse.strings_ToLower := toLower;
     nse.net_Interfaces := @nse.net_Interfaces endpointWorld |}.

(** The notification to use interface [nse0]. *)
Definition useNse0 : nseconnect.EndpointConnectionMechanism.t :=
  {| nseconnect.EndpointConnectionMechanism.RequestId := "w1";
     nseconnect.EndpointConnectionMechanism.NetworkServiceName := "gold-network";
     nseconnect.EndpointConnectionMechanism.LocalMechanism :=
       Some {| common.MechanismType := 0;
               common.Parameters := <["nselocalmechanism" := "nse0"]> ∅ |} |}.

Definition endpoint : nse.nseConnection :=
  {| nse.podUID := "uid-42";
     nse.nseNetworkServiceName := "gold-network";
     nse.linuxNamespace := "net:[4026532281]" |}.

End MoreSamples.
(** ** Facts about the string functions *)
Module go_properties.
Import Go.

Lemma append_empty_r (s : string) : s +:+ EmptyString = s.
Proof.
  induction s as [|c s IH]; [reflexivity|].
  change (String c (s +:+ EmptyString) = String c s). rewrite IH. reflexivity.
Qed.

Lemma Contains_append_r (a b substr : string) :
  Contains b substr = true -> Contains (a +:+ b) substr = true.
Proof.
  intros Hb. induction a as [|c a IH]; [exact Hb|].
  change (String.prefix substr (String c (a +:+ b)) || Contains (a +:+ b) substr = true).
  rewrite IH. apply orb_true_r.
Qed.

Lemma bind_Returns {A B : Type} (a : A) (k : A -> outcome B) :
  (Returns a ≫= k) = k a.
Proof. reflexivity. Qed.

Example Sprintf_two_operands :
  Sprintf "connection request %s failed for %s" ["w1"; "gold-network"]
  = "connection request w1 failed for gold-network".
Proof. reflexivity. Qed.

Example Sprintf_missing_operand :
  Sprintf "pod: %s/%s" ["default"] = "pod: default/%!s(MISSING)".
Proof. reflexivity. Qed.

Example Contains_middle : Contains "the gold-network service" "gold-network" = true.
Proof. reflexivity. Qed.

End go_properties.

(** ** Properties of the dataplane store *)
Module objectstore_properties.
Import Go objectstore go_properties.

Lemma Add_live heap d a v :
  heap !! a = Some v ->
  Add heap d (Some a) =
    match dataplanes d !! RegisteredName v with
    | Some _ => Returns d
    | None => Returns {| dataplanes := <[RegisteredName v := Some a]> (dataplanes d) |}
    end.
Proof. intros Ha. unfold Add, registeredNameOf. rewrite Ha. reflexivity. Qed.

(** [Add] reads its argument: handed nil it panics before touching the
    store. *)
Lemma Add_nil heap d : Add heap d None = Panics nil_dereference.
Proof. reflexivity. Qed.

Lemma Get_insert d name dp :
  Get {| dataplanes := <[name := dp]> (dataplanes d) |} name = dp.
Proof. unfold Get; simpl. rewrite lookup_insert_eq. reflexivity. Qed.

Lemma Get_insert_other d name other dp :
  name <> other ->
  Get {| dataplanes := <[name := dp]> (dataplanes d) |} other = Get d other.
Proof. intros Hne. unfold Get; simpl. rewrite lookup_insert_ne by done. reflexivity. Qed.

(** C6. [Add] never fails on a descriptor and the first write wins: when
    the registered name of [dp] is already a key of the store, the store
    is returned as it was, so [Get] of that name still gives the pointer
    stored first; when the name is absent [dp] is inserted under it and
    the other names are untouched. [Get] is a total function: it gives
    nil for an unknown name, never an error. Adding again under the same
    name, the same descriptor or another one, changes nothing. *)
Theorem Add_first_write_wins
    (heap : gmap addr Dataplane) (d : dataplaneStore) (a : addr) (v : Dataplane) :
  heap !! a = Some v ->
  exists d',
    Add heap d (Some a) = Returns d' /\
    (forall stored, dataplanes d !! RegisteredName v = Some stored ->
       d' = d /\ Get d' (RegisteredName v) = stored) /\
    (dataplanes d !! RegisteredName v = None ->
       Get d' (RegisteredName v) = Some a /\
       forall other, other <> RegisteredName v -> Get d' other = Get d other) /\
    (forall b w, heap !! b = Some w -> RegisteredName w = RegisteredName v ->
       Add heap d' (Some b) = Returns d').
Proof.
  intros Ha. rewrite (Add_live _ _ _ _ Ha).
  destruct (dataplanes d !! RegisteredName v) as [stored|] eqn:Hd.
  - exists d. split; [reflexivity|]. split; [|split].
    + intros s [= <-]. split; [reflexivity|].
      unfold Get. rewrite Hd. reflexivity.
    + discriminate.
    + intros b w Hb Hname. rewrite (Add_live _ _ _ _ Hb), Hname, Hd. reflexivity.
  - eexists. split; [reflexivity|]. split; [|split].
    + discriminate.
    + intros _. split; [apply Get_insert|].
      intros other Hne. apply Get_insert_other. congruence.
    + intros b w Hb Hname. rewrite (Add_live _ _ _ _ Hb), Hname. simpl.
      rewrite lookup_insert_eq. reflexivity.
Qed.

(** The store already holds [vpp] at address 1; a second descriptor with
    the same name, at address 2, is offered. *)
Lemma Add_first_write_wins_witness :
  exists d',
    Add Samples.heap Samples.storeWithVpp (Some 2%positive) = Returns d' /\
    (forall stored,
       dataplanes Samples.storeWithVpp !! RegisteredName Samples.vpp' = Some stored ->
       d' = Samples.storeWithVpp /\ Get d' (RegisteredName Samples.vpp') = stored) /\
    (dataplanes Samples.storeWithVpp !! RegisteredName Samples.vpp' = None ->
       Get d' (RegisteredName Samples.vpp') = Some 2%positive /\
       forall other, other <> RegisteredName Samples.vpp' ->
         Get d' other = Get Samples.storeWithVpp other) /\
    (forall b w, Samples.heap !! b = Some w ->
       RegisteredName w = RegisteredName Samples.vpp' ->
       Add Samples.heap d' (Some b) = Returns d').
Proof.
  apply (Add_first_write_wins Samples.heap Samples.storeWithVpp 2%positive Samples.vpp').
  reflexivity.
Defined.

(** [Delete] removes the descriptor stored under a name and leaves the
    other names alone; on a name that is not stored it returns the store
    as it was. *)
Lemma Delete_removes (d : dataplaneStore) (name : string) :
  Get (Delete d name) name = None
  /\ (forall other, other <> name -> Get (Delete d name) other = Get d other)
  /\ (dataplanes d !! name = None -> Delete d name = d).
Proof.
  unfold Delete, Get.
  destruct (dataplanes d !! name) as [stored|] eqn:Hd; simpl.
  - rewrite lookup_delete_eq. split; [reflexivity|]. split; [|discriminate].
    intros other Hne. rewrite lookup_delete_ne by congruence. reflexivity.
  - rewrite Hd. repeat split.
Qed.

(** [List] returns the stored pointers, one for each name. *)
Lemma List_stored (d : dataplaneStore) (dp : option addr) :
  dp ∈ List d <-> exists name, dataplanes d !! name = Some dp.
Proof.
  unfold List. rewrite list_elem_of_fmap. split.
  - intros ([name dp'] & -> & Hin). apply elem_of_map_to_list in Hin. eauto.
  - intros (name & Hlook). exists (name, dp). split; [reflexivity|].
    apply elem_of_map_to_list. exact Hlook.
Qed.

(** A descriptor added and then deleted by its name leaves the store as
    deleting that name from the store before the [Add] would: as it was,
    if the name was not stored. *)
Lemma Add_then_Delete
    (heap : gmap addr Dataplane) (d : dataplaneStore) (a : addr) (v : Dataplane) :
  heap !! a = Some v ->
  exists d',
    Add heap d (Some a) = Returns d'
    /\ Delete d' (RegisteredName v) = Delete d (RegisteredName v)
    /\ (dataplanes d !! RegisteredName v = None -> Delete d' (RegisteredName v) = d).
Proof.
  intros Ha. rewrite (Add_live _ _ _ _ Ha).
  destruct (dataplanes d !! RegisteredName v) as [stored|] eqn:Hd.
  - exists d. split; [reflexivity|]. split; [reflexivity|discriminate].
  - eexists. split; [reflexivity|].
    assert (Hback : Delete {| dataplanes := <[RegisteredName v := Some a]> (dataplanes d) |}
                      (RegisteredName v) = d).
    { unfold Delete. simpl. rewrite lookup_insert_eq, delete_insert_eq.
      rewrite delete_id by exact Hd. destruct d; reflexivity. }
    split; [|intros _; exact Hback].
    rewrite Hback. unfold Delete. rewrite Hd. reflexivity.
Qed.

(** Deleting a name makes room for a new registration: after [Delete],
    [Add] of a descriptor with that name stores it, whatever was stored
    under the name before, and the other names are as they were. *)
Lemma Delete_then_Add
    (heap : gmap addr Dataplane) (d : dataplaneStore) (a : addr) (v : Dataplane) :
  heap !! a = Some v ->
  exists d',
    Add heap (Delete d (RegisteredName v)) (Some a) = Returns d'
    /\ Get d' (RegisteredName v) = Some a
    /\ (forall other, other <> RegisteredName v -> Get d' other = Get d other).
Proof.
  intros Ha. rewrite (Add_live _ _ _ _ Ha).
  assert (Hgone : dataplanes (Delete d (RegisteredName v)) !! RegisteredName v = None).
  { unfold Delete. destruct (dataplanes d !! RegisteredName v) eqn:Hd; simpl;
      [apply lookup_delete_eq|exact Hd]. }
  rewrite Hgone. eexists. split; [reflexivity|]. split; [apply Get_insert|].
  intros other Hne. rewrite Get_insert_other by congruence.
  unfold Delete, Get. destruct (dataplanes d !! RegisteredName v); simpl;
    [rewrite lookup_delete_ne by congruence|]; reflexivity.
Qed.

(** Descriptors with different names can be added in either order: the
    store is the same. *)
Lemma Add_commutes
    (heap : gmap addr Dataplane) (d : dataplaneStore)
    (a b : addr) (va vb : Dataplane) :
  heap !! a = Some va ->
  heap !! b = Some vb ->
  RegisteredName va <> RegisteredName vb ->
  (d1 ← Add heap d (Some a); Add heap d1 (Some b))
  = (d1 ← Add heap d (Some b); Add heap d1 (Some a)).
Proof.
  intros Ha Hb Hne.
  rewrite (Add_live _ d _ _ Ha), (Add_live _ d _ _ Hb).
  destruct (dataplanes d !! RegisteredName va) as [sa|] eqn:Hda;
    destruct (dataplanes d !! RegisteredName vb) as [sb|] eqn:Hdb;
    rewrite !bind_Returns;
    rewrite (Add_live _ _ _ _ Ha), (Add_live _ _ _ _ Hb); simpl.
  - rewrite Hda, Hdb. reflexivity.
  - rewrite Hdb. rewrite lookup_insert_ne by congruence. rewrite Hda. reflexivity.
  - rewrite Hda. rewrite lookup_insert_ne by congruence. rewrite Hdb. reflexivity.
  - rewrite !lookup_insert_ne by congruence. rewrite Hda, Hdb.
    rewrite insert_insert_ne by congruence. reflexivity.
Qed.

(** [List] of the new store is empty, and a descriptor added under a name
    that was not stored is one more element of [List]: the list after is
    a permutation of the pointer added and the list before. *)
Lemma List_after_Add
    (heap : gmap addr Dataplane) (d : dataplaneStore) (a : addr) (v : Dataplane) :
  heap !! a = Some v ->
  dataplanes d !! RegisteredName v = None ->
  List newDataplaneStore = []
  /\ exists d',
       Add heap d (Some a) = Returns d'
       /\ List d' ≡ₚ Some a :: List d
       /\ length (List d') = S (length (List d)).
Proof.
  intros Ha Hd. split.
  { unfold List, newDataplaneStore. simpl. rewrite map_to_list_empty. reflexivity. }
  rewrite (Add_live _ _ _ _ Ha), Hd. eexists. split; [reflexivity|].
  assert (Hperm : List {| dataplanes := <[RegisteredName v := Some a]> (dataplanes d) |}
                  ≡ₚ Some a :: List d).
  { unfold List. simpl. rewrite (map_to_list_insert _ _ _ Hd). reflexivity. }
  split; [exact Hperm|]. rewrite Hperm. reflexivity.
Qed.

Lemma Add_then_Delete_witness :
  exists d',
    Add MoreSamples.heap Samples.storeWithVpp (Some 3%positive) = Returns d'
    /\ Delete d' (RegisteredName MoreSamples.ovs)
       = Delete Samples.storeWithVpp (RegisteredName MoreSamples.ovs)
    /\ (dataplanes Samples.storeWithVpp !! RegisteredName MoreSamples.ovs = None ->
        Delete d' (RegisteredName MoreSamples.ovs) = Samples.storeWithVpp).
Proof.
  apply (Add_then_Delete MoreSamples.heap Samples.storeWithVpp 3%positive MoreSamples.ovs).
  reflexivity.
Defined.

Lemma Delete_then_Add_witness :
  exists d',
    Add MoreSamples.heap
        (Delete Samples.storeWithVpp (RegisteredName Samples.vpp')) (Some 2%positive)
      = Returns d'
    /\ Get d' (RegisteredName Samples.vpp') = Some 2%positive
    /\ (forall other, other <> RegisteredName Samples.vpp' ->
        Get d' other = Get Samples.storeWithVpp other).
Proof.
  apply (Delete_then_Add MoreSamples.heap Samples.storeWithVpp 2%positive Samples.vpp').
  reflexivity.
Defined.

Lemma Add_commutes_witness :
  (d1 ← Add MoreSamples.heap newDataplaneStore (Some 1%positive);
   Add MoreSamples.heap d1 (Some 3%positive))
  = (d1 ← Add MoreSamples.heap newDataplaneStore (Some 3%positive);
     Add MoreSamples.heap d1 (Some 1%positive)).
Proof.
  apply (Add_commutes MoreSamples.heap newDataplaneStore 1%positive 3%positive
           Samples.vpp MoreSamples.ovs);
    [reflexivity|reflexivity|discriminate].
Defined.

Lemma List_after_Add_witness :
  List newDataplaneStore = []
  /\ exists d',
       Add MoreSamples.heap Samples.storeWithVpp (Some 3%positive) = Returns d'
       /\ List d' ≡ₚ Some 3%positive :: List Samples.storeWithVpp
       /\ length (List d') = S (length (List Samples.storeWithVpp)).
Proof.
  apply (List_after_Add MoreSamples.heap Samples.storeWithVpp 3%positive MoreSamples.ovs);
    reflexivity.
Defined.

Example Add_keeps_first :
  Add Samples.heap Samples.storeWithVpp (Some 2%positive) = Returns Samples.storeWithVpp
  /\ Get Samples.storeWithVpp "vpp" = Some 1%positive.
Proof. split; reflexivity. Qed.

Example Add_inserts_absent :
  (d ← Add Samples.heap newDataplaneStore (Some 2%positive);
   Returns (Get d "vpp", Get d "ovs")) = Returns (Some 2%positive, None).
Proof. reflexivity. Qed.

End objectstore_properties.

(** ** Properties of the connection broker *)
Module broker_properties.
Import Go nsmserver broker_terms go_properties.

Section requests.
Context `{Environment}.

Lemma listFailed_message cr err :
  Sprintf "connection request %s failed to get a list of endpoints for requested Network Service %s with error: %+v"
    [nsmconnect.RequestId cr; nsmconnect.NetworkServiceName cr; err]
  = nsmconnect.AdmissionError (listFailedReply cr err).
Proof. lazy -[String.append]. rewrite append_empty_r. reflexivity. Qed.

Lemma noEndpoints_message cr :
  Sprintf "connection request %s failed no endpoints were found for requested Network Service %s"
    [nsmconnect.RequestId cr; nsmconnect.NetworkServiceName cr]
  = nsmconnect.AdmissionError (noEndpointsReply cr).
Proof. lazy -[String.append]. rewrite append_empty_r. reflexivity. Qed.

Lemma RequestConnection_new n cr ns :
  objectstoreapi.GetNetworkService (objectStore n) (nsmconnect.NetworkServiceName cr)
    = Some ns ->
  dedupEntry n cr = None ->
  RequestConnection n cr =
    match endpointQuery n cr with
    | inl err =>
        (n, Returns (listFailedReply cr err,
                     statusOf codes.Aborted
                       "failed to get a list of endpoints for requested Network Service"))
    | inr [] =>
        (n, Returns (noEndpointsReply cr,
                     statusOf codes.NotFound
                       "failed no endpoints were found for requested Network Service"))
    | inr (_ :: _) => (n, Returns (acceptedReply, None))
    end.
Proof.
  intros Hns Hnew. unfold RequestConnection, getNetworkServiceEndpoint, endpointQuery.
  rewrite Hns.
  unfold dedupEntry in Hnew.
  assert (Hq : forall T (new : T) (k : option clientNetworkService -> T),
             match clientConnections n !! nsmconnect.RequestId cr with
             | Some services =>
                 match services !! nsmconnect.NetworkServiceName cr with
                 | Some entry => k entry
                 | None => new
                 end
             | None => new
             end = new).
  { intros T new k.
    destruct (clientConnections n !! nsmconnect.RequestId cr) as [services|];
      [|reflexivity].
    rewrite Hnew. reflexivity. }
  rewrite Hq.
  destruct (nsmclient.ListNetworkServiceEndpoints _ _ _) as [err|[|e es]]; simpl fst; simpl snd; cbv iota beta.
  - rewrite listFailed_message. reflexivity.
  - simpl length. simpl Nat.eqb. cbv iota. rewrite noEndpoints_message. reflexivity.
  - reflexivity.
Qed.

Lemma RequestConnection_known n cr ns entry :
  objectstoreapi.GetNetworkService (objectStore n) (nsmconnect.NetworkServiceName cr)
    = Some ns ->
  dedupEntry n cr = Some entry ->
  RequestConnection n cr =
    match isInProgress entry with
    | Returns true =>
        (n, Returns (beingProgrammedReply cr,
                     statusOf codes.AlreadyExists
                       "dataplane for requested network service is being programmed, retry"))
    | Returns false => (n, Returns (acceptedReply, None))
    | Panics msg => (n, Panics msg)
    | Blocks => (n, Blocks)
    end.
Proof.
  intros Hns Hentry. unfold RequestConnection, dedupEntry in *. rewrite Hns.
  destruct (clientConnections n !! nsmconnect.RequestId cr) as [services|];
    [|discriminate].
  rewrite Hentry. destruct (isInProgress entry) as [[|]| |]; reflexivity.
Qed.

(** C1. A request for a service the registry does not know is answered
    with [Accepted = false], the admission error "requested Network
    Service ... does not exist" and the status [NotFound]; the broker is
    returned as it was, so its dedup table has no new entry. *)
Theorem RequestConnection_unknown_service n cr :
  objectstoreapi.GetNetworkService (objectStore n) (nsmconnect.NetworkServiceName cr)
    = None ->
  RequestConnection n cr =
    (n, Returns (unknownServiceReply cr,
                 statusOf codes.NotFound "requested network service not found"))
  /\ nsmconnect.Accepted (unknownServiceReply cr) = false
  /\ clientConnections (RequestConnection n cr).1 = clientConnections n.
Proof.
  intros Hns. unfold RequestConnection. rewrite Hns. repeat split.
Qed.

(** C2. A new request (no dedup entry for its pair) for a registered
    service is decided by the endpoint query alone. A failed query gives
    [Accepted = false] with status [Aborted]; an empty list gives
    [Accepted = false] with status [NotFound] and an admission error and a
    status message that differ from those of the unknown-service exit,
    whatever request that exit answers; a list with at least one endpoint
    gives [Accepted = true] with empty connection parameters and a nil
    error. In all three cases the broker is returned as it was: nothing is
    recorded in the dedup table. *)
Theorem RequestConnection_new_request n cr ns :
  objectstoreapi.GetNetworkService (objectStore n) (nsmconnect.NetworkServiceName cr)
    = Some ns ->
  dedupEntry n cr = None ->
  (forall err, endpointQuery n cr = inl err ->
     RequestConnection n cr =
       (n, Returns (listFailedReply cr err,
                    statusOf codes.Aborted
                      "failed to get a list of endpoints for requested Network Service"))
     /\ nsmconnect.Accepted (listFailedReply cr err) = false)
  /\ (endpointQuery n cr = inr [] ->
     RequestConnection n cr =
       (n, Returns (noEndpointsReply cr,
                    statusOf codes.NotFound
                      "failed no endpoints were found for requested Network Service"))
     /\ nsmconnect.Accepted (noEndpointsReply cr) = false
     /\ (forall cr', nsmconnect.AdmissionError (noEndpointsReply cr)
                     <> nsmconnect.AdmissionError (unknownServiceReply cr'))
     /\ "failed no endpoints were found for requested Network Service"
        <> "requested network service not found")
  /\ (forall e es, endpointQuery n cr = inr (e :: es) ->
     RequestConnection n cr = (n, Returns (acceptedReply, None))
     /\ nsmconnect.Accepted acceptedReply = true
     /\ nsmconnect.ReplyConnectionParameters acceptedReply
        = Some {| nsmconnect.Params := ∅ |}
     /\ clientConnections (RequestConnection n cr).1 = clientConnections n).
Proof.
  intros Hns Hnew. pose proof (RequestConnection_new n cr ns Hns Hnew) as Hrc.
  split; [|split].
  - intros err Hq. rewrite Hq in Hrc. split; [exact Hrc|reflexivity].
  - intros Hq. rewrite Hq in Hrc. split; [exact Hrc|].
    split; [reflexivity|]. split; [|discriminate].
    intros cr'. cbn. discriminate.
  - intros e es Hq. rewrite Hq in Hrc. split; [exact Hrc|].
    split; [reflexivity|]. split; [reflexivity|]. rewrite Hrc. reflexivity.
Qed.

(** C3. A request for a registered service whose pair has a dedup entry
    flagged in progress is answered with [Accepted = false], the admission
    error "... is still being programmed, retry" and the status
    [AlreadyExists]; the broker, and with it the dedup table, is returned
    as it was. *)
Theorem RequestConnection_in_progress n cr ns cns :
  objectstoreapi.GetNetworkService (objectStore n) (nsmconnect.NetworkServiceName cr)
    = Some ns ->
  dedupEntry n cr = Some (Some cns) ->
  inProgress cns = true ->
  RequestConnection n cr =
    (n, Returns (beingProgrammedReply cr,
                 statusOf codes.AlreadyExists
                   "dataplane for requested network service is being programmed, retry"))
  /\ nsmconnect.Accepted (beingProgrammedReply cr) = false
  /\ Contains (nsmconnect.AdmissionError (beingProgrammedReply cr))
       "being programmed, retry" = true
  /\ clientConnections (RequestConnection n cr).1 = clientConnections n.
Proof.
  intros Hns Hentry Hflag.
  pose proof (RequestConnection_known n cr ns _ Hns Hentry) as Hrc.
  simpl in Hrc. rewrite Hflag in Hrc.
  split; [exact Hrc|]. split; [reflexivity|]. split; [|rewrite Hrc; reflexivity].
  unfold beingProgrammedReply; cbn [nsmconnect.AdmissionError].
  do 2 apply Contains_append_r. reflexivity.
Qed.

(** C4. A request for a registered service whose pair has a dedup entry
    that is not in progress is answered with [Accepted = true], empty
    connection parameters and a nil error, and the broker is returned as
    it was; hence after any number of such calls the broker is still the
    one it was and the next call gives the same reply again. *)
Theorem RequestConnection_completed_idempotent n cr ns cns :
  objectstoreapi.GetNetworkService (objectStore n) (nsmconnect.NetworkServiceName cr)
    = Some ns ->
  dedupEntry n cr = Some (Some cns) ->
  inProgress cns = false ->
  forall calls : nat,
    let n' := Nat.iter calls (fun m => (RequestConnection m cr).1) n in
    n' = n
    /\ RequestConnection n' cr = (n, Returns (acceptedReply, None))
    /\ nsmconnect.Accepted acceptedReply = true
    /\ nsmconnect.ReplyConnectionParameters acceptedReply
       = Some {| nsmconnect.Params := ∅ |}.
Proof.
  intros Hns Hentry Hflag.
  assert (Hrc : RequestConnection n cr = (n, Returns (acceptedReply, None))).
  { rewrite (RequestConnection_known n cr ns _ Hns Hentry). simpl.
    rewrite Hflag. reflexivity. }
  assert (Hiter : forall calls,
             Nat.iter calls (fun m => (RequestConnection m cr).1) n = n).
  { induction calls as [|calls IH]; [reflexivity|].
    simpl. rewrite IH, Hrc. reflexivity. }
  intros calls n'. subst n'. rewrite Hiter. repeat split. exact Hrc.
Qed.

(** C10. Whatever the broker and the request, [RequestConnection] returns
    the broker it was given: [clientConnections] and [nsmSockets] are the
    same after the call as before, on every exit, a panic included. *)
Theorem RequestConnection_changes_nothing n cr :
  (RequestConnection n cr).1 = n
  /\ clientConnections (RequestConnection n cr).1 = clientConnections n
  /\ nsmSockets (RequestConnection n cr).1 = nsmSockets n.
Proof.
  assert (Hn : (RequestConnection n cr).1 = n).
  { unfold RequestConnection.
    destruct (objectstoreapi.GetNetworkService _ _); [|reflexivity].
    destruct (getNetworkServiceEndpoint _ _ _) as [endpointList [err|]].
    - destruct (clientConnections n !! _) as [services|]; [|reflexivity].
      destruct (services !! _) as [entry|]; [|reflexivity].
      destruct (isInProgress entry) as [[|]| |]; reflexivity.
    - destruct (clientConnections n !! _) as [services|];
        [|destruct (length endpointList =? 0); reflexivity].
      destruct (services !! _) as [entry|];
        [|destruct (length endpointList =? 0); reflexivity].
      destruct (isInProgress entry) as [[|]| |]; reflexivity. }
  rewrite Hn. repeat split.
Qed.

(** [cleanConnectionRequest], the one function that writes the dedup
    table, does change it: the table of the request id is gone. *)
Lemma cleanConnectionRequest_removes requestID n :
  clientConnections (cleanConnectionRequest requestID n) !! requestID = None
  /\ nsmSockets (cleanConnectionRequest requestID n) = nsmSockets n.
Proof. split; [apply lookup_delete_eq|reflexivity]. Qed.

End requests.

(** A dedup entry that holds a nil pointer makes [isInProgress] panic; the
    broker is left as it was. *)
Example RequestConnection_nil_entry :
  @RequestConnection Samples.world
     (Samples.broker Samples.goldRegistry
        (<["w1" := <["gold-network" := None]> ∅]> ∅) Samples.oneEndpoint)
     Samples.request
  = (Samples.broker Samples.goldRegistry
       (<["w1" := <["gold-network" := None]> ∅]> ∅) Samples.oneEndpoint,
     Panics nil_dereference).
Proof. reflexivity. Qed.

(** C5. With an empty registry the request of [w1] for [gold-network] is
    refused with status [NotFound], and the admission error is "requested
    Network Service w1 does not exist": the text names the request id and
    does not contain the name of the service. *)
Theorem RequestConnection_empty_registry_message
    (E : Environment) (answer : error + list nsmapi.NetworkServiceEndpoint) :
  exists reply st,
    RequestConnection (Samples.broker ∅ ∅ answer) Samples.request
      = (Samples.broker ∅ ∅ answer, Returns (reply, Some st))
    /\ nsmconnect.Accepted reply = false
    /\ status.Code st = codes.NotFound
    /\ nsmconnect.AdmissionError reply = "requested Network Service w1 does not exist"
    /\ Contains (nsmconnect.AdmissionError reply) "gold-network" = false
    /\ Contains (nsmconnect.AdmissionError reply) "w1" = true.
Proof. do 2 eexists. repeat split. Qed.

Lemma RequestConnection_unknown_service_witness :
  @RequestConnection Samples.world (Samples.broker ∅ ∅ Samples.oneEndpoint) Samples.request =
    (Samples.broker ∅ ∅ Samples.oneEndpoint,
     Returns (unknownServiceReply Samples.request,
              statusOf codes.NotFound "requested network service not found"))
  /\ nsmconnect.Accepted (unknownServiceReply Samples.request) = false
  /\ clientConnections
       (@RequestConnection Samples.world (Samples.broker ∅ ∅ Samples.oneEndpoint)
          Samples.request).1
     = clientConnections (Samples.broker ∅ ∅ Samples.oneEndpoint).
Proof.
  apply (@RequestConnection_unknown_service Samples.world
           (Samples.broker ∅ ∅ Samples.oneEndpoint) Samples.request).
  reflexivity.
Defined.

Lemma RequestConnection_new_request_witness :
  @RequestConnection Samples.world
     (Samples.broker Samples.goldRegistry ∅ Samples.refused) Samples.request
   = (Samples.broker Samples.goldRegistry ∅ Samples.refused,
      Returns (listFailedReply Samples.request "connection refused",
               statusOf codes.Aborted
                 "failed to get a list of endpoints for requested Network Service"))
  /\ @RequestConnection Samples.world
       (Samples.broker Samples.goldRegistry ∅ Samples.noEndpoint) Samples.request
     = (Samples.broker Samples.goldRegistry ∅ Samples.noEndpoint,
        Returns (noEndpointsReply Samples.request,
                 statusOf codes.NotFound
                   "failed no endpoints were found for requested Network Service"))
  /\ @RequestConnection Samples.world
       (Samples.broker Samples.goldRegistry ∅ Samples.oneEndpoint) Samples.request
     = (Samples.broker Samples.goldRegistry ∅ Samples.oneEndpoint,
        Returns (acceptedReply, None)).
Proof.
  split; [|split].
  - refine (proj1 (proj1 (@RequestConnection_new_request Samples.world
             (Samples.broker Samples.goldRegistry ∅ Samples.refused)
             Samples.request Samples.gold _ _) "connection refused" _));
      reflexivity.
  - refine (proj1 (proj1 (proj2 (@RequestConnection_new_request Samples.world
             (Samples.broker Samples.goldRegistry ∅ Samples.noEndpoint)
             Samples.request Samples.gold _ _)) _));
      reflexivity.
  - refine (proj1 (proj2 (proj2 (@RequestConnection_new_request Samples.world
             (Samples.broker Samples.goldRegistry ∅ Samples.oneEndpoint)
             Samples.request Samples.gold _ _))
             Samples.goldEndpoint [] _));
      reflexivity.
Defined.

Lemma RequestConnection_in_progress_witness :
  @RequestConnection Samples.world
     (Samples.broker Samples.goldRegistry (Samples.connectionsOfW1 true)
        Samples.oneEndpoint) Samples.request
   = (Samples.broker Samples.goldRegistry (Samples.connectionsOfW1 true)
        Samples.oneEndpoint,
      Returns (beingProgrammedReply Samples.request,
               statusOf codes.AlreadyExists
                 "dataplane for requested network service is being programmed, retry")).
Proof.
  refine (proj1 (@RequestConnection_in_progress Samples.world
           (Samples.broker Samples.goldRegistry (Samples.connectionsOfW1 true)
              Samples.oneEndpoint)
           Samples.request Samples.gold _ _ _ _));
    reflexivity.
Defined.

Lemma RequestConnection_completed_idempotent_witness :
  @RequestConnection Samples.world
     (Nat.iter 3
        (fun m => (@RequestConnection Samples.world m Samples.request).1)
        (Samples.broker Samples.goldRegistry (Samples.connectionsOfW1 false)
           Samples.oneEndpoint))
     Samples.request
   = (Samples.broker Samples.goldRegistry (Samples.connectionsOfW1 false)
        Samples.oneEndpoint,
      Returns (acceptedReply, None)).
Proof.
  refine (proj1 (proj2 (@RequestConnection_completed_idempotent Samples.world
           (Samples.broker Samples.goldRegistry (Samples.connectionsOfW1 false)
              Samples.oneEndpoint)
           Samples.request Samples.gold _ _ _ _ 3)));
    reflexivity.
Defined.

End broker_properties.

(** ** The decisions of the connection broker, taken together *)
Module broker_decisions.
Import Go nsmserver broker_terms go_properties.

Section decisions.
Context `{Environment}.

Lemma RequestConnection_cases n cr :
  RequestConnection n cr =
    match objectstoreapi.GetNetworkService (objectStore n)
            (nsmconnect.NetworkServiceName cr) with
    | None =>
        (n, Returns (unknownServiceReply cr,
                     statusOf codes.NotFound "requested network service not found"))
    | Some _ =>
        match dedupEntry n cr with
        | Some None => (n, Panics nil_dereference)
        | Some (Some cns) =>
            if inProgress cns
            then (n, Returns (beingProgrammedReply cr,
                              statusOf codes.AlreadyExists
                                "dataplane for requested network service is being programmed, retry"))
            else (n, Returns (acceptedReply, None))
        | None =>
            match endpointQuery n cr with
            | inl err =>
                (n, Returns (listFailedReply cr err,
                             statusOf codes.Aborted
                               "failed to get a list of endpoints for requested Network Service"))
            | inr [] =>
                (n, Returns (noEndpointsReply cr,
                             statusOf codes.NotFound
                               "failed no endpoints were found for requested Network Service"))
            | inr (_ :: _) => (n, Returns (acceptedReply, None))
            end
        end
    end.
Proof.
  destruct (objectstoreapi.GetNetworkService (objectStore n)
              (nsmconnect.NetworkServiceName cr)) as [ns|] eqn:Hns.
  - destruct (dedupEntry n cr) as [entry|] eqn:Hentry.
    + rewrite (broker_properties.RequestConnection_known n cr ns entry Hns Hentry).
      destruct entry as [cns|]; simpl; [destruct (inProgress cns)|]; reflexivity.
    + apply (broker_properties.RequestConnection_new n cr ns Hns Hentry).
  - unfold RequestConnection. rewrite Hns. reflexivity.
Qed.

(** Reply and status error always agree. [RequestConnection] never
    blocks; when it returns, the request is accepted exactly when the
    error is nil; an accepted reply carries empty connection parameters
    and no admission error, a refused one carries an admission error, no
    connection parameters, and a status with a message and one of the
    codes [NotFound], [AlreadyExists] and [Aborted]. It panics only on a
    registered service whose dedup entry is a nil pointer. *)
Theorem RequestConnection_reply_and_status_agree n cr :
  match (RequestConnection n cr).2 with
  | Returns (reply, st) =>
      (nsmconnect.Accepted reply = true <-> st = None)
      /\ (nsmconnect.Accepted reply = true ->
          nsmconnect.AdmissionError reply = EmptyString
          /\ nsmconnect.ReplyConnectionParameters reply
             = Some {| nsmconnect.Params := ∅ |})
      /\ (nsmconnect.Accepted reply = false ->
          nsmconnect.AdmissionError reply <> EmptyString
          /\ nsmconnect.ReplyConnectionParameters reply = None
          /\ exists s, st = Some s
                       /\ status.Message s <> EmptyString
                       /\ (status.Code s = codes.NotFound
                           \/ status.Code s = codes.AlreadyExists
                           \/ status.Code s = codes.Aborted))
  | Panics msg =>
      msg = nil_dereference
      /\ dedupEntry n cr = Some None
      /\ objectstoreapi.GetNetworkService (objectStore n)
           (nsmconnect.NetworkServiceName cr) <> None
  | Blocks => False
  end.
Proof.
  rewrite RequestConnection_cases.
  assert (Haccepted :
            (nsmconnect.Accepted acceptedReply = true <-> @None status.Status = None)
            /\ (nsmconnect.Accepted acceptedReply = true ->
                nsmconnect.AdmissionError acceptedReply = EmptyString
                /\ nsmconnect.ReplyConnectionParameters acceptedReply
                   = Some {| nsmconnect.Params := ∅ |})
            /\ (nsmconnect.Accepted acceptedReply = false ->
                nsmconnect.AdmissionError acceptedReply <> EmptyString
                /\ nsmconnect.ReplyConnectionParameters acceptedReply = None
                /\ exists s, None = Some s
                             /\ status.Message s <> EmptyString
                             /\ (status.Code s = codes.NotFound
                                 \/ status.Code s = codes.AlreadyExists
                                 \/ status.Code s = codes.Aborted))).
  { split; [split; reflexivity|]. split; [split; reflexivity|]. discriminate. }
  assert (Hrefused : forall reply code msg,
            nsmconnect.Accepted reply = false ->
            nsmconnect.AdmissionError reply <> EmptyString ->
            nsmconnect.ReplyConnectionParameters reply = None ->
            msg <> EmptyString ->
            code = codes.NotFound \/ code = codes.AlreadyExists \/ code = codes.Aborted ->
            (nsmconnect.Accepted reply = true <-> statusOf code msg = None)
            /\ (nsmconnect.Accepted reply = true ->
                nsmconnect.AdmissionError reply = EmptyString
                /\ nsmconnect.ReplyConnectionParameters reply
                   = Some {| nsmconnect.Params := ∅ |})
            /\ (nsmconnect.Accepted reply = false ->
                nsmconnect.AdmissionError reply <> EmptyString
                /\ nsmconnect.ReplyConnectionParameters reply = None
                /\ exists s, statusOf code msg = Some s
                             /\ status.Message s <> EmptyString
                             /\ (status.Code s = codes.NotFound
                                 \/ status.Code s = codes.AlreadyExists
                                 \/ status.Code s = codes.Aborted))).
  { intros reply code msg Hacc Herr Hpar Hmsg Hcode.
    split; [split; [congruence|discriminate]|]. split; [congruence|].
    intros _. split; [exact Herr|]. split; [exact Hpar|].
    eexists. split; [reflexivity|]. split; assumption. }
  destruct (objectstoreapi.GetNetworkService _ _) as [ns|]; cbn [snd].
  - destruct (dedupEntry n cr) as [[cns|]|]; cbn [snd].
    + destruct (inProgress cns); cbn [snd]; [|exact Haccepted].
      apply Hrefused;
        [reflexivity|cbn; discriminate|reflexivity|discriminate|auto].
    + split; [reflexivity|]. split; [reflexivity|discriminate].
    + destruct (endpointQuery n cr) as [err|[|e es]]; cbn [snd];
        [| |exact Haccepted];
        (apply Hrefused;
           [reflexivity|cbn; discriminate|reflexivity|discriminate|auto]).
  - apply Hrefused;
      [reflexivity|cbn; discriminate|reflexivity|discriminate|auto].
Qed.

(** When a request is accepted. [RequestConnection] accepts exactly when
    the service is registered and either the pair of the request has a
    dedup entry that is not in progress, or it has none and the cluster
    lists at least one endpoint for the service. *)
Theorem RequestConnection_accepts_iff n cr :
  (exists reply st,
     (RequestConnection n cr).2 = Returns (reply, st)
     /\ nsmconnect.Accepted reply = true)
  <->
  (objectstoreapi.GetNetworkService (objectStore n)
     (nsmconnect.NetworkServiceName cr) <> None
   /\ ((exists cns, dedupEntry n cr = Some (Some cns) /\ inProgress cns = false)
       \/ (dedupEntry n cr = None
           /\ exists e es, endpointQuery n cr = inr (e :: es)))).
Proof.
  rewrite RequestConnection_cases.
  destruct (objectstoreapi.GetNetworkService _ _) as [ns|]; simpl.
  - destruct (dedupEntry n cr) as [[cns|]|]; simpl.
    + destruct (inProgress cns) eqn:Hflag; simpl; split.
      * intros (reply & st & [= <- <-] & Hacc). discriminate.
      * intros (_ & [(cns' & [= <-] & Hfalse)|(Hnone & _)]); congruence.
      * intros _. split; [discriminate|]. left. eauto.
      * intros _. do 2 eexists. split; reflexivity.
    + split.
      * intros (reply & st & Hrun & _). discriminate.
      * intros (_ & [(cns' & Hsome & _)|(Hnone & _)]); discriminate.
    + destruct (endpointQuery n cr) as [err|[|e es]]; simpl; split.
      * intros (reply & st & [= <- <-] & Hacc). discriminate.
      * intros (_ & [(cns' & Hsome & _)|(_ & e & es & Hq)]); discriminate.
      * intros (reply & st & [= <- <-] & Hacc). discriminate.
      * intros (_ & [(cns' & Hsome & _)|(_ & e & es & Hq)]); discriminate.
      * intros _. split; [discriminate|]. right. split; [reflexivity|]. eauto.
      * intros _. do 2 eexists. split; reflexivity.
  - split.
    + intros (reply & st & [= <- <-] & Hacc). discriminate.
    + intros (Hns & _). congruence.
Qed.

(** Cleaning a request id. [cleanConnectionRequest] removes the dedup
    entries of the request id for all services at once and leaves those
    of other request ids alone; cleaning twice is cleaning once. A
    request of the cleaned id for a registered service is then decided as
    a new request: by the endpoint query, whatever its entry said
    before. *)
Theorem cleanConnectionRequest_makes_request_new requestID n :
  (forall cr, nsmconnect.RequestId cr = requestID ->
     dedupEntry (cleanConnectionRequest requestID n) cr = None)
  /\ (forall cr, nsmconnect.RequestId cr <> requestID ->
       dedupEntry (cleanConnectionRequest requestID n) cr = dedupEntry n cr)
  /\ cleanConnectionRequest requestID (cleanConnectionRequest requestID n)
     = cleanConnectionRequest requestID n
  /\ (forall cr ns,
       nsmconnect.RequestId cr = requestID ->
       objectstoreapi.GetNetworkService (objectStore n)
         (nsmconnect.NetworkServiceName cr) = Some ns ->
       (RequestConnection (cleanConnectionRequest requestID n) cr).2
       = match endpointQuery n cr with
         | inl err =>
             Returns (listFailedReply cr err,
                      statusOf codes.Aborted
                        "failed to get a list of endpoints for requested Network Service")
         | inr [] =>
             Returns (noEndpointsReply cr,
                      statusOf codes.NotFound
                        "failed no endpoints were found for requested Network Service")
         | inr (_ :: _) => Returns (acceptedReply, None)
         end).
Proof.
  assert (Hgone : forall cr, nsmconnect.RequestId cr = requestID ->
                    dedupEntry (cleanConnectionRequest requestID n) cr = None).
  { intros cr <-. unfold dedupEntry, cleanConnectionRequest. simpl.
    rewrite lookup_delete_eq. reflexivity. }
  split; [exact Hgone|]. split; [|split].
  - intros cr Hne. unfold dedupEntry, cleanConnectionRequest. simpl.
    rewrite lookup_delete_ne by congruence. reflexivity.
  - unfold cleanConnectionRequest, set_clientConnections. simpl.
    rewrite delete_delete_eq. reflexivity.
  - intros cr ns Hid Hns. rewrite RequestConnection_cases.
    change (objectStore (cleanConnectionRequest requestID n)) with (objectStore n).
    rewrite Hns, (Hgone cr Hid).
    change (endpointQuery (cleanConnectionRequest requestID n) cr)
      with (endpointQuery n cr).
    destruct (endpointQuery n cr) as [err|[|e es]]; reflexivity.
Qed.

End decisions.

(** A request answered "being programmed" is, once its id is cleaned,
    accepted as a new request. *)
Example retry_after_clean :
  (@RequestConnection Samples.world
     (Samples.broker Samples.goldRegistry (Samples.connectionsOfW1 true)
        Samples.oneEndpoint) Samples.request).2
  = Returns (beingProgrammedReply Samples.request,
             statusOf codes.AlreadyExists
               "dataplane for requested network service is being programmed, retry")
  /\ (@RequestConnection Samples.world
       (cleanConnectionRequest "w1"
          (Samples.broker Samples.goldRegistry (Samples.connectionsOfW1 true)
             Samples.oneEndpoint)) Samples.request).2
     = Returns (acceptedReply, None).
Proof. split; reflexivity. Qed.

End broker_decisions.

(** ** Properties of the device plugin side *)
Module plugin_properties.
Import Go nsmserver broker_terms more_terms go_properties.

(** An element is none of those of a list of constructors other than its
    own. *)
Ltac silent Hin :=
  repeat (apply elem_of_cons in Hin; destruct Hin as [Hin|Hin]; [discriminate Hin|]);
  apply elem_of_nil in Hin; contradiction.

Section allocation.
Context `{Environment}.

Lemma mountFor_deviceMount id : mountFor id = deviceMount id.
Proof.
  unfold mountFor, deviceMount.
  change (Sprintf "nsm-%s" [id]) with ("nsm-" +:+ (id +:+ EmptyString)).
  rewrite append_empty_r. reflexivity.
Qed.

Lemma mountsFor_app known ids1 ids2 :
  mountsFor known (ids1 ++ ids2) = mountsFor known ids1 ++ mountsFor known ids2.
Proof. unfold mountsFor. rewrite filter_app, fmap_app. reflexivity. Qed.

Lemma mountsFor_cons known id ids :
  mountsFor known (id :: ids) = mountsFor known [id] ++ mountsFor known ids.
Proof. apply (mountsFor_app known [id] ids). Qed.

Lemma mountsFor_unknown known id : id ∉ known -> mountsFor known [id] = [].
Proof.
  intros Hid. unfold mountsFor. rewrite filter_cons_False; [reflexivity|].
  intros [Hin _]. contradiction.
Qed.

Lemma mountsFor_made known id :
  id ∈ known ->
  os_MkdirAll (path_Join [SocketBaseDir; "nsm-" +:+ id]) folderMask = None ->
  mountsFor known [id] = [deviceMount id].
Proof.
  intros Hid Hdir. unfold mountsFor. rewrite filter_cons_True; [reflexivity|].
  split; assumption.
Qed.

Lemma mountsFor_failed known id err :
  os_MkdirAll (path_Join [SocketBaseDir; "nsm-" +:+ id]) folderMask = Some err ->
  mountsFor known [id] = [].
Proof.
  intros Hdir. unfold mountsFor. rewrite filter_cons_False; [reflexivity|].
  intros [_ Hnone]. congruence.
Qed.

Lemma reallocated_nil n rt : channelsSound n rt -> reallocated [] n rt n rt.
Proof.
  intros Hs. unfold reallocated. split; [exact Hs|].
  split; [destruct n; reflexivity|]. split; [reflexivity|]. split; [lia|].
  split; [|reflexivity].
  intros id Hin. apply elem_of_nil in Hin. contradiction.
Qed.

Lemma reallocated_app ids1 ids2 n rt n1 rt1 n2 rt2 :
  reallocated ids1 n rt n1 rt1 -> reallocated ids2 n1 rt1 n2 rt2 ->
  reallocated (ids1 ++ ids2) n rt n2 rt2.
Proof.
  intros (_ & Hset1 & Hdom1 & Hle1 & Hnew1 & Hold1)
         (Hs2 & Hset2 & Hdom2 & Hle2 & Hnew2 & Hold2).
  unfold reallocated. split; [exact Hs2|].
  split; [rewrite Hset2 at 1; rewrite Hset1; reflexivity|].
  split; [congruence|]. split; [lia|]. split.
  - intros id Hin Hknown.
    destruct (decide (id ∈ ids2)) as [Hin2|Hnot2].
    + destruct (Hnew2 id Hin2) as (ch & Hch & Hrange).
      { rewrite Hdom1. exact Hknown. }
      exists ch. split; [exact Hch|lia].
    + apply elem_of_app in Hin. destruct Hin as [Hin1|Hin2]; [|contradiction].
      destruct (Hnew1 id Hin1 Hknown) as (ch & Hch & Hrange).
      exists ch. split; [|lia]. rewrite (Hold2 id Hnot2). exact Hch.
  - intros id Hnot. rewrite Hold2, Hold1; [reflexivity| |];
      intros Hin; apply Hnot, elem_of_app; auto.
Qed.

(** Replacing the entry of a key by a descriptor on the channel made next
    keeps the channels sound, provided nothing was closed but the channel
    the replaced entry held while allocated. *)
Lemma channelsSound_replace n rt id sock rt' :
  channelsSound n rt ->
  nsmSockets n !! id = Some sock ->
  channelsMade rt' = S (channelsMade rt) ->
  (forall c, c ∈ closedChannels rt' ->
     c ∈ closedChannels rt \/
     (allocated sock = true /\ stopChannel sock = Some c)) ->
  channelsSound
    (set_nsmSockets n (<[id := socketFor id (channelsMade rt)]> (nsmSockets n))) rt'.
Proof.
  intros (Hlive & Hdistinct & Hclosed) Hsock Hmade Hcl.
  assert (Hlt : forall c, c ∈ closedChannels rt' -> c < channelsMade rt).
  { intros c Hc. destruct (Hcl c Hc) as [Hold|[Ha Hch]]; [auto|].
    destruct (Hlive id sock Hsock Ha) as (c' & Hc' & Hlt & _). congruence. }
  split; [|split].
  - intros id' sock' Hlook Halloc. simpl in Hlook.
    destruct (decide (id = id')) as [<-|Hne].
    + rewrite lookup_insert_eq in Hlook. injection Hlook as <-.
      exists (channelsMade rt). split; [reflexivity|]. split; [lia|].
      intros Hc. apply Hlt in Hc. lia.
    + rewrite lookup_insert_ne in Hlook by done.
      destruct (Hlive id' sock' Hlook Halloc) as (c & Hc & Hclt & Hopen).
      exists c. split; [exact Hc|]. split; [lia|].
      intros Hin. destruct (Hcl c Hin) as [Hold|[Ha Hch]]; [contradiction|].
      apply (Hdistinct id id' sock sock' Hne Hsock Hlook Ha Halloc). congruence.
  - intros id1 id2 sock1 sock2 Hne H1 H2 Ha1 Ha2. simpl in H1, H2.
    destruct (decide (id = id1)) as [<-|Hne1];
      destruct (decide (id = id2)) as [<-|Hne2]; [contradiction| | |].
    + rewrite lookup_insert_eq in H1. injection H1 as <-.
      rewrite lookup_insert_ne in H2 by done.
      destruct (Hlive id2 sock2 H2 Ha2) as (c & Hc & Hclt & _).
      rewrite Hc. simpl. intros [= Heq]. lia.
    + rewrite lookup_insert_eq in H2. injection H2 as <-.
      rewrite lookup_insert_ne in H1 by done.
      destruct (Hlive id1 sock1 H1 Ha1) as (c & Hc & Hclt & _).
      rewrite Hc. simpl. intros [= Heq]. lia.
    + rewrite lookup_insert_ne in H1 by done.
      rewrite lookup_insert_ne in H2 by done.
      apply (Hdistinct id1 id2 sock1 sock2 Hne H1 H2 Ha1 Ha2).
  - intros c Hc. apply Hlt in Hc. lia.
Qed.

Lemma reallocated_replace n rt id sock rt' :
  channelsSound n rt ->
  nsmSockets n !! id = Some sock ->
  channelsMade rt' = S (channelsMade rt) ->
  (forall c, c ∈ closedChannels rt' ->
     c ∈ closedChannels rt \/
     (allocated sock = true /\ stopChannel sock = Some c)) ->
  reallocated [id] n rt
    (set_nsmSockets n (<[id := socketFor id (channelsMade rt)]> (nsmSockets n))) rt'.
Proof.
  intros Hs Hsock Hmade Hcl. unfold reallocated.
  split; [apply (channelsSound_replace n rt id sock rt'); assumption|].
  split; [reflexivity|]. simpl. split; [|split; [lia|split]].
  - rewrite dom_insert_L. apply elem_of_dom_2 in Hsock.
    apply subseteq_union_1_L, singleton_subseteq_l. exact Hsock.
  - intros id' Hin _. apply list_elem_of_singleton in Hin. subst id'.
    exists (channelsMade rt). rewrite lookup_insert_eq. split; [reflexivity|lia].
  - intros id' Hnot. rewrite lookup_insert_ne; [reflexivity|].
    intros ->. apply Hnot, list_elem_of_singleton. reflexivity.
Qed.

(** One pass of the inner loop on a table whose channels agree with the
    runtime never panics: it blocks, in the handshake of an entry flagged
    allocated whose stop signal is not confirmed, or it returns, and then
    any handshake it went through was confirmed. *)
Lemma allocateDevice_sound id n rt mounts :
  channelsSound n rt ->
  (exists sock c,
      nsmSockets n !! id = Some sock /\ allocated sock = true
      /\ stopChannel sock = Some c /\ stopConfirmed c = false
      /\ allocateDevice id (n, rt, mounts) = Blocks)
  \/ (exists n' rt',
        allocateDevice id (n, rt, mounts)
          = Returns (n', rt', mounts ++ mountsFor (dom (nsmSockets n)) [id])
        /\ reallocated [id] n rt n' rt'
        /\ stopsConfirmed [id] n).
Proof.
  intros Hs. unfold allocateDevice.
  destruct (nsmSockets n !! id) as [sock|] eqn:Hsock.
  - assert (Hknown : id ∈ dom (nsmSockets n)) by (apply elem_of_dom; eauto).
    assert (Hstop :
      (exists c, allocated sock = true /\ stopChannel sock = Some c
                 /\ stopConfirmed c = false
                 /\ (if allocated sock then stopServer rt (stopChannel sock)
                     else Returns rt) = Blocks)
      \/ (exists rt1,
            (if allocated sock then stopServer rt (stopChannel sock)
             else Returns rt) = Returns rt1
            /\ channelsMade rt1 = channelsMade rt
            /\ (forall c, allocated sock = true -> stopChannel sock = Some c ->
                  stopConfirmed c = true)
            /\ (forall c, c ∈ closedChannels rt1 ->
                  c ∈ closedChannels rt \/
                  (allocated sock = true /\ stopChannel sock = Some c)))).
    { destruct (allocated sock) eqn:Ha.
      - destruct Hs as (Hlive & _ & _).
        destruct (Hlive id sock Hsock Ha) as (c & Hc & _ & Hopen).
        rewrite Hc. unfold stopServer.
        destruct (decide (c ∈ closedChannels rt)) as [Hin|_]; [contradiction|].
        destruct (stopConfirmed c) eqn:Hconf.
        + right. eexists. split; [reflexivity|]. simpl. split; [reflexivity|].
          split; [intros c' _ [= <-]; exact Hconf|].
          intros c' Hc'. apply elem_of_union in Hc'. destruct Hc' as [Hc'|Hc']; [|auto].
          apply elem_of_singleton in Hc'. subst c'. auto.
        + left. exists c. auto.
      - right. exists rt. split; [reflexivity|]. split; [reflexivity|].
        split; [discriminate|]. auto. }
    destruct Hstop as [(c & Ha & Hc & Hconf & ->)|(rt1 & -> & Hmade & Hok & Hcl)].
    { left. exists sock, c. split; [reflexivity|]. split; [exact Ha|].
      split; [exact Hc|]. split; [exact Hconf|reflexivity]. }
    right. rewrite bind_Returns. cbv zeta. unfold makeChan.
    rewrite mountFor_deviceMount, Hmade.
    change (pluginapi.HostPath (deviceMount id))
      with (path_Join [SocketBaseDir; "nsm-" +:+ id]).
    fold (socketFor id (channelsMade rt)).
    assert (Hthis : stopsConfirmed [id] n).
    { intros id' sock' c Hin Hsock' Ha Hc.
      apply list_elem_of_singleton in Hin. subst id'.
      rewrite Hsock in Hsock'. injection Hsock' as <-. apply (Hok c Ha Hc). }
    destruct (os_MkdirAll _ _) as [err|] eqn:Hdir.
    + rewrite (mountsFor_failed _ _ _ Hdir), app_nil_r.
      do 2 eexists. split; [reflexivity|]. split; [|exact Hthis].
      apply (reallocated_replace n rt id sock); [assumption..|simpl; lia|exact Hcl].
    + rewrite (mountsFor_made _ _ Hknown Hdir).
      do 2 eexists. split; [reflexivity|]. split; [|exact Hthis].
      apply (reallocated_replace n rt id sock); [assumption..|simpl; lia|exact Hcl].
  - right. rewrite mountsFor_unknown, app_nil_r by (apply not_elem_of_dom; exact Hsock).
    exists n, rt. split; [reflexivity|]. split.
    + unfold reallocated.
      split; [exact Hs|]. split; [destruct n; reflexivity|].
      split; [reflexivity|]. split; [lia|]. split; [|reflexivity].
      intros id' Hin Hknown. apply list_elem_of_singleton in Hin. subst id'.
      apply elem_of_dom in Hknown. rewrite Hsock in Hknown.
      destruct Hknown; discriminate.
    + intros id' sock' c Hin Hsock'.
      apply list_elem_of_singleton in Hin. subst id'. congruence.
Qed.

Lemma allocateDevices_sound ids : forall n rt mounts,
  channelsSound n rt ->
  allocateDevices ids (n, rt, mounts) = Blocks
  \/ (exists n' rt',
        allocateDevices ids (n, rt, mounts)
          = Returns (n', rt', mounts ++ mountsFor (dom (nsmSockets n)) ids)
        /\ reallocated ids n rt n' rt').
Proof.
  induction ids as [|id ids IH]; intros n rt mounts Hs.
  - right. exists n, rt. simpl. rewrite app_nil_r.
    split; [reflexivity|apply reallocated_nil; exact Hs].
  - change (allocateDevices (id :: ids) (n, rt, mounts))
      with (allocateDevice id (n, rt, mounts) ≫= allocateDevices ids).
    destruct (allocateDevice_sound id n rt mounts Hs)
      as [(_ & _ & _ & _ & _ & _ & ->)|(n1 & rt1 & -> & Hre1 & _)];
      [left; reflexivity|].
    rewrite bind_Returns.
    destruct (IH n1 rt1 (mounts ++ mountsFor (dom (nsmSockets n)) [id]))
      as [->|(n2 & rt2 & -> & Hre2)]; [apply Hre1|left; reflexivity|].
    right. exists n2, rt2. split.
    + destruct Hre1 as (_ & _ & -> & _).
      rewrite (mountsFor_cons _ id ids), app_assoc. reflexivity.
    + apply (reallocated_app [id] ids n rt n1 rt1 n2 rt2 Hre1 Hre2).
Qed.

(** What is left of the premises of a batch once its first part is
    through: the keys of the rest are still distinct, and their entries
    are those the call started with, so their handshakes are confirmed. *)
Lemma stopsConfirmed_rest ids1 ids2 n rt n1 rt1 :
  NoDup (filter (fun id => id ∈ dom (nsmSockets n)) (ids1 ++ ids2)) ->
  stopsConfirmed (ids1 ++ ids2) n ->
  reallocated ids1 n rt n1 rt1 ->
  NoDup (filter (fun id => id ∈ dom (nsmSockets n1)) ids2)
  /\ stopsConfirmed ids2 n1.
Proof.
  intros Hnodup Hconf (_ & _ & Hdom & _ & _ & Hold).
  rewrite filter_app in Hnodup. apply NoDup_app in Hnodup.
  destruct Hnodup as (_ & Hapart & Hnodup2). rewrite Hdom.
  split; [exact Hnodup2|].
  intros id sock c Hin Hsock Ha Hc.
  assert (Hknown : id ∈ dom (nsmSockets n)).
  { rewrite <- Hdom. apply elem_of_dom. eauto. }
  assert (Hnot : id ∉ ids1).
  { intros Hin1. apply (Hapart id); apply list_elem_of_filter; auto. }
  rewrite (Hold id Hnot) in Hsock.
  apply (Hconf id sock c); [apply elem_of_app; auto|assumption..].
Qed.

Lemma stopsConfirmed_first ids1 ids2 n :
  NoDup (filter (fun id => id ∈ dom (nsmSockets n)) (ids1 ++ ids2)) ->
  stopsConfirmed (ids1 ++ ids2) n ->
  NoDup (filter (fun id => id ∈ dom (nsmSockets n)) ids1)
  /\ stopsConfirmed ids1 n.
Proof.
  intros Hnodup Hconf. rewrite filter_app in Hnodup. apply NoDup_app in Hnodup.
  split; [apply Hnodup|].
  intros id sock c Hin. apply (Hconf id sock c). apply elem_of_app. auto.
Qed.

Lemma allocateDevices_confirmed ids : forall n rt mounts,
  channelsSound n rt ->
  NoDup (filter (fun id => id ∈ dom (nsmSockets n)) ids) ->
  stopsConfirmed ids n ->
  exists n' rt',
    allocateDevices ids (n, rt, mounts)
      = Returns (n', rt', mounts ++ mountsFor (dom (nsmSockets n)) ids)
    /\ reallocated ids n rt n' rt'.
Proof.
  induction ids as [|id ids IH]; intros n rt mounts Hs Hnodup Hconf.
  - exists n, rt. simpl. rewrite app_nil_r.
    split; [reflexivity|apply reallocated_nil; exact Hs].
  - change (allocateDevices (id :: ids) (n, rt, mounts))
      with (allocateDevice id (n, rt, mounts) ≫= allocateDevices ids).
    destruct (allocateDevice_sound id n rt mounts Hs)
      as [(sock & c & Hsock & Ha & Hc & Hno & _)|(n1 & rt1 & -> & Hre1 & _)].
    { rewrite (Hconf id sock c) in Hno; [discriminate| |assumption..].
      apply elem_of_cons. auto. }
    rewrite bind_Returns.
    destruct (stopsConfirmed_rest [id] ids n rt n1 rt1 Hnodup Hconf Hre1)
      as (Hnodup1 & Hconf1).
    destruct (IH n1 rt1 (mounts ++ mountsFor (dom (nsmSockets n)) [id]))
      as (n2 & rt2 & -> & Hre2); [apply Hre1|exact Hnodup1|exact Hconf1|].
    exists n2, rt2. split.
    + destruct Hre1 as (_ & _ & -> & _).
      rewrite (mountsFor_cons _ id ids), app_assoc. reflexivity.
    + apply (reallocated_app [id] ids n rt n1 rt1 n2 rt2 Hre1 Hre2).
Qed.

Lemma allocateContainers_step req reqs n rt responses :
  allocateContainers (req :: reqs) (n, rt) responses
  = allocateDevices (pluginapi.DevicesIDs req) (n, rt, []) ≫=
      (fun '(n, rt, mounts) =>
         allocateContainers reqs (n, rt)
           (responses ++ [{| pluginapi.Mounts := mounts |}])).
Proof. reflexivity. Qed.

Lemma allocateContainers_confirmed reqs : forall n rt responses,
  channelsSound n rt ->
  NoDup (filter (fun id => id ∈ dom (nsmSockets n))
           (concat (pluginapi.DevicesIDs <$> reqs))) ->
  stopsConfirmed (concat (pluginapi.DevicesIDs <$> reqs)) n ->
  exists n' rt',
    allocateContainers reqs (n, rt) responses
      = Returns (n', rt', responses ++ responsesFor (dom (nsmSockets n)) reqs)
    /\ reallocated (concat (pluginapi.DevicesIDs <$> reqs)) n rt n' rt'.
Proof.
  induction reqs as [|req reqs IH]; intros n rt responses Hs Hnodup Hconf.
  - exists n, rt. unfold responsesFor. simpl. rewrite app_nil_r.
    split; [reflexivity|apply reallocated_nil; exact Hs].
  - rewrite fmap_cons in Hnodup, Hconf. simpl concat in Hnodup, Hconf.
    destruct (stopsConfirmed_first _ _ _ Hnodup Hconf) as (Hnodup0 & Hconf0).
    destruct (allocateDevices_confirmed (pluginapi.DevicesIDs req) n rt []
                Hs Hnodup0 Hconf0)
      as (n1 & rt1 & Hids & Hre1).
    destruct (stopsConfirmed_rest _ _ n rt n1 rt1 Hnodup Hconf Hre1)
      as (Hnodup1 & Hconf1).
    destruct (IH n1 rt1
                (responses ++
                 [{| pluginapi.Mounts :=
                       mountsFor (dom (nsmSockets n)) (pluginapi.DevicesIDs req) |}]))
      as (n2 & rt2 & Hrest & Hre2); [apply Hre1|exact Hnodup1|exact Hconf1|].
    exists n2, rt2. split.
    + rewrite allocateContainers_step, Hids, bind_Returns. cbv beta iota.
      rewrite app_nil_l, Hrest.
      destruct Hre1 as (_ & _ & -> & _). unfold responsesFor.
      rewrite fmap_cons, <- app_assoc. reflexivity.
    + rewrite fmap_cons. simpl concat.
      apply (reallocated_app _ _ n rt n1 rt1 n2 rt2 Hre1 Hre2).
Qed.

(** An entry of the batch flagged allocated whose stop signal is not
    confirmed keeps the loop from returning. *)
Lemma allocateDevices_unconfirmed ids : forall n rt mounts id sock c,
  channelsSound n rt ->
  id ∈ ids -> nsmSockets n !! id = Some sock ->
  allocated sock = true -> stopChannel sock = Some c ->
  stopConfirmed c = false ->
  allocateDevices ids (n, rt, mounts) = Blocks.
Proof.
  induction ids as [|id0 ids IH]; intros n rt mounts id sock c Hs Hin Hsock Ha Hc Hno.
  - apply elem_of_nil in Hin. contradiction.
  - change (allocateDevices (id0 :: ids) (n, rt, mounts))
      with (allocateDevice id0 (n, rt, mounts) ≫= allocateDevices ids).
    destruct (allocateDevice_sound id0 n rt mounts Hs)
      as [(_ & _ & _ & _ & _ & _ & ->)|(n1 & rt1 & -> & Hre1 & Hok)];
      [reflexivity|].
    rewrite bind_Returns.
    destruct (decide (id = id0)) as [->|Hne].
    + rewrite (Hok id0 sock c) in Hno; [discriminate| |assumption..].
      apply list_elem_of_singleton. reflexivity.
    + apply (IH n1 rt1 _ id sock c); [apply Hre1| | |assumption..].
      * apply elem_of_cons in Hin. destruct Hin as [Heq|Hin]; [contradiction|exact Hin].
      * destruct Hre1 as (_ & _ & _ & _ & _ & Hold). rewrite Hold; [exact Hsock|].
        intros Hin0. apply list_elem_of_singleton in Hin0. contradiction.
Qed.

Lemma allocateContainers_unconfirmed reqs : forall n rt responses id sock c,
  channelsSound n rt ->
  id ∈ concat (pluginapi.DevicesIDs <$> reqs) -> nsmSockets n !! id = Some sock ->
  allocated sock = true -> stopChannel sock = Some c ->
  stopConfirmed c = false ->
  allocateContainers reqs (n, rt) responses = Blocks.
Proof.
  induction reqs as [|req reqs IH];
    intros n rt responses id sock c Hs Hin Hsock Ha Hc Hno.
  - apply elem_of_nil in Hin. contradiction.
  - rewrite allocateContainers_step.
    destruct (decide (id ∈ pluginapi.DevicesIDs req)) as [Hhere|Hnot].
    { rewrite (allocateDevices_unconfirmed _ n rt [] id sock c); auto. }
    destruct (allocateDevices_sound (pluginapi.DevicesIDs req) n rt [] Hs)
      as [->|(n1 & rt1 & -> & Hre1)]; [reflexivity|].
    rewrite bind_Returns. cbv beta iota.
    apply (IH n1 rt1 _ id sock c); [apply Hre1| | |assumption..].
    + rewrite fmap_cons in Hin. simpl concat in Hin. apply elem_of_app in Hin.
      destruct Hin as [Hin|Hin]; [contradiction|exact Hin].
    + destruct Hre1 as (_ & _ & _ & _ & _ & Hold). rewrite Hold; [exact Hsock|exact Hnot].
Qed.

Lemma stepped_nil n rt : stepped [] n rt n rt.
Proof.
  unfold stepped. split; [destruct n; reflexivity|]. split; [reflexivity|].
  split; [simpl; lia|]. split; [simpl; rewrite app_nil_r; reflexivity|].
  split; [reflexivity|]. split; [|split; [reflexivity|]].
  - intros id Hin. apply elem_of_nil in Hin. contradiction.
  - intros id sock c Hin. apply elem_of_nil in Hin. contradiction.
Qed.

Lemma stepped_app ids1 ids2 n rt n1 rt1 n2 rt2 :
  stepped ids1 n rt n1 rt1 -> stepped ids2 n1 rt1 n2 rt2 ->
  stepped (ids1 ++ ids2) n rt n2 rt2.
Proof.
  intros (Hset1 & Hdom1 & Hmade1 & Hst1 & Hcl1 & Hnew1 & Hold1 & Hstop1)
         (Hset2 & Hdom2 & Hmade2 & Hst2 & Hcl2 & Hnew2 & Hold2 & Hstop2).
  rewrite Hdom1 in Hmade2, Hst2.
  unfold stepped. split; [rewrite Hset2 at 1; rewrite Hset1; reflexivity|].
  split; [congruence|].
  split; [rewrite filter_app, length_app; lia|].
  split; [rewrite filter_app, Hst2, Hst1, app_assoc; reflexivity|].
  split; [etrans; eassumption|]. split; [|split].
  - intros id Hin Hknown.
    destruct (decide (id ∈ ids2)) as [Hin2|Hnot2].
    + apply (Hnew2 id Hin2). rewrite Hdom1. exact Hknown.
    + apply elem_of_app in Hin. destruct Hin as [Hin1|Hin2]; [|contradiction].
      destruct (Hnew1 id Hin1 Hknown) as (ch & Hch).
      exists ch. rewrite (Hold2 id Hnot2). exact Hch.
  - intros id Hnot. rewrite Hold2, Hold1; [reflexivity| |];
      intros Hin; apply Hnot, elem_of_app; auto.
  - intros id sock c Hin Hsock Ha Hc.
    destruct (decide (id ∈ ids1)) as [Hin1|Hnot1].
    + apply Hcl2. apply (Hstop1 id sock c Hin1 Hsock Ha Hc).
    + apply elem_of_app in Hin. destruct Hin as [Hin1|Hin2]; [contradiction|].
      apply (Hstop2 id sock c Hin2); [|exact Ha|exact Hc].
      rewrite (Hold1 id Hnot1). exact Hsock.
Qed.

Lemma allocateDevice_returns id n rt mounts n' rt' mounts' :
  allocateDevice id (n, rt, mounts) = Returns (n', rt', mounts') ->
  mounts' = mounts ++ mountsFor (dom (nsmSockets n)) [id]
  /\ stepped [id] n rt n' rt'.
Proof.
  unfold allocateDevice.
  destruct (nsmSockets n !! id) as [sock|] eqn:Hsock.
  - assert (Hknown : id ∈ dom (nsmSockets n)) by (apply elem_of_dom; eauto).
    destruct (if allocated sock then stopServer rt (stopChannel sock) else Returns rt)
      as [rt1| |] eqn:Hstop; [|discriminate..].
    assert (Hrt1 : channelsMade rt1 = channelsMade rt
                   /\ started rt1 = started rt
                   /\ closedChannels rt ⊆ closedChannels rt1
                   /\ (forall c, allocated sock = true -> stopChannel sock = Some c ->
                         c ∈ closedChannels rt1)).
    { destruct (allocated sock).
      - unfold stopServer in Hstop. destruct (stopChannel sock) as [c|]; [|discriminate].
        destruct (decide (c ∈ closedChannels rt)); [discriminate|].
        destruct (stopConfirmed c); [|discriminate].
        injection Hstop as <-. simpl. split; [reflexivity|]. split; [reflexivity|].
        split; [apply union_subseteq_r|].
        intros c' _ [= <-]. apply elem_of_union_l, elem_of_singleton. reflexivity.
      - injection Hstop as <-. split; [reflexivity|]. split; [reflexivity|].
        split; [reflexivity|]. discriminate. }
    destruct Hrt1 as (Hmade & Hstarted & Hcl & Hclosed).
    rewrite bind_Returns. cbv zeta. unfold makeChan. rewrite mountFor_deviceMount.
    change (pluginapi.HostPath (deviceMount id))
      with (path_Join [SocketBaseDir; "nsm-" +:+ id]).
    fold (socketFor id (channelsMade rt1)).
    assert (Hstep : forall rt2,
               channelsMade rt2 = S (channelsMade rt1) ->
               closedChannels rt2 = closedChannels rt1 ->
               started rt2 = started rt ++ filter (prepared (dom (nsmSockets n))) [id] ->
               stepped [id] n rt
                 (set_nsmSockets n
                    (<[id := socketFor id (channelsMade rt1)]> (nsmSockets n))) rt2).
    { intros rt2 Hm2 Hc2 Hs2. unfold stepped. split; [reflexivity|]. simpl.
      split; [rewrite dom_insert_L; apply subseteq_union_1_L, singleton_subseteq_l;
              exact Hknown|].
      split; [rewrite filter_cons_True by exact Hknown; simpl; lia|].
      split; [exact Hs2|]. split; [rewrite Hc2; exact Hcl|]. split; [|split].
      - intros id' Hin _. apply list_elem_of_singleton in Hin. subst id'.
        eexists. apply lookup_insert_eq.
      - intros id' Hnot. rewrite lookup_insert_ne; [reflexivity|].
        intros ->. apply Hnot, list_elem_of_singleton. reflexivity.
      - intros id' sock' c Hin Hsock' Ha Hc.
        apply list_elem_of_singleton in Hin. subst id'.
        rewrite Hsock in Hsock'. injection Hsock' as <-.
        rewrite Hc2. apply (Hclosed c Ha Hc). }
    destruct (os_MkdirAll _ _) as [err|] eqn:Hdir; intros [= <- <- <-].
    + rewrite (mountsFor_failed _ _ _ Hdir), app_nil_r. split; [reflexivity|].
      apply Hstep; [reflexivity|reflexivity|].
      simpl. rewrite filter_cons_False, app_nil_r; [exact Hstarted|].
      intros [_ Hnone]. congruence.
    + rewrite (mountsFor_made _ _ Hknown Hdir). split; [reflexivity|].
      apply Hstep; [reflexivity|reflexivity|].
      simpl. rewrite filter_cons_True by (split; assumption).
      rewrite Hstarted. reflexivity.
  - intros [= <- <- <-].
    assert (Hunknown : id ∉ dom (nsmSockets n)) by (apply not_elem_of_dom; exact Hsock).
    rewrite mountsFor_unknown, app_nil_r by exact Hunknown. split; [reflexivity|].
    unfold stepped. split; [destruct n; reflexivity|]. split; [reflexivity|].
    split; [rewrite filter_cons_False by exact Hunknown; simpl; lia|].
    split; [rewrite filter_cons_False, app_nil_r; [reflexivity|];
            intros [Hin _]; contradiction|].
    split; [reflexivity|]. split; [|split; [reflexivity|]].
    + intros id' Hin Hknown. apply list_elem_of_singleton in Hin. subst id'.
      contradiction.
    + intros id' sock c Hin Hsock'. apply list_elem_of_singleton in Hin. subst id'.
      congruence.
Qed.

Lemma allocateDevices_returns ids : forall n rt mounts n' rt' mounts',
  allocateDevices ids (n, rt, mounts) = Returns (n', rt', mounts') ->
  mounts' = mounts ++ mountsFor (dom (nsmSockets n)) ids
  /\ stepped ids n rt n' rt'.
Proof.
  induction ids as [|id ids IH]; intros n rt mounts n' rt' mounts' Hrun.
  - injection Hrun as <- <- <-. rewrite app_nil_r. split; [reflexivity|apply stepped_nil].
  - change (allocateDevices (id :: ids) (n, rt, mounts))
      with (allocateDevice id (n, rt, mounts) ≫= allocateDevices ids) in Hrun.
    destruct (allocateDevice id (n, rt, mounts)) as [[[n1 rt1] mounts1]| |] eqn:Hstep;
      [|discriminate..].
    rewrite bind_Returns in Hrun.
    destruct (allocateDevice_returns _ _ _ _ _ _ _ Hstep) as (-> & Hs1).
    destruct (IH _ _ _ _ _ _ Hrun) as (-> & Hs2).
    split.
    + destruct Hs1 as (_ & -> & _).
      rewrite (mountsFor_cons _ id ids), app_assoc. reflexivity.
    + apply (stepped_app [id] ids n rt n1 rt1 n' rt' Hs1 Hs2).
Qed.

Lemma allocateContainers_returns reqs : forall n rt responses n' rt' responses',
  allocateContainers reqs (n, rt) responses = Returns (n', rt', responses') ->
  responses' = responses ++ responsesFor (dom (nsmSockets n)) reqs
  /\ stepped (concat (pluginapi.DevicesIDs <$> reqs)) n rt n' rt'.
Proof.
  induction reqs as [|req reqs IH]; intros n rt responses n' rt' responses' Hrun.
  - injection Hrun as <- <- <-. unfold responsesFor. simpl. rewrite app_nil_r.
    split; [reflexivity|apply stepped_nil].
  - change (allocateContainers (req :: reqs) (n, rt) responses)
      with (allocateDevices (pluginapi.DevicesIDs req) (n, rt, []) ≫=
              (fun '(n, rt, mounts) =>
                 allocateContainers reqs (n, rt)
                   (responses ++ [{| pluginapi.Mounts := mounts |}]))) in Hrun.
    destruct (allocateDevices (pluginapi.DevicesIDs req) (n, rt, []))
      as [[[n1 rt1] mounts1]| |] eqn:Hids; [|discriminate..].
    rewrite bind_Returns in Hrun. cbv beta iota in Hrun.
    destruct (allocateDevices_returns _ _ _ _ _ _ _ Hids) as (-> & Hs1).
    destruct (IH _ _ _ _ _ _ Hrun) as (-> & Hs2).
    split.
    + destruct Hs1 as (_ & -> & _). unfold responsesFor.
      rewrite fmap_cons, <- app_assoc. reflexivity.
    + rewrite fmap_cons. simpl concat.
      apply (stepped_app _ _ n rt n1 rt1 n' rt' Hs1 Hs2).
Qed.

Lemma Allocate_stepped n rt reqs n' rt' resp err :
  Allocate n rt reqs = Returns (n', rt', (resp, err)) ->
  err = None
  /\ pluginapi.ContainerResponses resp
     = responsesFor (dom (nsmSockets n)) (pluginapi.ContainerRequests reqs)
  /\ stepped (batchIds reqs) n rt n' rt'.
Proof.
  unfold Allocate. intros Hrun.
  destruct (allocateContainers (pluginapi.ContainerRequests reqs) (n, rt) [])
    as [[[n1 rt1] responses]| |] eqn:Hc; [|discriminate..].
  rewrite bind_Returns in Hrun. cbv beta iota in Hrun.
  injection Hrun as <- <- <- <-.
  destruct (allocateContainers_returns _ _ _ _ _ _ _ Hc) as (-> & Hs).
  split; [reflexivity|]. split; [reflexivity|exact Hs].
Qed.

Lemma mounts_of_responses (known : gset string)
    (reqs : list pluginapi.ContainerAllocateRequest) :
  concat (pluginapi.Mounts <$> responsesFor known reqs)
  = deviceMount <$> filter (prepared known) (concat (pluginapi.DevicesIDs <$> reqs)).
Proof.
  induction reqs as [|req reqs IH]; [reflexivity|].
  unfold responsesFor in *. rewrite !fmap_cons. simpl concat.
  rewrite IH, filter_app, fmap_app. reflexivity.
Qed.

Lemma madeDuring_nil n rt : madeDuring [] n rt n rt.
Proof. intros id Hin. apply elem_of_nil in Hin. contradiction. Qed.

Lemma madeDuring_app ids1 ids2 n rt n1 rt1 n2 rt2 :
  stepped ids1 n rt n1 rt1 -> stepped ids2 n1 rt1 n2 rt2 ->
  madeDuring ids1 n rt n1 rt1 -> madeDuring ids2 n1 rt1 n2 rt2 ->
  madeDuring (ids1 ++ ids2) n rt n2 rt2.
Proof.
  intros (_ & Hdom1 & Hmade1 & _) (_ & _ & Hmade2 & _ & _ & _ & Hold2 & _) Hm1 Hm2
         id Hin Hknown.
  destruct (decide (id ∈ ids2)) as [Hin2|Hnot2].
  - destruct (Hm2 id Hin2) as (ch & Hch & Hrange); [rewrite Hdom1; exact Hknown|].
    exists ch. split; [exact Hch|lia].
  - apply elem_of_app in Hin. destruct Hin as [Hin1|Hin2]; [|contradiction].
    destruct (Hm1 id Hin1 Hknown) as (ch & Hch & Hrange).
    exists ch. split; [rewrite (Hold2 id Hnot2); exact Hch|lia].
Qed.

(** A pass that returns has given a key the descriptor on the channel
    made next. *)
Lemma allocateDevice_made id n rt mounts n' rt' mounts' :
  allocateDevice id (n, rt, mounts) = Returns (n', rt', mounts') ->
  madeDuring [id] n rt n' rt'.
Proof.
  intros Hrun id' Hin Hknown. apply list_elem_of_singleton in Hin. subst id'.
  apply elem_of_dom in Hknown. destruct Hknown as [sock Hsock].
  unfold allocateDevice in Hrun. rewrite Hsock in Hrun.
  destruct (if allocated sock then stopServer rt (stopChannel sock) else Returns rt)
    as [rt1| |] eqn:Hstop; [|discriminate..].
  assert (Hmade : channelsMade rt1 = channelsMade rt).
  { destruct (allocated sock).
    - unfold stopServer in Hstop. destruct (stopChannel sock) as [c|]; [|discriminate].
      destruct (decide (c ∈ closedChannels rt)); [discriminate|].
      destruct (stopConfirmed c); [|discriminate].
      injection Hstop as <-. reflexivity.
    - injection Hstop as <-. reflexivity. }
  rewrite bind_Returns in Hrun. cbv zeta in Hrun. unfold makeChan in Hrun.
  rewrite mountFor_deviceMount in Hrun.
  change (pluginapi.HostPath (deviceMount id))
    with (path_Join [SocketBaseDir; "nsm-" +:+ id]) in Hrun.
  fold (socketFor id (channelsMade rt1)) in Hrun.
  exists (channelsMade rt). rewrite <- Hmade.
  destruct (os_MkdirAll _ _); injection Hrun as <- <- <-; simpl;
    (split; [apply lookup_insert_eq|lia]).
Qed.

Lemma allocateDevices_made ids : forall n rt mounts n' rt' mounts',
  allocateDevices ids (n, rt, mounts) = Returns (n', rt', mounts') ->
  madeDuring ids n rt n' rt'.
Proof.
  induction ids as [|id ids IH]; intros n rt mounts n' rt' mounts' Hrun.
  - injection Hrun as <- <- <-. apply madeDuring_nil.
  - change (allocateDevices (id :: ids) (n, rt, mounts))
      with (allocateDevice id (n, rt, mounts) ≫= allocateDevices ids) in Hrun.
    destruct (allocateDevice id (n, rt, mounts)) as [[[n1 rt1] mounts1]| |] eqn:Hstep;
      [|discriminate..].
    rewrite bind_Returns in Hrun.
    apply (madeDuring_app [id] ids n rt n1 rt1 n' rt').
    + apply (allocateDevice_returns _ _ _ _ _ _ _ Hstep).
    + apply (allocateDevices_returns _ _ _ _ _ _ _ Hrun).
    + apply (allocateDevice_made _ _ _ _ _ _ _ Hstep).
    + apply (IH _ _ _ _ _ _ Hrun).
Qed.

Lemma allocateContainers_made reqs : forall n rt responses n' rt' responses',
  allocateContainers reqs (n, rt) responses = Returns (n', rt', responses') ->
  madeDuring (concat (pluginapi.DevicesIDs <$> reqs)) n rt n' rt'.
Proof.
  induction reqs as [|req reqs IH]; intros n rt responses n' rt' responses' Hrun.
  - injection Hrun as <- <- <-. apply madeDuring_nil.
  - rewrite allocateContainers_step in Hrun.
    destruct (allocateDevices (pluginapi.DevicesIDs req) (n, rt, []))
      as [[[n1 rt1] mounts1]| |] eqn:Hids; [|discriminate..].
    rewrite bind_Returns in Hrun. cbv beta iota in Hrun.
    rewrite fmap_cons. simpl concat.
    apply (madeDuring_app _ _ n rt n1 rt1 n' rt').
    + apply (allocateDevices_returns _ _ _ _ _ _ _ Hids).
    + apply (allocateContainers_returns _ _ _ _ _ _ _ Hrun).
    + apply (allocateDevices_made _ _ _ _ _ _ _ Hids).
    + apply (IH _ _ _ _ _ _ Hrun).
Qed.

Lemma Allocate_made n rt reqs n' rt' resp err :
  Allocate n rt reqs = Returns (n', rt', (resp, err)) ->
  madeDuring (batchIds reqs) n rt n' rt'.
Proof.
  unfold Allocate. intros Hrun.
  destruct (allocateContainers (pluginapi.ContainerRequests reqs) (n, rt) [])
    as [[[n1 rt1] responses]| |] eqn:Hc; [|discriminate..].
  rewrite bind_Returns in Hrun. cbv beta iota in Hrun.
  injection Hrun as <- <- <- <-.
  apply (allocateContainers_made _ _ _ _ _ _ _ Hc).
Qed.

(** [Allocate] returns when the channels of the table agree with the
    runtime, no key occurs twice in the batch and the handshake of every
    entry of the batch is confirmed; the channels then still agree. *)
Lemma Allocate_confirmed n rt reqs :
  channelsSound n rt ->
  NoDup (batchKeys n reqs) ->
  stopsConfirmed (batchIds reqs) n ->
  exists n' rt',
    Allocate n rt reqs
      = Returns (n', rt',
          ({| pluginapi.ContainerResponses :=
                responsesFor (dom (nsmSockets n)) (pluginapi.ContainerRequests reqs) |},
           None))
    /\ reallocated (batchIds reqs) n rt n' rt'.
Proof.
  intros Hs Hnodup Hconf.
  destruct (allocateContainers_confirmed (pluginapi.ContainerRequests reqs) n rt []
              Hs Hnodup Hconf)
    as (n' & rt' & Hrun & Hre).
  exists n', rt'. split; [|exact Hre].
  unfold Allocate. rewrite Hrun. reflexivity.
Qed.

(** [Allocate] blocks when an entry of the batch is flagged allocated and
    its stop signal is not confirmed. *)
Lemma Allocate_unconfirmed n rt reqs id sock c :
  channelsSound n rt ->
  id ∈ batchIds reqs -> nsmSockets n !! id = Some sock ->
  allocated sock = true -> stopChannel sock = Some c ->
  stopConfirmed c = false ->
  Allocate n rt reqs = Blocks.
Proof.
  intros Hs Hin Hsock Ha Hc Hno. unfold Allocate.
  rewrite (allocateContainers_unconfirmed _ n rt [] id sock c); auto.
Qed.

(** The keys whose directory can be made are the prepared ids. *)
Lemma prepared_keys (known : gset string) (ids : list string) :
  (forall id, id ∈ filter (fun id => id ∈ known) ids ->
     os_MkdirAll (path_Join [SocketBaseDir; "nsm-" +:+ id]) folderMask = None) ->
  filter (prepared known) ids = filter (fun id => id ∈ known) ids.
Proof.
  induction ids as [|id ids IH]; intros Hdirs; [reflexivity|].
  destruct (decide (id ∈ known)) as [Hknown|Hunknown].
  - rewrite (filter_cons_True (fun id => id ∈ known)) in Hdirs |- * by exact Hknown.
    rewrite filter_cons_True.
    + rewrite IH; [reflexivity|]. intros id' Hin. apply Hdirs, elem_of_cons. auto.
    + split; [exact Hknown|]. apply Hdirs, elem_of_cons. auto.
  - rewrite (filter_cons_False (fun id => id ∈ known)) in Hdirs |- * by exact Hunknown.
    rewrite filter_cons_False; [apply IH; exact Hdirs|].
    intros [Hknown _]. contradiction.
Qed.

(** Whenever [Allocate] returns, whatever the table and the runtime it
    started from, the error is nil, there is one response for each
    container request, with the mounts of the prepared ids of that
    request in order, the socket table has the keys it had and nothing
    but the socket table has changed. *)
Theorem Allocate_response_whenever_returns n rt reqs n' rt' resp err :
  Allocate n rt reqs = Returns (n', rt', (resp, err)) ->
  err = None
  /\ pluginapi.ContainerResponses resp
     = (fun req => {| pluginapi.Mounts :=
                        mountsFor (dom (nsmSockets n)) (pluginapi.DevicesIDs req) |})
         <$> pluginapi.ContainerRequests reqs
  /\ length (pluginapi.ContainerResponses resp)
     = length (pluginapi.ContainerRequests reqs)
  /\ dom (nsmSockets n') = dom (nsmSockets n)
  /\ n' = set_nsmSockets n (nsmSockets n').
Proof.
  intros Hrun. destruct (Allocate_stepped _ _ _ _ _ _ _ Hrun)
    as (Herr & Hresp & Hset & Hdom & _).
  split; [exact Herr|]. split; [exact Hresp|].
  split; [rewrite Hresp; unfold responsesFor; apply length_fmap|].
  split; [exact Hdom|exact Hset].
Qed.

(** Whenever [Allocate] returns, it has started one server task for each
    mount it returns and no other: the ids of the tasks started, in
    order, are the prepared ids of the batch, and their mounts are the
    mounts of the responses put end to end. It has made one channel for
    each id of the batch that is a key of the table, prepared or not. *)
Theorem Allocate_starts_server_per_mount n rt reqs n' rt' resp err :
  Allocate n rt reqs = Returns (n', rt', (resp, err)) ->
  exists ids,
    started rt' = started rt ++ ids
    /\ ids = filter (prepared (dom (nsmSockets n))) (batchIds reqs)
    /\ concat (pluginapi.Mounts <$> pluginapi.ContainerResponses resp)
       = deviceMount <$> ids
    /\ channelsMade rt'
       = channelsMade rt
         + length (filter (fun id => id ∈ dom (nsmSockets n)) (batchIds reqs)).
Proof.
  intros Hrun. destruct (Allocate_stepped _ _ _ _ _ _ _ Hrun)
    as (_ & Hresp & _ & _ & Hmade & Hstarted & _).
  eexists. split; [exact Hstarted|]. split; [reflexivity|].
  split; [rewrite Hresp; apply mounts_of_responses|exact Hmade].
Qed.

(** Whenever [Allocate] returns, no channel that was closed is open, the
    stop channel of every entry of the batch that was flagged allocated is
    closed, every id of the batch that is a key holds a new descriptor
    flagged allocated, and the entries of the other keys are as they
    were. *)
Theorem Allocate_closes_replaced_channels n rt reqs n' rt' resp err :
  Allocate n rt reqs = Returns (n', rt', (resp, err)) ->
  closedChannels rt ⊆ closedChannels rt'
  /\ (forall id sock c,
        id ∈ batchIds reqs -> nsmSockets n !! id = Some sock ->
        allocated sock = true -> stopChannel sock = Some c ->
        c ∈ closedChannels rt')
  /\ (forall id, id ∈ batchIds reqs -> is_Some (nsmSockets n !! id) ->
        exists ch, nsmSockets n' !! id = Some (socketFor id ch))
  /\ (forall id, id ∉ batchIds reqs -> nsmSockets n' !! id = nsmSockets n !! id).
Proof.
  intros Hrun. destruct (Allocate_stepped _ _ _ _ _ _ _ Hrun)
    as (_ & _ & _ & _ & _ & _ & Hcl & Hnew & Hold & Hstop).
  split; [exact Hcl|]. split; [exact Hstop|]. split; [|exact Hold].
  intros id Hin Hknown. apply (Hnew id Hin). apply elem_of_dom. exact Hknown.
Qed.

(** Whenever [Allocate] returns, the next response of the watch loop lists
    as many devices as before the call, and lists every id of the batch
    that is a key of the table as a healthy device of that id. *)
Theorem Allocate_keeps_device_table n rt reqs n' rt' resp err :
  Allocate n rt reqs = Returns (n', rt', (resp, err)) ->
  length (pluginapi.Devices (deviceTable n'))
  = length (pluginapi.Devices (deviceTable n))
  /\ (forall id, id ∈ batchIds reqs -> is_Some (nsmSockets n !! id) ->
        Some {| pluginapi.ID := id; pluginapi.Health := pluginapi.Healthy |}
        ∈ pluginapi.Devices (deviceTable n')).
Proof.
  intros Hrun. destruct (Allocate_stepped _ _ _ _ _ _ _ Hrun)
    as (_ & _ & _ & Hdom & _ & _ & _ & Hnew & _).
  split.
  - unfold deviceTable. simpl. rewrite !length_fmap, !length_map_to_list.
    rewrite <- !(size_dom (D := gset string)), Hdom. reflexivity.
  - intros id Hin Hknown.
    destruct (Hnew id Hin) as (ch & Hch); [apply elem_of_dom; exact Hknown|].
    unfold deviceTable. simpl. apply list_elem_of_fmap.
    exists (id, socketFor id ch). split; [reflexivity|].
    apply elem_of_map_to_list. exact Hch.
Qed.

(** Allocating a batch twice. Let the stop channels of the table agree
    with the runtime, no key occur twice in the batch, the directory of
    every key of the batch be one that can be made, and the stop signal
    be confirmed on the channel of every entry of the batch flagged
    allocated and on the channels the first call will make, one for each
    key. Then [Allocate] of the batch returns, having started a server
    task for every key of the batch, and so does [Allocate] of the same
    batch right after it, with the same response and as many server
    tasks again; every key of the batch then holds a descriptor on a
    channel made by the second call, which is open, and the channel the
    first call gave it is closed. *)
Theorem Allocate_twice n rt reqs :
  channelsSound n rt ->
  NoDup (batchKeys n reqs) ->
  (forall id, id ∈ batchKeys n reqs ->
     os_MkdirAll (path_Join [SocketBaseDir; "nsm-" +:+ id]) folderMask = None) ->
  stopsConfirmed (batchIds reqs) n ->
  (forall c, channelsMade rt <= c < channelsMade rt + length (batchKeys n reqs) ->
     stopConfirmed c = true) ->
  exists n1 rt1 n2 rt2 resp,
    Allocate n rt reqs = Returns (n1, rt1, (resp, None))
    /\ Allocate n1 rt1 reqs = Returns (n2, rt2, (resp, None))
    /\ started rt1 = started rt ++ batchKeys n reqs
    /\ started rt2 = started rt1 ++ batchKeys n reqs
    /\ (forall id, id ∈ batchIds reqs -> is_Some (nsmSockets n !! id) ->
          exists ch1 ch2,
            nsmSockets n1 !! id = Some (socketFor id ch1)
            /\ nsmSockets n2 !! id = Some (socketFor id ch2)
            /\ ch1 < ch2
            /\ ch1 ∈ closedChannels rt2
            /\ ch2 ∉ closedChannels rt2).
Proof.
  intros Hs Hnodup Hdirs Hconf Hnext.
  destruct (Allocate_confirmed n rt reqs Hs Hnodup Hconf)
    as (n1 & rt1 & Hcall1 & Hs1 & _ & Hdom1 & _ & Hnew1 & _).
  destruct (Allocate_stepped _ _ _ _ _ _ _ Hcall1)
    as (_ & _ & _ & _ & Hmade1 & Hstarted1 & _).
  fold (batchKeys n reqs) in Hmade1.
  assert (Hconf1 : stopsConfirmed (batchIds reqs) n1).
  { intros id sock c Hin Hsock Ha Hc.
    assert (Hknown : id ∈ dom (nsmSockets n)).
    { rewrite <- Hdom1. apply elem_of_dom. eauto. }
    destruct (Hnew1 id Hin Hknown) as (ch & Hch & Hrange).
    rewrite Hch in Hsock. injection Hsock as <-. injection Hc as <-.
    apply Hnext. lia. }
  assert (Hnodup1 : NoDup (batchKeys n1 reqs)).
  { unfold batchKeys. rewrite Hdom1. exact Hnodup. }
  destruct (Allocate_confirmed n1 rt1 reqs Hs1 Hnodup1 Hconf1)
    as (n2 & rt2 & Hcall2 & Hs2 & _ & _ & _ & Hnew2 & _).
  destruct (Allocate_stepped _ _ _ _ _ _ _ Hcall2)
    as (_ & _ & _ & _ & _ & Hstarted2 & _ & _ & _ & Hstop).
  rewrite Hdom1 in Hcall2, Hstarted2.
  rewrite prepared_keys in Hstarted1, Hstarted2 by exact Hdirs.
  exists n1, rt1, n2, rt2. eexists.
  split; [exact Hcall1|]. split; [exact Hcall2|].
  split; [exact Hstarted1|]. split; [exact Hstarted2|].
  intros id Hin Hknown. apply elem_of_dom in Hknown.
  destruct (Hnew1 id Hin Hknown) as (ch1 & Hch1 & Hrange1).
  destruct (Hnew2 id Hin) as (ch2 & Hch2 & Hrange2); [rewrite Hdom1; exact Hknown|].
  exists ch1, ch2. split; [exact Hch1|]. split; [exact Hch2|]. split; [lia|].
  split.
  - apply (Hstop id (socketFor id ch1) ch1 Hin Hch1); reflexivity.
  - destruct Hs2 as (Hlive & _ & _).
    destruct (Hlive id _ Hch2 eq_refl) as (c & Hc & _ & Hopen).
    injection Hc as <-. exact Hopen.
Qed.

(** The stop handshake comes first. For a key flagged allocated whose stop
    channel is open, the pass for that id blocks when the stop signal is
    not confirmed: nothing is returned and no descriptor is stored. When
    it is confirmed, the old channel is closed and the key holds a new
    descriptor on the channel made next. *)
Lemma allocateDevice_stops_before_replacing id n rt mounts sock c :
  nsmSockets n !! id = Some sock ->
  allocated sock = true ->
  stopChannel sock = Some c ->
  c ∉ closedChannels rt ->
  (stopConfirmed c = false -> allocateDevice id (n, rt, mounts) = Blocks)
  /\ (stopConfirmed c = true ->
      exists n' rt' mounts',
        allocateDevice id (n, rt, mounts) = Returns (n', rt', mounts')
        /\ c ∈ closedChannels rt'
        /\ nsmSockets n' !! id = Some (socketFor id (channelsMade rt))).
Proof.
  intros Hsock Ha Hc Hopen. unfold allocateDevice. rewrite Hsock, Ha, Hc.
  unfold stopServer.
  destruct (decide (c ∈ closedChannels rt)) as [Hin|_]; [contradiction|].
  split; intros Hconfirm; rewrite Hconfirm; [reflexivity|].
  change (Returns ?x ≫= ?k) with (k x). cbv beta zeta. unfold makeChan.
  rewrite mountFor_deviceMount.
  change (pluginapi.HostPath (deviceMount id))
    with (path_Join [SocketBaseDir; "nsm-" +:+ id]).
  simpl channelsMade. fold (socketFor id (channelsMade rt)).
  destruct (os_MkdirAll _ _); do 3 eexists;
    (split; [reflexivity|]); simpl;
    (split; [apply elem_of_union_l, elem_of_singleton; reflexivity
            |apply lookup_insert_eq]).
Qed.

(** When the host directory of an idle key cannot be made, the key is
    nevertheless given a new descriptor flagged allocated, on a new
    channel; no server task is started and no mount is added. *)
Lemma allocateDevice_failed_directory id n rt mounts sock err :
  nsmSockets n !! id = Some sock ->
  allocated sock = false ->
  os_MkdirAll (path_Join [SocketBaseDir; "nsm-" +:+ id]) folderMask = Some err ->
  exists n' rt',
    allocateDevice id (n, rt, mounts) = Returns (n', rt', mounts)
    /\ nsmSockets n' !! id = Some (socketFor id (channelsMade rt))
    /\ allocated (socketFor id (channelsMade rt)) = true
    /\ started rt' = started rt.
Proof.
  intros Hsock Ha Hdir. unfold allocateDevice. rewrite Hsock, Ha.
  change (Returns ?x ≫= ?k) with (k x). cbv beta zeta. unfold makeChan.
  rewrite mountFor_deviceMount.
  change (pluginapi.HostPath (deviceMount id))
    with (path_Join [SocketBaseDir; "nsm-" +:+ id]).
  rewrite Hdir. fold (socketFor id (channelsMade rt)).
  do 2 eexists. split; [reflexivity|]. simpl.
  split; [apply lookup_insert_eq|]. split; reflexivity.
Qed.

(** [startClientServer] never writes the socket table: the receiver is
    returned as it was, so the entry of the id keeps its allocation flag.
    When the function returns, the flag of its local copy is cleared; when
    it has started its gRPC server, that server is still serving when the
    function ends; and the confirmation is only sent after the stop signal
    was received. *)
Lemma startClientServer_keeps_table id endpoints rt :
  (startClientServer id endpoints rt).1 = endpoints
  /\ nsmSockets (startClientServer id endpoints rt).1 !! id
     = nsmSockets endpoints !! id
  /\ (finished (startClientServer id endpoints rt).2 = Returns tt ->
      allocated (client (startClientServer id endpoints rt).2) = false)
  /\ (forall path, GoServe path ∈ trace (startClientServer id endpoints rt).2 ->
      serving (startClientServer id endpoints rt).2 = Some path)
  /\ (forall ch, SendConfirmation ch ∈ trace (startClientServer id endpoints rt).2 ->
      exists before,
        trace (startClientServer id endpoints rt).2
        = before ++ [ReceiveStop ch; SendConfirmation ch]).
Proof.
  unfold startClientServer.
  set (sock := default zeroSocket (nsmSockets endpoints !! id)).
  repeat case_match; simpl;
    (split; [reflexivity|]); (split; [reflexivity|]);
    (split; [first [reflexivity | discriminate]|]);
    (split; [intros path Hin|intros c Hin]);
    repeat (apply elem_of_cons in Hin; destruct Hin as [Hin|Hin]);
    try (apply elem_of_nil in Hin; contradiction);
    try discriminate Hin;
    injection Hin as <-.
  all: try reflexivity.
  exists [SocketCleanup (socketPath sock); Umask socketMask;
          Listen (socketPath sock); GoServe (socketPath sock);
          OperationCheck (socketPath sock)].
  reflexivity.
Qed.

(** C7, as the code has it. [Allocate] acts on the device ids of the batch
    that are keys of the socket table, and skips the others.
    It returns when the stop channels of the table agree with the
    runtime, no key occurs twice in the batch and the stop signal is
    confirmed on the channel of every entry of the batch flagged
    allocated; the channels then still agree with the runtime, and the
    channel every key of the batch holds is open.
    Whenever it returns, whatever it started from, the error is nil and
    there is one response per container request, whose mounts are those
    of the prepared ids of that request, in order: ids that are keys of
    the table and whose host directory could be made, each with the
    socket base directory as container path and
    [path.Join(SocketBaseDir, nsm-<id>)] as host path. A key whose
    directory could not be made has no mount and raises no error. Every
    id of the batch that was a key holds a new descriptor: its device,
    the socket path under its host path, the allocation flag set and a
    stop channel made during the call. Ids that were not keys are still
    not keys, keys outside the batch hold what they held, and nothing but
    the socket table changed.
    It blocks when the stop channels of the table agree with the runtime
    and the stop signal is not confirmed on the channel of some entry of
    the batch flagged allocated. *)
Theorem Allocate_known_devices n rt reqs :
  (channelsSound n rt ->
   NoDup (batchKeys n reqs) ->
   stopsConfirmed (batchIds reqs) n ->
   exists n' rt' resp,
     Allocate n rt reqs = Returns (n', rt', (resp, None))
     /\ channelsSound n' rt'
     /\ (forall id, id ∈ batchIds reqs -> is_Some (nsmSockets n !! id) ->
           exists ch, nsmSockets n' !! id = Some (socketFor id ch)
                      /\ ch ∉ closedChannels rt'))
  /\ (forall n' rt' resp err,
        Allocate n rt reqs = Returns (n', rt', (resp, err)) ->
        err = None
        /\ pluginapi.ContainerResponses resp
           = (fun req => {| pluginapi.Mounts :=
                              mountsFor (dom (nsmSockets n)) (pluginapi.DevicesIDs req) |})
               <$> pluginapi.ContainerRequests reqs
        /\ (forall id, id ∈ batchIds reqs -> is_Some (nsmSockets n !! id) ->
              exists ch, nsmSockets n' !! id = Some (socketFor id ch)
                         /\ channelsMade rt <= ch < channelsMade rt')
        /\ (forall id, nsmSockets n !! id = None -> nsmSockets n' !! id = None)
        /\ (forall id, id ∉ batchIds reqs -> nsmSockets n' !! id = nsmSockets n !! id)
        /\ n' = set_nsmSockets n (nsmSockets n'))
  /\ (channelsSound n rt ->
      forall id sock c,
        id ∈ batchIds reqs -> nsmSockets n !! id = Some sock ->
        allocated sock = true -> stopChannel sock = Some c ->
        stopConfirmed c = false ->
        Allocate n rt reqs = Blocks).
Proof.
  split; [|split].
  - intros Hs Hnodup Hconf.
    destruct (Allocate_confirmed n rt reqs Hs Hnodup Hconf)
      as (n' & rt' & Hrun & Hsound & _ & _ & _ & Hnew & _).
    exists n', rt'. eexists. split; [exact Hrun|]. split; [exact Hsound|].
    intros id Hin Hknown.
    destruct (Hnew id Hin) as (ch & Hch & _); [apply elem_of_dom; exact Hknown|].
    exists ch. split; [exact Hch|].
    destruct Hsound as (Hlive & _ & _).
    destruct (Hlive id _ Hch eq_refl) as (c & Hc & _ & Hopen).
    injection Hc as <-. exact Hopen.
  - intros n' rt' resp err Hrun.
    destruct (Allocate_stepped _ _ _ _ _ _ _ Hrun)
      as (Herr & Hresp & Hset & Hdom & _ & _ & _ & _ & Hold & _).
    split; [exact Herr|]. split; [exact Hresp|]. split; [|split; [|split]].
    + intros id Hin Hknown.
      apply (Allocate_made _ _ _ _ _ _ _ Hrun id Hin). apply elem_of_dom. exact Hknown.
    + intros id Hnone. apply not_elem_of_dom. rewrite Hdom.
      apply not_elem_of_dom. exact Hnone.
    + exact Hold.
    + exact Hset.
  - intros Hs id sock c. apply Allocate_unconfirmed. exact Hs.
Qed.

(** C8, where the code departs from it. An entry of the table is flagged
    allocated, its server task is up and waits on the stop channel of
    the entry, and [Allocate] is called for its id. The handshake takes
    place: the task acknowledges the stop and returns, and the call
    returns with the channel closed, a new descriptor under the id and a
    second server task started for it. But the task that acknowledged
    has cleared the flag of its own copy of the entry, not that of the
    table, and has returned without stopping the gRPC server it started:
    that server is still serving, and so is that of the second task once
    it is up, on the socket of the new descriptor. *)
Theorem Allocate_leaves_acknowledged_server_serving id n rt sock ch :
  nsmSockets n !! id = Some sock ->
  allocated sock = true ->
  stopChannel sock = Some ch ->
  ch ∉ closedChannels rt ->
  SendConfirmation ch ∈ trace (startClientServer id n rt).2 ->
  stopConfirmed ch = true ->
  os_MkdirAll (path_Join [SocketBaseDir; "nsm-" +:+ id]) folderMask = None ->
  exists n' rt' resp,
    Allocate n rt (single id) = Returns (n', rt', (resp, None))
    /\ ch ∈ closedChannels rt'
    /\ nsmSockets n' !! id = Some (socketFor id (channelsMade rt))
    /\ started rt' = started rt ++ [id]
    /\ finished (startClientServer id n rt).2 = Returns tt
    /\ allocated (client (startClientServer id n rt).2) = false
    /\ nsmSockets (startClientServer id n rt).1 !! id = Some sock
    /\ serving (startClientServer id n rt).2 = Some (socketPath sock)
    /\ (tools_SocketCleanup (socketPath (socketFor id (channelsMade rt))) = None ->
        net_Listen (socketPath (socketFor id (channelsMade rt))) = None ->
        tools_SocketOperationCheck (socketPath (socketFor id (channelsMade rt))) = None ->
        serving (startClientServer id n' rt').2
        = Some (socketPath (socketFor id (channelsMade rt)))).
Proof.
  intros Hsock Ha Hc Hopen Hack Hconf Hdir.
  assert (Hfirst :
    finished (startClientServer id n rt).2 = Returns tt
    /\ allocated (client (startClientServer id n rt).2) = false
    /\ nsmSockets (startClientServer id n rt).1 !! id = Some sock
    /\ serving (startClientServer id n rt).2 = Some (socketPath sock)).
  { revert Hack. unfold startClientServer. rewrite Hsock.
    change (default zeroSocket (Some sock)) with sock.
    destruct (tools_SocketCleanup (socketPath sock)); [intros Hin; silent Hin|].
    destruct (net_Listen (socketPath sock)); [intros Hin; silent Hin|].
    destruct (tools_SocketOperationCheck (socketPath sock)); [intros Hin; silent Hin|].
    rewrite Hc. destruct (decide (ch ∈ closedChannels rt)); [contradiction|].
    destruct (stopRequested ch); [|intros Hin; silent Hin].
    intros _. cbn. split; [reflexivity|]. split; [reflexivity|].
    split; [exact Hsock|reflexivity]. }
  assert (Hcall :
    Allocate n rt (single id)
    = Returns
        (set_nsmSockets n (<[id := socketFor id (channelsMade rt)]> (nsmSockets n)),
         {| channelsMade := S (channelsMade rt);
            closedChannels := {[ch]} ∪ closedChannels rt;
            started := started rt ++ [id] |},
         ({| pluginapi.ContainerResponses :=
               [ {| pluginapi.Mounts := [deviceMount id] |} ] |}, None))).
  { unfold Allocate, single. cbn [pluginapi.ContainerRequests].
    rewrite allocateContainers_step. cbn [pluginapi.DevicesIDs allocateDevices].
    unfold allocateDevice. rewrite Hsock, Ha, Hc. unfold stopServer.
    destruct (decide (ch ∈ closedChannels rt)); [contradiction|].
    rewrite Hconf, !bind_Returns. cbv zeta. unfold makeChan.
    rewrite mountFor_deviceMount.
    change (pluginapi.HostPath (deviceMount id))
      with (path_Join [SocketBaseDir; "nsm-" +:+ id]).
    rewrite Hdir. cbn [channelsMade]. fold (socketFor id (channelsMade rt)).
    rewrite !bind_Returns. reflexivity. }
  do 3 eexists. split; [exact Hcall|]. cbn [closedChannels started].
  split; [apply elem_of_union_l, elem_of_singleton; reflexivity|].
  split; [apply lookup_insert_eq|]. split; [reflexivity|].
  destruct Hfirst as (Hfin & Hflag & Htable & Hserving).
  split; [exact Hfin|]. split; [exact Hflag|]. split; [exact Htable|].
  split; [exact Hserving|].
  intros Hclean Hlisten Hprobe. unfold startClientServer. cbn [nsmSockets set_nsmSockets].
  rewrite lookup_insert_eq.
  change (default zeroSocket (Some (socketFor id (channelsMade rt))))
    with (socketFor id (channelsMade rt)).
  rewrite Hclean, Hlisten, Hprobe.
  destruct (stopChannel (socketFor id (channelsMade rt))) as [c|]; [|reflexivity].
  destruct (decide (c ∈ _)); [reflexivity|].
  destruct (stopRequested c); reflexivity.
Qed.

End allocation.

(** A device id that is not a key of the socket table gets neither
    descriptor nor mount, although its directory could be made: the table
    is still empty after the call, no channel was made and the container's
    mount list is empty. *)
Lemma Allocate_skips_unknown_device :
  @os_MkdirAll Samples.world
    (@path_Join Samples.world [@SocketBaseDir Samples.world; "nsm-dev-A"])
    (@folderMask Samples.world) = None
  /\ @Allocate Samples.world (Samples.broker ∅ ∅ Samples.noEndpoint)
       Samples.noChannel (Samples.allocate ["dev-A"])
     = Returns (Samples.broker ∅ ∅ Samples.noEndpoint, Samples.noChannel,
                ({| pluginapi.ContainerResponses := [ {| pluginapi.Mounts := [] |} ] |},
                 None))
  /\ nsmSockets (Samples.broker ∅ ∅ Samples.noEndpoint) !! "dev-A" = None.
Proof. split; [|split]; reflexivity. Qed.

Lemma plugin_channelsSound : channelsSound Samples.plugin Samples.oneChannel.
Proof.
  assert (Hentries : forall id sock,
             nsmSockets Samples.plugin !! id = Some sock ->
             allocated sock = true ->
             id = "dev-B" /\ sock = Samples.inUse "dev-B" 0).
  { intros id sock Hlook Ha. unfold Samples.plugin in Hlook. simpl in Hlook.
    rewrite lookup_insert in Hlook. case_decide.
    { injection Hlook as <-. discriminate Ha. }
    rewrite lookup_insert in Hlook. case_decide.
    { injection Hlook as <-. auto. }
    rewrite lookup_insert in Hlook. case_decide.
    { injection Hlook as <-. discriminate Ha. }
    rewrite lookup_empty in Hlook. discriminate Hlook. }
  split; [|split].
  - intros id sock Hlook Ha. destruct (Hentries id sock Hlook Ha) as [_ ->].
    exists 0. split; [reflexivity|]. split; [simpl; lia|]. apply not_elem_of_empty.
  - intros id1 id2 sock1 sock2 Hne H1 H2 Ha1 Ha2.
    destruct (Hentries id1 sock1 H1 Ha1) as [-> _].
    destruct (Hentries id2 sock2 H2 Ha2) as [-> _]. contradiction.
  - intros c Hc. apply not_elem_of_empty in Hc. contradiction.
Qed.

Lemma plugin_in_use id sock :
  nsmSockets Samples.plugin !! id = Some sock -> allocated sock = true ->
  id = "dev-B" /\ sock = Samples.inUse "dev-B" 0.
Proof.
  intros Hlook Ha. unfold Samples.plugin in Hlook. simpl in Hlook.
  rewrite lookup_insert in Hlook. case_decide.
  { injection Hlook as <-. discriminate Ha. }
  rewrite lookup_insert in Hlook. case_decide.
  { injection Hlook as <-. auto. }
  rewrite lookup_insert in Hlook. case_decide.
  { injection Hlook as <-. discriminate Ha. }
  rewrite lookup_empty in Hlook. discriminate Hlook.
Qed.

Lemma plugin_running_channelsSound : channelsSound Samples.plugin MoreSamples.running.
Proof.
  split; [|split].
  - intros id sock Hlook Ha. destruct (plugin_in_use id sock Hlook Ha) as [_ ->].
    exists 0. split; [reflexivity|]. split; [simpl; lia|]. apply not_elem_of_empty.
  - intros id1 id2 sock1 sock2 Hne H1 H2 Ha1 Ha2.
    destruct (plugin_in_use id1 sock1 H1 Ha1) as [-> _].
    destruct (plugin_in_use id2 sock2 H2 Ha2) as [-> _]. contradiction.
  - intros c Hc. apply not_elem_of_empty in Hc. contradiction.
Qed.

(** On the sample plugin the only handshake is that of [dev-B], on
    channel 0. *)
Lemma plugin_stopsConfirmed (E : Environment) ids :
  @stopConfirmed E 0 = true -> @stopsConfirmed E ids Samples.plugin.
Proof.
  intros Hzero id sock c _ Hsock Ha Hc.
  destruct (plugin_in_use id sock Hsock Ha) as [_ ->].
  injection Hc as <-. exact Hzero.
Qed.

Lemma batch_keys : batchKeys Samples.plugin MoreSamples.batch = ["dev-A"; "ro"; "dev-B"].
Proof. vm_compute. reflexivity. Qed.

Lemma usable_keys : batchKeys Samples.plugin MoreSamples.usable = ["dev-A"; "dev-B"].
Proof. vm_compute. reflexivity. Qed.

Lemma batch_keys_distinct : NoDup (batchKeys Samples.plugin MoreSamples.batch).
Proof.
  rewrite batch_keys. repeat (apply NoDup_cons; split); try apply NoDup_nil_2;
    intros Hin; silent Hin.
Qed.

Lemma usable_keys_distinct : NoDup (batchKeys Samples.plugin MoreSamples.usable).
Proof.
  rewrite usable_keys. repeat (apply NoDup_cons; split); try apply NoDup_nil_2;
    intros Hin; silent Hin.
Qed.

(** One container asks for [dev-A] (idle), [zz] (not a key), [ro] (its
    directory cannot be made) and [dev-B] (in use). Where the server of
    [dev-B] confirms the stop, and no other channel has a server, the
    call returns; where that server has gone, it blocks. *)
Lemma Allocate_known_devices_witness :
  (exists n' rt' resp,
     @Allocate MoreSamples.oneServer Samples.plugin MoreSamples.running MoreSamples.batch
     = Returns (n', rt', (resp, None))
     /\ channelsSound n' rt'
     /\ (forall id, id ∈ batchIds MoreSamples.batch ->
           is_Some (nsmSockets Samples.plugin !! id) ->
           exists ch, nsmSockets n' !! id = Some (@socketFor MoreSamples.oneServer id ch)
                      /\ ch ∉ closedChannels rt')
     /\ pluginapi.ContainerResponses resp
        = (fun req => {| pluginapi.Mounts :=
                           @mountsFor MoreSamples.oneServer
                             (dom (nsmSockets Samples.plugin))
                             (pluginapi.DevicesIDs req) |})
            <$> pluginapi.ContainerRequests MoreSamples.batch
     /\ (forall id, id ∈ batchIds MoreSamples.batch ->
           is_Some (nsmSockets Samples.plugin !! id) ->
           exists ch, nsmSockets n' !! id = Some (@socketFor MoreSamples.oneServer id ch)
                      /\ channelsMade MoreSamples.running <= ch < channelsMade rt')
     /\ (forall id, nsmSockets Samples.plugin !! id = None ->
                    nsmSockets n' !! id = None)
     /\ (forall id, id ∉ batchIds MoreSamples.batch ->
           nsmSockets n' !! id = nsmSockets Samples.plugin !! id)
     /\ n' = set_nsmSockets Samples.plugin (nsmSockets n'))
  /\ @Allocate MoreSamples.noServer Samples.plugin MoreSamples.running MoreSamples.batch
     = Blocks.
Proof.
  split.
  - destruct (@Allocate_known_devices MoreSamples.oneServer Samples.plugin
                MoreSamples.running MoreSamples.batch) as (Hreturns & Hafter & _).
    destruct (Hreturns plugin_running_channelsSound batch_keys_distinct
                (plugin_stopsConfirmed MoreSamples.oneServer _ eq_refl))
      as (n' & rt' & resp & Hrun & Hsound & Hopen).
    destruct (Hafter n' rt' resp None Hrun) as (_ & Hresp & Hmade & Hrest).
    exists n', rt', resp. split; [exact Hrun|]. split; [exact Hsound|].
    split; [exact Hopen|]. split; [exact Hresp|]. split; [exact Hmade|exact Hrest].
  - destruct (@Allocate_known_devices MoreSamples.noServer Samples.plugin
                MoreSamples.running MoreSamples.batch) as (_ & _ & Hblocks).
    apply (Hblocks plugin_running_channelsSound "dev-B" (Samples.inUse "dev-B" 0) 0);
      try reflexivity.
    apply (list_elem_of_lookup_2 _ 3). reflexivity.
Defined.

(** The server of [dev-B] on channel 0 is up and is asked to stop by
    [Allocate] of [dev-B]: it acknowledges and is still serving when the
    second server of [dev-B] comes up, on the same socket path. *)
Lemma Allocate_leaves_acknowledged_server_serving_witness :
  exists n' rt' resp,
    @Allocate MoreSamples.oneServer Samples.plugin MoreSamples.running (single "dev-B")
    = Returns (n', rt', (resp, None))
    /\ 0 ∈ closedChannels rt'
    /\ nsmSockets n' !! "dev-B" = Some (@socketFor MoreSamples.oneServer "dev-B" 1)
    /\ started rt' = ["dev-B"; "dev-B"]
    /\ finished (@startClientServer MoreSamples.oneServer "dev-B" Samples.plugin
                   MoreSamples.running).2 = Returns tt
    /\ allocated (client (@startClientServer MoreSamples.oneServer "dev-B" Samples.plugin
                            MoreSamples.running).2) = false
    /\ nsmSockets (@startClientServer MoreSamples.oneServer "dev-B" Samples.plugin
                     MoreSamples.running).1 !! "dev-B"
       = Some (Samples.inUse "dev-B" 0)
    /\ serving (@startClientServer MoreSamples.oneServer "dev-B" Samples.plugin
                  MoreSamples.running).2
       = Some "/var/lib/networkservicemesh/nsm-dev-B/nsm.ligato.io.sock"
    /\ serving (@startClientServer MoreSamples.oneServer "dev-B" n' rt').2
       = Some "/var/lib/networkservicemesh/nsm-dev-B/nsm.ligato.io.sock".
Proof.
  destruct (@Allocate_leaves_acknowledged_server_serving MoreSamples.oneServer "dev-B"
              Samples.plugin MoreSamples.running (Samples.inUse "dev-B" 0) 0)
    as (n' & rt' & resp & Hrun & Hclosed & Hnew & Hstarted & Hfin & Hflag & Htable
        & Hserving & Hsecond);
    [reflexivity|reflexivity|reflexivity|apply not_elem_of_empty
    |apply (list_elem_of_lookup_2 _ 6); reflexivity|reflexivity|reflexivity|].
  exists n', rt', resp. split; [exact Hrun|]. split; [exact Hclosed|].
  split; [exact Hnew|]. split; [exact Hstarted|]. split; [exact Hfin|].
  split; [exact Hflag|]. split; [exact Htable|]. split; [exact Hserving|].
  apply Hsecond; reflexivity.
Defined.

Lemma allocateDevice_stops_before_replacing_witness :
  (@stopConfirmed Samples.world 0 = false ->
   @allocateDevice Samples.world "dev-B" (Samples.plugin, Samples.oneChannel, [])
   = Blocks)
  /\ (@stopConfirmed Samples.world 0 = true ->
      exists n' rt' mounts',
        @allocateDevice Samples.world "dev-B"
           (Samples.plugin, Samples.oneChannel, [])
        = Returns (n', rt', mounts')
        /\ 0 ∈ closedChannels rt'
        /\ nsmSockets n' !! "dev-B"
           = Some (@socketFor Samples.world "dev-B"
                     (channelsMade Samples.oneChannel))).
Proof.
  apply (@allocateDevice_stops_before_replacing Samples.world "dev-B"
           Samples.plugin Samples.oneChannel [] (Samples.inUse "dev-B" 0) 0);
    [reflexivity|reflexivity|reflexivity|apply not_elem_of_empty].
Defined.

Lemma allocateDevice_failed_directory_witness :
  exists n' rt',
    @allocateDevice Samples.world "ro" (Samples.plugin, Samples.oneChannel, [])
    = Returns (n', rt', [])
    /\ nsmSockets n' !! "ro"
       = Some (@socketFor Samples.world "ro" (channelsMade Samples.oneChannel))
    /\ allocated (@socketFor Samples.world "ro" (channelsMade Samples.oneChannel))
       = true
    /\ started rt' = started Samples.oneChannel.
Proof.
  apply (@allocateDevice_failed_directory Samples.world "ro"
           Samples.plugin Samples.oneChannel [] (Samples.idle "ro")
           "mkdir /var/lib/networkservicemesh/nsm-ro: read-only file system");
    reflexivity.
Defined.

Lemma afterAllocate_run :
  @Allocate Samples.world Samples.plugin Samples.oneChannel MoreSamples.batch
  = Returns (MoreSamples.afterAllocate.1.1, MoreSamples.afterAllocate.1.2,
             (MoreSamples.afterAllocate.2.1, MoreSamples.afterAllocate.2.2)).
Proof. vm_compute. reflexivity. Qed.

Lemma Allocate_response_whenever_returns_witness :
  MoreSamples.afterAllocate.2.2 = None
  /\ pluginapi.ContainerResponses MoreSamples.afterAllocate.2.1
     = (fun req => {| pluginapi.Mounts :=
                        @mountsFor Samples.world (dom (nsmSockets Samples.plugin))
                          (pluginapi.DevicesIDs req) |})
         <$> pluginapi.ContainerRequests MoreSamples.batch
  /\ length (pluginapi.ContainerResponses MoreSamples.afterAllocate.2.1)
     = length (pluginapi.ContainerRequests MoreSamples.batch)
  /\ dom (nsmSockets MoreSamples.afterAllocate.1.1) = dom (nsmSockets Samples.plugin)
  /\ MoreSamples.afterAllocate.1.1
     = set_nsmSockets Samples.plugin (nsmSockets MoreSamples.afterAllocate.1.1).
Proof.
  apply (@Allocate_response_whenever_returns Samples.world Samples.plugin
           Samples.oneChannel MoreSamples.batch _ _ _ _ afterAllocate_run).
Defined.

Lemma Allocate_starts_server_per_mount_witness :
  exists ids,
    started MoreSamples.afterAllocate.1.2 = started Samples.oneChannel ++ ids
    /\ ids = filter (@prepared Samples.world (dom (nsmSockets Samples.plugin)))
               (batchIds MoreSamples.batch)
    /\ concat (pluginapi.Mounts
                 <$> pluginapi.ContainerResponses MoreSamples.afterAllocate.2.1)
       = @deviceMount Samples.world <$> ids
    /\ channelsMade MoreSamples.afterAllocate.1.2
       = channelsMade Samples.oneChannel
         + length (filter (fun id => id ∈ dom (nsmSockets Samples.plugin))
                     (batchIds MoreSamples.batch)).
Proof.
  apply (@Allocate_starts_server_per_mount Samples.world Samples.plugin
           Samples.oneChannel MoreSamples.batch _ _ _ _ afterAllocate_run).
Defined.

Lemma Allocate_closes_replaced_channels_witness :
  closedChannels Samples.oneChannel ⊆ closedChannels MoreSamples.afterAllocate.1.2
  /\ (forall id sock c,
        id ∈ batchIds MoreSamples.batch ->
        nsmSockets Samples.plugin !! id = Some sock ->
        allocated sock = true -> stopChannel sock = Some c ->
        c ∈ closedChannels MoreSamples.afterAllocate.1.2)
  /\ (forall id, id ∈ batchIds MoreSamples.batch ->
        is_Some (nsmSockets Samples.plugin !! id) ->
        exists ch, nsmSockets MoreSamples.afterAllocate.1.1 !! id
                   = Some (@socketFor Samples.world id ch))
  /\ (forall id, id ∉ batchIds MoreSamples.batch ->
        nsmSockets MoreSamples.afterAllocate.1.1 !! id
        = nsmSockets Samples.plugin !! id).
Proof.
  apply (@Allocate_closes_replaced_channels Samples.world Samples.plugin
           Samples.oneChannel MoreSamples.batch _ _ _ _ afterAllocate_run).
Defined.

Lemma Allocate_keeps_device_table_witness :
  length (pluginapi.Devices (deviceTable MoreSamples.afterAllocate.1.1))
  = length (pluginapi.Devices (deviceTable Samples.plugin))
  /\ (forall id, id ∈ batchIds MoreSamples.batch ->
        is_Some (nsmSockets Samples.plugin !! id) ->
        Some {| pluginapi.ID := id; pluginapi.Health := pluginapi.Healthy |}
        ∈ pluginapi.Devices (deviceTable MoreSamples.afterAllocate.1.1)).
Proof.
  apply (@Allocate_keeps_device_table Samples.world Samples.plugin
           Samples.oneChannel MoreSamples.batch _ _ _ _ afterAllocate_run).
Defined.

(** The servers on the channels 0, 1 and 2 confirm and no other: that of
    [dev-B] the plugin starts with, and those the first call starts for
    [dev-A] and [dev-B]. *)
Lemma Allocate_twice_witness :
  exists n1 rt1 n2 rt2 resp,
    @Allocate MoreSamples.threeServers Samples.plugin MoreSamples.running
       MoreSamples.usable
      = Returns (n1, rt1, (resp, None))
    /\ @Allocate MoreSamples.threeServers n1 rt1 MoreSamples.usable
       = Returns (n2, rt2, (resp, None))
    /\ started rt1
       = started MoreSamples.running ++ batchKeys Samples.plugin MoreSamples.usable
    /\ started rt2 = started rt1 ++ batchKeys Samples.plugin MoreSamples.usable
    /\ (forall id, id ∈ batchIds MoreSamples.usable ->
          is_Some (nsmSockets Samples.plugin !! id) ->
          exists ch1 ch2,
            nsmSockets n1 !! id = Some (@socketFor MoreSamples.threeServers id ch1)
            /\ nsmSockets n2 !! id = Some (@socketFor MoreSamples.threeServers id ch2)
            /\ ch1 < ch2
            /\ ch1 ∈ closedChannels rt2
            /\ ch2 ∉ closedChannels rt2).
Proof.
  apply (@Allocate_twice MoreSamples.threeServers Samples.plugin MoreSamples.running
           MoreSamples.usable plugin_running_channelsSound usable_keys_distinct).
  - rewrite usable_keys. intros id Hin.
    repeat (apply elem_of_cons in Hin; destruct Hin as [->|Hin]; [reflexivity|]).
    apply elem_of_nil in Hin. contradiction.
  - apply plugin_stopsConfirmed. reflexivity.
  - rewrite usable_keys. simpl. intros c Hc.
    destruct c as [|[|[|c]]]; [reflexivity..|lia].
Defined.

(** A key whose directory cannot be made is flagged allocated without a
    server task. Where only the tasks that were started confirm, a batch
    that names such a key twice blocks at the second handshake, and so
    does the next call that names it. *)
Example Allocate_blocks_on_repeated_key :
  @Allocate MoreSamples.oneServer Samples.plugin MoreSamples.running
     (Samples.allocate ["ro"; "ro"]) = Blocks
  /\ (r ← @Allocate MoreSamples.oneServer Samples.plugin MoreSamples.running
            (Samples.allocate ["ro"]);
      Returns (started r.1.2, nsmSockets r.1.1 !! "ro"))
     = Returns (["dev-B"], Some (@socketFor MoreSamples.oneServer "ro" 1))
  /\ (r ← @Allocate MoreSamples.oneServer Samples.plugin MoreSamples.running
            (Samples.allocate ["ro"]);
      @Allocate MoreSamples.oneServer r.1.1 r.1.2 (Samples.allocate ["ro"]))
     = Blocks.
Proof. split; [|split]; vm_compute; reflexivity. Qed.

(** The same call, run: mounts for [dev-A] and [dev-B] only, a nil error,
    and three channels made (for [dev-A], [ro] and [dev-B]). *)
Example Allocate_mixed_batch :
  (r ← @Allocate Samples.world Samples.plugin Samples.oneChannel
         (Samples.allocate ["dev-A"; "zz"; "ro"; "dev-B"]);
   Returns (r.2, channelsMade r.1.2, started r.1.2,
            nsmSockets r.1.1 !! "zz", allocated <$> nsmSockets r.1.1 !! "ro"))
  = Returns
      (({| pluginapi.ContainerResponses :=
             [ {| pluginapi.Mounts :=
                    [ {| pluginapi.ContainerPath := "/var/lib/networkservicemesh";
                         pluginapi.HostPath := "/var/lib/networkservicemesh/nsm-dev-A";
                         pluginapi.ReadOnly := false |};
                      {| pluginapi.ContainerPath := "/var/lib/networkservicemesh";
                         pluginapi.HostPath := "/var/lib/networkservicemesh/nsm-dev-B";
                         pluginapi.ReadOnly := false |} ] |} ] |},
        None),
       4, ["dev-A"; "dev-B"], None, Some true).
Proof. vm_compute. reflexivity. Qed.

(** A socket flagged allocated whose stop signal nobody confirms keeps
    [Allocate] blocked; one whose channel is nil does the same. *)
Example Allocate_blocks_without_server :
  forall E : Environment,
    (forall c, @stopConfirmed E c = false) ->
    @Allocate E Samples.plugin Samples.oneChannel (Samples.allocate ["dev-B"])
    = Blocks.
Proof.
  intros E Hno. unfold Allocate, allocateContainers. simpl pluginapi.ContainerRequests.
  cbv [Samples.allocate pluginapi.ContainerRequests pluginapi.DevicesIDs
       allocateDevices allocateDevice fst snd].
  replace (nsmSockets Samples.plugin !! "dev-B") with (Some (Samples.inUse "dev-B" 0))
    by reflexivity.
  simpl allocated. cbv iota. simpl stopChannel. unfold stopServer.
  destruct (decide (0 ∈ closedChannels Samples.oneChannel)) as [Hin|_].
  { apply not_elem_of_empty in Hin. contradiction. }
  rewrite Hno. reflexivity.
Qed.

Lemma listAndWatchPass_continues n sendResult :
  listAndWatchPass n sendResult = (watchPass n sendResult, Continue).
Proof. destruct sendResult as [err|]; reflexivity. Qed.

Lemma ListAndWatch_unfold passes table sendResult i :
  ListAndWatch (S passes) table sendResult i
  = (watchPass (table i) (sendResult i)
       ++ (ListAndWatch passes table sendResult (S i)).1,
     (ListAndWatch passes table sendResult (S i)).2).
Proof.
  simpl. destruct (ListAndWatch passes table sendResult (S i)).
  destruct (sendResult i); reflexivity.
Qed.

Lemma sends_app events1 events2 :
  sends (events1 ++ events2) = sends events1 ++ sends events2.
Proof. apply omap_app. Qed.

Lemma sends_watchPass n sendResult :
  sends (watchPass n sendResult) = [deviceTable n].
Proof. destruct sendResult; reflexivity. Qed.

(** The response of a pass lists exactly the devices of the sockets in the
    table. *)
Lemma deviceTable_devices n d :
  d ∈ pluginapi.Devices (deviceTable n)
  <-> exists id sock, nsmSockets n !! id = Some sock /\ device sock = d.
Proof.
  unfold deviceTable. simpl. rewrite list_elem_of_fmap. split.
  - intros ([id sock] & -> & Hin). apply elem_of_map_to_list in Hin. eauto.
  - intros (id & sock & Hlook & <-). exists (id, sock).
    split; [reflexivity|]. apply elem_of_map_to_list. exact Hlook.
Qed.

(** C9, as the code has it. [ListAndWatch] is a loop without exit. However
    many passes are run and whatever the sends answer, failures included,
    the call has not returned; pass [j] sends the device table as it is
    then, logs the error if that send failed, and sleeps five seconds
    before the next pass. So the watcher has been sent one table per pass,
    each listing the devices of the sockets then in the table. *)
Theorem ListAndWatch_never_returns
    (passes : nat) (table : nat -> nsmClientEndpoints)
    (sendResult : nat -> option error) (i : nat) :
  (ListAndWatch passes table sendResult i).2 = None
  /\ (ListAndWatch passes table sendResult i).1
     = concat ((fun j => watchPass (table j) (sendResult j)) <$> seq i passes)
  /\ sends (ListAndWatch passes table sendResult i).1
     = (fun j => deviceTable (table j)) <$> seq i passes
  /\ (forall j d, d ∈ pluginapi.Devices (deviceTable (table j))
        <-> exists id sock, nsmSockets (table j) !! id = Some sock
                            /\ device sock = d).
Proof.
  split; [|split; [|split]].
  - revert i. induction passes as [|passes IH]; intros i; [reflexivity|].
    rewrite ListAndWatch_unfold. apply IH.
  - revert i. induction passes as [|passes IH]; intros i; [reflexivity|].
    rewrite ListAndWatch_unfold. cbn [fst]. rewrite IH. reflexivity.
  - revert i. induction passes as [|passes IH]; intros i; [reflexivity|].
    rewrite ListAndWatch_unfold. cbn [fst].
    rewrite sends_app, sends_watchPass, IH. reflexivity.
  - intros j d. apply deviceTable_devices.
Qed.

(** The watcher is gone and the first send fails: the loop logs the error,
    sleeps, and sends again; after two passes it has not returned. *)
Lemma ListAndWatch_survives_failed_send :
  Samples.brokenStream 0 <> None
  /\ ListAndWatch 2
       (fun _ => Samples.broker ∅ ∅ Samples.noEndpoint) Samples.brokenStream 0
     = ([ Send {| pluginapi.Devices := [] |};
          LogErrorf ("Failed to send response to kubelet: "
                     +:+ "rpc error: code = Unavailable desc = transport is closing"
                     +:+ newline);
          Sleep 5000000000;
          Send {| pluginapi.Devices := [] |};
          LogErrorf ("Failed to send response to kubelet: "
                     +:+ "rpc error: code = Unavailable desc = transport is closing"
                     +:+ newline);
          Sleep 5000000000 ],
        None).
Proof. split; [discriminate|]. vm_compute. reflexivity. Qed.

Example deviceTable_of_plugin :
  forall d, d ∈ pluginapi.Devices (deviceTable Samples.plugin) ->
            exists id, d = Some {| pluginapi.ID := id;
                                   pluginapi.Health := pluginapi.Healthy |}.
Proof.
  intros d Hd. vm_compute in Hd.
  repeat (apply elem_of_cons in Hd; destruct Hd as [->|Hd]; [eexists; reflexivity|]).
  apply elem_of_nil in Hd. contradiction.
Qed.

End plugin_properties.

(** ** Properties of the interface list and of the socket listener *)
Module nsmserver_properties.
Import Go nsmserver broker_terms more_terms go_properties.

Lemma swapped_involutive i j k : swapped i j (swapped i j k) = k.
Proof. unfold swapped. repeat case_decide; congruence. Qed.

Lemma swapped_inj i j : Inj (=) (=) (swapped i j).
Proof.
  intros k1 k2 Heq. rewrite <- (swapped_involutive i j k1), Heq.
  apply swapped_involutive.
Qed.

Lemma Swap_lookup {A : Type} (l : list A) (i j : nat) (atI atJ : A) (k : nat) :
  l !! i = Some atI -> l !! j = Some atJ ->
  <[j := atI]> (<[i := atJ]> l) !! k = l !! swapped i j k.
Proof.
  intros Hi Hj. pose proof (lookup_lt_Some _ _ _ Hi). pose proof (lookup_lt_Some _ _ _ Hj).
  unfold swapped. destruct (decide (k = i)) as [->|Hki].
  - destruct (decide (j = i)) as [->|Hji].
    + rewrite list_lookup_insert_eq by (rewrite length_insert; lia). congruence.
    + rewrite list_lookup_insert_ne by done.
      rewrite list_lookup_insert_eq by lia. congruence.
  - destruct (decide (k = j)) as [->|Hkj].
    + rewrite list_lookup_insert_eq by (rewrite length_insert; lia). congruence.
    + rewrite !list_lookup_insert_ne by done. reflexivity.
Qed.

(** [Swap] on indices inside the list exchanges the two elements and
    leaves the others where they are: the list after is a permutation of
    the list before, of the same length, and a second [Swap] of the same
    indices gives the first list back. On an index outside the list it
    panics; it never blocks. *)
Theorem Swap_exchanges (s : sortedInterfaceList) (i j : nat) :
  match Swap s i j with
  | Returns s' =>
      i < Len s /\ j < Len s
      /\ Len s' = Len s
      /\ (forall k, interfaceList s' !! k = interfaceList s !! swapped i j k)
      /\ interfaceList s' ≡ₚ interfaceList s
      /\ Swap s' i j = Returns s
  | Panics msg => msg = index_out_of_range /\ (Len s <= i \/ Len s <= j)
  | Blocks => False
  end.
Proof.
  unfold Swap, Len.
  destruct (interfaceList s !! j) as [atJ|] eqn:Hj;
    [destruct (interfaceList s !! i) as [atI|] eqn:Hi|].
  - pose proof (lookup_lt_Some _ _ _ Hi) as Hilt.
    pose proof (lookup_lt_Some _ _ _ Hj) as Hjlt.
    assert (Hlook : forall k,
               <[j := atI]> (<[i := atJ]> (interfaceList s)) !! k
               = interfaceList s !! swapped i j k)
      by (intros k; apply Swap_lookup; assumption).
    simpl. split; [exact Hilt|]. split; [exact Hjlt|].
    split; [rewrite !length_insert; reflexivity|]. split; [exact Hlook|].
    split.
    + apply Permutation_inj. split; [rewrite !length_insert; reflexivity|].
      exists (swapped i j). split; [apply swapped_inj|exact Hlook].
    + assert (Hi' : <[j := atI]> (<[i := atJ]> (interfaceList s)) !! i = Some atJ).
      { rewrite Hlook. unfold swapped. rewrite decide_True by reflexivity. exact Hj. }
      assert (Hj' : <[j := atI]> (<[i := atJ]> (interfaceList s)) !! j = Some atI).
      { rewrite Hlook. unfold swapped. destruct (decide (j = i)) as [->|Hne].
        - congruence.
        - rewrite decide_True by reflexivity. exact Hi. }
      rewrite Hi', Hj'. f_equal. destruct s as [l]. simpl in *. f_equal.
      apply list_eq. intros k.
      rewrite (Swap_lookup _ i j atJ atI k Hi' Hj'), Hlook.
      rewrite swapped_involutive. reflexivity.
  - split; [reflexivity|]. left. apply lookup_ge_None. exact Hi.
  - split; [reflexivity|]. right. apply lookup_ge_None. exact Hj.
Qed.

Lemma Less_returns s i j b :
  Less s i j = Returns b <->
  exists pi pj, preferenceAt s i = Some pi /\ preferenceAt s j = Some pj
                /\ b = Z.ltb pi pj.
Proof.
  unfold Less, preferenceAt.
  destruct (interfaceList s !! i) as [[atI|]|];
    destruct (interfaceList s !! j) as [[atJ|]|]; split;
    try discriminate; try (intros (pi & pj & Hpi & Hpj & _); discriminate).
  - intros [= <-]. eauto.
  - intros (pi & pj & [= <-] & [= <-] & ->). reflexivity.
Qed.

(** [Less] orders the indices strictly by preference, as sorting needs
    it: where it returns, the answer is whether the preference at [i] is
    below that at [j]; it is irreflexive, asymmetric and transitive, and
    being unordered either way is transitive too. It returns for all
    indices inside a list without nil pointers, and after [Swap i j] it
    answers for [i] and [j] what it answered before for [j] and [i]. *)
Theorem Less_strict_weak_order (s : sortedInterfaceList) :
  (forall i j b, Less s i j = Returns b ->
     exists pi pj, preferenceAt s i = Some pi /\ preferenceAt s j = Some pj
                   /\ (b = true <-> (pi < pj)%Z))
  /\ (forall i b, Less s i i = Returns b -> b = false)
  /\ (forall i j, Less s i j = Returns true -> Less s j i = Returns false)
  /\ (forall i j k, Less s i j = Returns true -> Less s j k = Returns true ->
        Less s i k = Returns true)
  /\ (forall i j k,
        Less s i j = Returns false -> Less s j i = Returns false ->
        Less s j k = Returns false -> Less s k j = Returns false ->
        Less s i k = Returns false /\ Less s k i = Returns false)
  /\ (Forall is_Some (interfaceList s) ->
      forall i j, i < Len s -> j < Len s -> exists b, Less s i j = Returns b)
  /\ (forall i j s', Swap s i j = Returns s' -> Less s' i j = Less s j i).
Proof.
  split; [|split; [|split; [|split; [|split; [|split]]]]].
  - intros i j b Hless. apply Less_returns in Hless.
    destruct Hless as (pi & pj & Hpi & Hpj & ->).
    exists pi, pj. split; [exact Hpi|]. split; [exact Hpj|]. apply Z.ltb_lt.
  - intros i b Hless. apply Less_returns in Hless.
    destruct Hless as (pi & pj & Hpi & Hpj & ->).
    rewrite Hpi in Hpj. injection Hpj as <-. apply Z.ltb_irrefl.
  - intros i j Hij. apply Less_returns in Hij.
    destruct Hij as (pi & pj & Hpi & Hpj & Hlt).
    apply Less_returns. exists pj, pi. split; [exact Hpj|]. split; [exact Hpi|].
    symmetry in Hlt. apply Z.ltb_lt in Hlt. symmetry. apply Z.ltb_ge. lia.
  - intros i j k Hij Hjk. apply Less_returns in Hij, Hjk.
    destruct Hij as (pi & pj & Hpi & Hpj & Hlt1).
    destruct Hjk as (pj' & pk & Hpj' & Hpk & Hlt2).
    rewrite Hpj in Hpj'. injection Hpj' as <-.
    apply Less_returns. exists pi, pk. split; [exact Hpi|]. split; [exact Hpk|].
    symmetry in Hlt1, Hlt2. apply Z.ltb_lt in Hlt1, Hlt2.
    symmetry. apply Z.ltb_lt. lia.
  - intros i j k Hij Hji Hjk Hkj. apply Less_returns in Hij, Hji, Hjk, Hkj.
    destruct Hij as (pi & pj & Hpi & Hpj & Hij).
    destruct Hji as (pj1 & pi1 & Hpj1 & Hpi1 & Hji).
    destruct Hjk as (pj2 & pk & Hpj2 & Hpk & Hjk).
    destruct Hkj as (pk1 & pj3 & Hpk1 & Hpj3 & Hkj).
    assert (pj1 = pj) by congruence. assert (pi1 = pi) by congruence.
    assert (pj2 = pj) by congruence. assert (pk1 = pk) by congruence.
    assert (pj3 = pj) by congruence. subst.
    symmetry in Hij, Hji, Hjk, Hkj. apply Z.ltb_ge in Hij, Hji, Hjk, Hkj.
    split; apply Less_returns; eexists _, _;
      (split; [eassumption|]); (split; [eassumption|]);
      symmetry; apply Z.ltb_ge; lia.
  - intros Hsome i j Hi Hj. unfold Len in *.
    destruct (lookup_lt_is_Some_2 _ _ Hi) as [atI HatI].
    destruct (lookup_lt_is_Some_2 _ _ Hj) as [atJ HatJ].
    rewrite Forall_lookup in Hsome.
    destruct (Hsome i atI HatI) as [intfI ->].
    destruct (Hsome j atJ HatJ) as [intfJ ->].
    unfold Less. rewrite HatI, HatJ. eauto.
  - intros i j s' Hswap. unfold Swap in Hswap.
    destruct (interfaceList s !! j) as [atJ|] eqn:Hj; [|discriminate].
    destruct (interfaceList s !! i) as [atI|] eqn:Hi; [|discriminate].
    injection Hswap as <-. unfold Less. simpl.
    rewrite !(Swap_lookup _ i j atI atJ _ Hi Hj). unfold swapped.
    rewrite decide_True by reflexivity.
    destruct (decide (j = i)) as [->|Hne]; [reflexivity|].
    rewrite decide_True by reflexivity. reflexivity.
Qed.

Example Swap_sample :
  (s ← Swap MoreSamples.interfaces 0 2; Returns (preferenceAt s <$> [0; 1; 2]))
  = Returns [Some 1%Z; Some 0%Z; Some 2%Z]
  /\ Swap MoreSamples.interfaces 0 3 = Panics index_out_of_range
  /\ Less MoreSamples.interfaces 1 2 = Returns true
  /\ Less MoreSamples.interfaces 0 2 = Returns false.
Proof. repeat split. Qed.

(** A listener made by [newCustomListener] reports the path of its socket
    as the remote address of every connection it accepts, whatever the
    connection itself reports, and passes the errors of the listener it
    wraps through. When [net.Listen] fails, the error is returned with a
    listener on which [Accept] panics. *)
Theorem newCustomListener_reports_socket
    (net_Listen : string -> string -> error + net.Listener) (socket : string) :
  match net_Listen "unix" socket with
  | inr inner =>
      exists l,
        newCustomListener net_Listen socket = (l, None)
        /\ match net.Accept inner with
           | inr conn =>
               exists c,
                 Accept l = Returns (Some c, None)
                 /\ Conn c = conn
                 /\ RemoteAddr c
                    = net.unixAddr (Some {| net.Name := socket; net.Net := "unix" |})
           | inl err => Accept l = Returns (None, Some err)
           end
  | inl err =>
      (newCustomListener net_Listen socket).2 = Some err
      /\ Accept (newCustomListener net_Listen socket).1 = Panics nil_dereference
  end.
Proof.
  unfold newCustomListener.
  destruct (net_Listen "unix" socket) as [err|inner]; [split; reflexivity|].
  eexists. split; [reflexivity|]. unfold Accept. simpl.
  destruct (net.Accept inner) as [err|conn]; [reflexivity|].
  eexists. repeat split.
Qed.

Example newCustomListener_sample :
  Accept (newCustomListener (fun _ _ => inr MoreSamples.anonymous) "/run/nsm.sock").1
  = Returns
      (Some {| Conn := {| net.LocalAddr :=
                            net.otherAddr "unix"
                              "/var/lib/networkservicemesh/nsm-dev-A/nsm.ligato.io.sock";
                          net.RemoteAddr := net.otherAddr "unix" "@" |};
               localAddr := Some {| net.Name := "/run/nsm.sock";
                                    net.Net := "unix" |} |},
       None).
Proof. reflexivity. Qed.

Section servers.
Context `{Environment}.

(** A server task whose startup fails (the socket cannot be cleaned or
    bound, or does not answer the operation check) returns at once: it
    never receives on its stop channel nor sends a confirmation, and it
    leaves the entry of its id in the table as it found it, flag
    included; only the flag of its local copy is cleared. If the failure
    is that of the operation check, the gRPC server it had started is
    still serving. *)
Theorem startClientServer_startup_failure id endpoints rt :
  is_Some (tools_SocketCleanup
             (socketPath (default zeroSocket (nsmSockets endpoints !! id))))
  \/ is_Some (net_Listen
                (socketPath (default zeroSocket (nsmSockets endpoints !! id))))
  \/ is_Some (tools_SocketOperationCheck
                (socketPath (default zeroSocket (nsmSockets endpoints !! id)))) ->
  finished (startClientServer id endpoints rt).2 = Returns tt
  /\ allocated (client (startClientServer id endpoints rt).2) = false
  /\ (forall ch,
        (ReceiveStop ch ∉ trace (startClientServer id endpoints rt).2)
        /\ (SendConfirmation ch ∉ trace (startClientServer id endpoints rt).2))
  /\ nsmSockets (startClientServer id endpoints rt).1 !! id
     = nsmSockets endpoints !! id
  /\ (is_Some (serving (startClientServer id endpoints rt).2) <->
      tools_SocketCleanup
        (socketPath (default zeroSocket (nsmSockets endpoints !! id))) = None
      /\ net_Listen
           (socketPath (default zeroSocket (nsmSockets endpoints !! id))) = None).
Proof.
  unfold startClientServer.
  set (sock := default zeroSocket (nsmSockets endpoints !! id)).
  intros Hfail.
  destruct (tools_SocketCleanup (socketPath sock)) as [e1|] eqn:H1;
    [|destruct (net_Listen (socketPath sock)) as [e2|] eqn:H2;
      [|destruct (tools_SocketOperationCheck (socketPath sock)) as [e3|] eqn:H3;
        [|exfalso; destruct Hfail as [[? ?]|[[? ?]|[? ?]]]; discriminate]]];
    simpl; (split; [reflexivity|]); (split; [reflexivity|]);
    (split; [intros ch; split; intros Hin;
             repeat (apply elem_of_cons in Hin; destruct Hin as [Hin|Hin];
                     [discriminate Hin|]);
             apply elem_of_nil in Hin; exact Hin|]);
    (split; [reflexivity|]).
  - split; [intros [? ?]; discriminate|intros [? _]; discriminate].
  - split; [intros [? ?]; discriminate|intros [_ ?]; discriminate].
  - split; [intros _; split; reflexivity|intros _; eexists; reflexivity].
Qed.

End servers.

Lemma startClientServer_startup_failure_witness :
  finished (@startClientServer MoreSamples.unreachable "dev-B" Samples.plugin
              Samples.oneChannel).2 = Returns tt
  /\ allocated (client (@startClientServer MoreSamples.unreachable "dev-B"
                          Samples.plugin Samples.oneChannel).2) = false
  /\ (forall ch,
        (ReceiveStop ch ∉ trace (@startClientServer MoreSamples.unreachable "dev-B"
                                   Samples.plugin Samples.oneChannel).2)
        /\ (SendConfirmation ch ∉ trace (@startClientServer MoreSamples.unreachable
                                           "dev-B" Samples.plugin Samples.oneChannel).2))
  /\ nsmSockets (@startClientServer MoreSamples.unreachable "dev-B" Samples.plugin
                   Samples.oneChannel).1 !! "dev-B"
     = nsmSockets Samples.plugin !! "dev-B"
  /\ (is_Some (serving (@startClientServer MoreSamples.unreachable "dev-B"
                          Samples.plugin Samples.oneChannel).2) <->
      @tools_SocketCleanup MoreSamples.unreachable
        (socketPath (default zeroSocket (nsmSockets Samples.plugin !! "dev-B"))) = None
      /\ @net_Listen MoreSamples.unreachable
           (socketPath (default zeroSocket (nsmSockets Samples.plugin !! "dev-B")))
         = None).
Proof.
  apply (@startClientServer_startup_failure MoreSamples.unreachable "dev-B"
           Samples.plugin Samples.oneChannel).
  right. right. eexists. reflexivity.
Defined.

End nsmserver_properties.

(** ** Properties of the example endpoint *)
Module nse_properties.
Import Go nse nse_terms.

Section endpoint.
Context `{World}.

Lemma interfaceListed_iff interfaces interfaceName :
  interfaceListed interfaces interfaceName = true <->
  exists intfs, intfs ∈ interfaces
                /\ strings_ToLower (net.InterfaceName intfs)
                   = strings_ToLower interfaceName.
Proof.
  induction interfaces as [|intfs rest IH]; simpl.
  - split; [discriminate|]. intros (intfs & Hin & _).
    apply elem_of_nil in Hin. contradiction.
  - destruct (String.eqb _ _) eqn:Heq.
    + apply String.eqb_eq in Heq. split; [|reflexivity].
      intros _. exists intfs. split; [apply elem_of_cons; auto|exact Heq].
    + apply String.eqb_neq in Heq. rewrite IH. split.
      * intros (i & Hin & Hi). exists i. split; [apply elem_of_cons; auto|exact Hi].
      * intros (i & Hin & Hi). apply elem_of_cons in Hin.
        destruct Hin as [->|Hin]; [contradiction|]. eauto.
Qed.

(** For a request that carries a local mechanism,
    [SendEndpointConnectionMechanism] returns a reply with the request id
    of the request; the mechanism is found exactly when the error is nil,
    and exactly when the parameters name an interface under the key
    [nselocalmechanism], the interfaces of the host can be listed, and
    one of them has that name up to the case of letters. *)
Theorem SendEndpointConnectionMechanism_found_iff n req mechanism :
  nseconnect.EndpointConnectionMechanism.LocalMechanism req = Some mechanism ->
  exists reply err,
    SendEndpointConnectionMechanism n req = Returns (reply, err)
    /\ nseconnect.EndpointConnectionMechanismReply.RequestId reply
       = nseconnect.EndpointConnectionMechanism.RequestId req
    /\ (nseconnect.EndpointConnectionMechanismReply.MechanismFound reply = true
        <-> err = None)
    /\ (nseconnect.EndpointConnectionMechanismReply.MechanismFound reply = true
        <-> exists interfaceName interfaces intfs,
              common.Parameters mechanism !! NSMkeyNSELocalMechanism
                = Some interfaceName
              /\ net_Interfaces = inr interfaces
              /\ intfs ∈ interfaces
              /\ strings_ToLower (net.InterfaceName intfs)
                 = strings_ToLower interfaceName).
Proof.
  intros Hm. unfold SendEndpointConnectionMechanism. rewrite Hm.
  destruct (common.Parameters mechanism !! NSMkeyNSELocalMechanism)
    as [interfaceName|] eqn:Hkey.
  - destruct net_Interfaces as [err|interfaces] eqn:Hlist.
    + do 2 eexists. split; [reflexivity|]. split; [reflexivity|]. simpl.
      split; [split; discriminate|]. split; [discriminate|].
      intros (? & ? & ? & _ & ? & _). discriminate.
    + destruct (interfaceListed interfaces interfaceName) eqn:Hfound;
        do 2 eexists; (split; [reflexivity|]); (split; [reflexivity|]); simpl.
      * split; [split; reflexivity|]. split; [|reflexivity].
        intros _. apply interfaceListed_iff in Hfound.
        destruct Hfound as (intfs & Hin & Hname). eauto 10.
      * split; [split; discriminate|]. split; [discriminate|].
        intros (name & l & intfs & [= <-] & [= <-] & Hin & Hname).
        assert (interfaceListed interfaces interfaceName = true)
          by (apply interfaceListed_iff; eauto).
        congruence.
  - do 2 eexists. split; [reflexivity|]. split; [reflexivity|]. simpl.
    split; [split; discriminate|]. split; [discriminate|].
    intros (? & ? & ? & ? & _). discriminate.
Qed.

Lemma buildClient_result kubeconfig :
  (exists k8s, (buildClient kubeconfig).2 = (Some k8s, None))
  \/ (exists err, (buildClient kubeconfig).2 = (None, Some err)).
Proof.
  unfold buildClient.
  destruct (if String.eqb _ EmptyString then rest_InClusterConfig
            else clientcmd_BuildConfigFromFlags _ _) as [err|config].
  - right. eauto.
  - destruct (kubernetes_NewForConfig config) as [err|k8s]; [right|left]; eauto.
Qed.

Ltac absent Hin :=
  repeat (apply elem_of_cons in Hin; destruct Hin as [Hin|Hin]; [discriminate Hin|]);
  apply elem_of_nil in Hin; exact Hin.

Ltac exits :=
  left; split; [reflexivity|];
  split; [intros Hin; absent Hin|];
  split; [intros sock req Hin; absent Hin|].

Lemma ret_bind {A B : Type} (a : A) (k : A -> proc B) : (mret a ≫= k) = k a.
Proof. unfold mbind, proc_bind, mret, proc_ret. destruct (k a). reflexivity. Qed.

Lemma exit_bind {A B : Type} (e : ending) (k : A -> proc B) :
  (endWith e ≫= k) = endWith e.
Proof. reflexivity. Qed.

Lemma traceOf_emit_bind {B : Type} (e : event) (k : unit -> proc B) :
  traceOf (emit e ≫= k) = e :: traceOf (k tt).
Proof. unfold mbind, proc_bind, emit. destruct (k tt). reflexivity. Qed.

Lemma resultOf_emit_bind {B : Type} (e : event) (k : unit -> proc B) :
  resultOf (emit e ≫= k) = resultOf (k tt).
Proof. unfold mbind, proc_bind, emit. destruct (k tt). reflexivity. Qed.

Ltac go :=
  cbn [orExit check];
  rewrite ?ret_bind, ?exit_bind, ?traceOf_emit_bind, ?resultOf_emit_bind;
  cbn [traceOf resultOf endWith].

Lemma main_refused status :
  flag_Parse = Some status -> main = endWith (Exit status).
Proof. intros Hflags. unfold main, parseFlags. rewrite Hflags. reflexivity. Qed.

Lemma main_cases :
  flag_Parse = None ->
  (resultOf main = inl (Exit 1)
   /\ (Stop ∉ traceOf main)
   /\ (forall sock req, Advertise sock req ∉ traceOf main)
   /\ (forall uid linuxNS, ~ started uid linuxNS))
  \/ (exists uid linuxNS,
        started uid linuxNS
        /\ ((taken uid
             /\ traceOf main
                = startup uid linuxNS ++ [Advertise advertiseSocket (advertisement uid)]
             /\ resultOf main = inl Wait)
            \/ (~ taken uid
                /\ traceOf main
                   = startup uid linuxNS
                     ++ [Advertise advertiseSocket (advertisement uid); Stop]
                /\ resultOf main = inl (Exit 1)))).
Proof.
  intros Hflags. unfold main, parseFlags. rewrite Hflags, ret_bind.
  destruct (buildClient_result flag_kubeconfig) as [[k8s Hb]|[err Hb]]; rewrite Hb.
  2: { go. exits. intros uid linuxNS (_ & (k & Hk & _) & _). congruence. }
  go.
  destruct (String.eqb (os_Getenv "INIT_NAMESPACE") EmptyString) eqn:Hns.
  { go. exits. intros uid linuxNS (Hne & _). apply String.eqb_eq in Hns. contradiction. }
  apply String.eqb_neq in Hns. go.
  destruct (getPodUID k8s (os_Getenv "INIT_NAMESPACE") (os_Getenv "HOSTNAME"))
    as [e|uid] eqn:Hpod.
  { go. exits. intros uid linuxNS (_ & (k & Hk & Hu) & _). congruence. }
  go.
  assert (Huid : forall uid' linuxNS', started uid' linuxNS' -> uid' = uid).
  { intros uid' linuxNS' (_ & (k & Hk & Hu) & _). congruence. }
  destruct tools_GetCurrentNS as [e|linuxNS] eqn:Hcur.
  { go. exits. intros uid' linuxNS' (_ & _ & Hc & _). congruence. }
  go. fold (connectionSocket uid). fold advertiseSocket.
  destruct (tools_SocketCleanup (connectionSocket uid)) as [e|] eqn:Hclean.
  { go. exits. intros uid' linuxNS' Hst. rewrite (Huid _ _ Hst) in Hst.
    destruct Hst as (_ & _ & _ & Hc & _). congruence. }
  go.
  destruct (net_Listen "unix" (connectionSocket uid)) as [e|listener] eqn:Hlisten.
  { go. exits. intros uid' linuxNS' Hst. rewrite (Huid _ _ Hst) in Hst.
    destruct Hst as (_ & _ & _ & _ & (l & Hl) & _). congruence. }
  go.
  destruct (tools_SocketOperationCheck (connectionSocket uid)) as [e|] eqn:Hprobe.
  { go. exits. intros uid' linuxNS' Hst. rewrite (Huid _ _ Hst) in Hst.
    destruct Hst as (_ & _ & _ & _ & _ & Hp & _). congruence. }
  go.
  destruct (os_Stat advertiseSocket) as [e|] eqn:Hstat.
  { go. exits. intros uid' linuxNS' (_ & _ & _ & _ & _ & _ & Hs & _). congruence. }
  go.
  destruct (tools_SocketOperationCheck advertiseSocket) as [e|] eqn:Hprobe2.
  { go. exits. intros uid' linuxNS' (_ & _ & _ & _ & _ & _ & _ & Hp). congruence. }
  go.
  right. exists uid, linuxNS. split.
  { split; [exact Hns|]. split; [eauto|]. split; [exact Hcur|].
    split; [exact Hclean|]. split; [eauto|]. split; [exact Hprobe|].
    split; [exact Hstat|exact Hprobe2]. }
  fold (advertisement uid). unfold taken.
  destruct (AdvertiseEndpoint advertiseSocket (advertisement uid)) as [e|resp] eqn:Hadv.
  { go. right. split; [|split; reflexivity].
    intros (resp & Hresp & _). discriminate. }
  destruct (nseconnect.EndpointAdvertiseReply.Accepted resp) eqn:Hacc.
  - go. left. split; [eauto|]. split; reflexivity.
  - go. right. split; [|split; reflexivity].
    intros (resp' & [= <-] & Hacc'). congruence.
Qed.

Lemma started_unique uid linuxNS uid' linuxNS' :
  started uid linuxNS -> started uid' linuxNS' -> uid' = uid /\ linuxNS' = linuxNS.
Proof.
  intros (_ & (k & Hk & Hu) & Hc & _) (_ & (k' & Hk' & Hu') & Hc' & _).
  split; congruence.
Qed.

Lemma startup_has_no_advertise uid linuxNS sock req :
  Advertise sock req ∉ startup uid linuxNS.
Proof. intros Hin. unfold startup in Hin. absent Hin. Qed.

Lemma startup_has_no_stop uid linuxNS : Stop ∉ startup uid linuxNS.
Proof. intros Hin. unfold startup in Hin. absent Hin. Qed.

(** [main] advertises only once it is up. If [main] advertises at all, it
    does so once, on the socket of the broker, after it has looked up its
    pod, cleaned, bound, served and probed its own socket and found and
    probed that of the broker, all with success and in this order; the
    advertisement names the uid of the pod as request id and provider,
    the service [gold-network] and the socket the endpoint serves on.
    After it, [main] does nothing more or stops its server. *)
Theorem main_advertises_after_startup sock req :
  Advertise sock req ∈ traceOf main ->
  exists uid linuxNS rest,
    started uid linuxNS
    /\ sock = advertiseSocket
    /\ req = advertisement uid
    /\ traceOf main
       = startup uid linuxNS ++ [Advertise advertiseSocket (advertisement uid)] ++ rest
    /\ (rest = [] \/ rest = [Stop]).
Proof.
  intros Hin.
  destruct flag_Parse as [status|] eqn:Hflags.
  { rewrite (main_refused status Hflags) in Hin.
    apply elem_of_nil in Hin. contradiction. }
  destruct (main_cases Hflags) as [(_ & _ & Hnone & _)|(uid & linuxNS & Hst & Hrun)].
  { exfalso. apply (Hnone sock req Hin). }
  assert (Hhere : forall rest,
             Advertise sock req
               ∈ startup uid linuxNS
                 ++ Advertise advertiseSocket (advertisement uid) :: rest ->
             Advertise sock req ∉ rest ->
             sock = advertiseSocket /\ req = advertisement uid).
  { intros rest Hmem Hrest. apply elem_of_app in Hmem.
    destruct Hmem as [Hmem|Hmem]; [exfalso; eapply startup_has_no_advertise; eauto|].
    apply elem_of_cons in Hmem. destruct Hmem as [[= -> ->]|Hmem]; [auto|contradiction]. }
  exists uid, linuxNS.
  destruct Hrun as [(_ & Htrace & _)|(_ & Htrace & _)];
    rewrite Htrace in Hin |- *.
  - destruct (Hhere [] Hin) as [-> ->]; [apply not_elem_of_nil|].
    exists []. split; [exact Hst|]. split; [reflexivity|]. split; [reflexivity|].
    split; [reflexivity|left; reflexivity].
  - destruct (Hhere [Stop] Hin) as [-> ->].
    { intros Hs. apply list_elem_of_singleton in Hs. discriminate. }
    exists [Stop]. split; [exact Hst|]. split; [reflexivity|]. split; [reflexivity|].
    split; [reflexivity|right; reflexivity].
Qed.

(** How [main] ends. When [flag.Parse] refuses the arguments, the process
    ends there, with the status of the flag package and before anything
    else is done. Otherwise [main] exits with status 1 or ends waiting on
    its server. It never panics. It ends waiting exactly when the
    arguments were parsed, every startup step succeeded and the broker
    took the advertisement. It stops its gRPC server exactly when the
    arguments were parsed, it was up and the advertisement failed or was
    refused; the stop is then the last thing it does before it exits
    with status 1. *)
Theorem main_ends :
  (forall status, flag_Parse = Some status ->
     resultOf main = inl (Exit status) /\ traceOf main = [])
  /\ (flag_Parse = None ->
      resultOf main = inl (Exit 1) \/ resultOf main = inl Wait)
  /\ (forall msg, resultOf main <> inl (Panic msg))
  /\ (resultOf main = inl Wait <->
      flag_Parse = None /\ exists uid linuxNS, started uid linuxNS /\ taken uid)
  /\ (Stop ∈ traceOf main <->
      flag_Parse = None /\ exists uid linuxNS, started uid linuxNS /\ ~ taken uid)
  /\ (Stop ∈ traceOf main ->
      resultOf main = inl (Exit 1) /\ last (traceOf main) = Some Stop).
Proof.
  destruct flag_Parse as [status|] eqn:Hflags.
  { rewrite (main_refused status Hflags). cbn [resultOf traceOf endWith].
    split; [intros status' [= <-]; split; reflexivity|].
    split; [discriminate|]. split; [discriminate|].
    split; [split; [discriminate|intros [[=] _]]|].
    split; [split; [intros Hin; apply elem_of_nil in Hin; contradiction
                   |intros [[=] _]]|].
    intros Hin. apply elem_of_nil in Hin. contradiction. }
  split; [discriminate|].
  assert (Hrest :
    (resultOf main = inl (Exit 1) \/ resultOf main = inl Wait)
    /\ (resultOf main = inl Wait <->
        exists uid linuxNS, started uid linuxNS /\ taken uid)
    /\ (Stop ∈ traceOf main <->
        exists uid linuxNS, started uid linuxNS /\ ~ taken uid)
    /\ (Stop ∈ traceOf main ->
        resultOf main = inl (Exit 1) /\ last (traceOf main) = Some Stop)).
  { destruct (main_cases Hflags)
      as [(Hexit & Hnostop & _ & Hnot)|(uid & linuxNS & Hst & Hrun)].
    - split; [auto|]. split; [|split].
      + rewrite Hexit. split; [discriminate|].
        intros (uid & linuxNS & Hst & _). exfalso. apply (Hnot _ _ Hst).
      + split; [contradiction|].
        intros (uid & linuxNS & Hst & _). exfalso. apply (Hnot _ _ Hst).
      + contradiction.
    - destruct Hrun as [(Htaken & Htrace & Hres)|(Hrefused & Htrace & Hres)];
        rewrite Htrace, Hres.
      + assert (Hnostop : Stop ∉ startup uid linuxNS
                                   ++ [Advertise advertiseSocket (advertisement uid)]).
        { intros Hin. apply elem_of_app in Hin. destruct Hin as [Hin|Hin].
          - eapply startup_has_no_stop; eauto.
          - apply list_elem_of_singleton in Hin. discriminate. }
        split; [auto|]. split; [|split].
        * split; [eauto|reflexivity].
        * split; [contradiction|].
          intros (uid' & linuxNS' & Hst' & Hno).
          destruct (started_unique _ _ _ _ Hst Hst') as [-> _]. contradiction.
        * contradiction.
      + assert (Hstop : Stop ∈ startup uid linuxNS
                                 ++ [Advertise advertiseSocket (advertisement uid); Stop]).
        { apply elem_of_app. right. apply elem_of_cons. right.
          apply list_elem_of_singleton. reflexivity. }
        split; [auto|]. split; [|split].
        * split; [discriminate|].
          intros (uid' & linuxNS' & Hst' & Hyes).
          destruct (started_unique _ _ _ _ Hst Hst') as [-> _]. contradiction.
        * split; [eauto|auto].
        * intros _. split; [reflexivity|]. reflexivity. }
  destruct Hrest as (Hend & Hwait & Hstop & Hlast).
  split; [intros _; exact Hend|].
  split; [intros msg Hp; destruct Hend as [He|He]; rewrite He in Hp; discriminate|].
  split; [rewrite Hwait; split; [auto|intros [_ Hw]; exact Hw]|].
  split; [rewrite Hstop; split; [auto|intros [_ Hw]; exact Hw]|exact Hlast].
Qed.

End endpoint.

Lemma SendEndpointConnectionMechanism_found_iff_witness :
  exists reply err,
    @SendEndpointConnectionMechanism MoreSamples.endpointWorld MoreSamples.endpoint
       MoreSamples.useNse0 = Returns (reply, err)
    /\ nseconnect.EndpointConnectionMechanismReply.RequestId reply
       = nseconnect.EndpointConnectionMechanism.RequestId MoreSamples.useNse0
    /\ (nseconnect.EndpointConnectionMechanismReply.MechanismFound reply = true
        <-> err = None)
    /\ (nseconnect.EndpointConnectionMechanismReply.MechanismFound reply = true
        <-> exists interfaceName interfaces intfs,
              common.Parameters
                {| common.MechanismType := 0;
                   common.Parameters := <["nselocalmechanism" := "nse0"]> ∅ |}
                !! NSMkeyNSELocalMechanism = Some interfaceName
              /\ @net_Interfaces MoreSamples.endpointWorld = inr interfaces
              /\ intfs ∈ interfaces
              /\ @strings_ToLower MoreSamples.endpointWorld (net.InterfaceName intfs)
                 = @strings_ToLower MoreSamples.endpointWorld interfaceName).
Proof.
  apply (@SendEndpointConnectionMechanism_found_iff MoreSamples.endpointWorld
           MoreSamples.endpoint MoreSamples.useNse0 _ eq_refl).
Defined.

Lemma main_advertises_after_startup_witness :
  exists uid linuxNS rest,
    @started MoreSamples.endpointWorld uid linuxNS
    /\ @advertiseSocket MoreSamples.endpointWorld
       = @advertiseSocket MoreSamples.endpointWorld
    /\ @advertisement MoreSamples.endpointWorld "uid-42"
       = @advertisement MoreSamples.endpointWorld uid
    /\ traceOf (@main MoreSamples.endpointWorld)
       = @startup MoreSamples.endpointWorld uid linuxNS
         ++ [Advertise (@advertiseSocket MoreSamples.endpointWorld)
               (@advertisement MoreSamples.endpointWorld uid)] ++ rest
    /\ (rest = [] \/ rest = [Stop]).
Proof.
  apply (@main_advertises_after_startup MoreSamples.endpointWorld
           (@advertiseSocket MoreSamples.endpointWorld)
           (@advertisement MoreSamples.endpointWorld "uid-42")).
  apply (list_elem_of_lookup_2 _ 7). reflexivity.
Defined.

(** Started as [nse -bogus] the endpoint ends in [flag.Parse] with status
    2; started without arguments it runs on. *)
Lemma main_ends_witness :
  (resultOf (@main MoreSamples.bogusFlag) = inl (Exit 2)
   /\ traceOf (@main MoreSamples.bogusFlag) = [])
  /\ (resultOf (@main MoreSamples.endpointWorld) = inl (Exit 1)
      \/ resultOf (@main MoreSamples.endpointWorld) = inl Wait).
Proof.
  split.
  - apply (proj1 (@main_ends MoreSamples.bogusFlag) 2%Z). reflexivity.
  - apply (proj1 (proj2 (@main_ends MoreSamples.endpointWorld))). reflexivity.
Defined.

(** The run of the sample endpoint: it ends waiting, having advertised on
    the socket of the broker. *)
Example main_sample :
  resultOf (@main MoreSamples.endpointWorld) = inl Wait
  /\ last (traceOf (@main MoreSamples.endpointWorld))
     = Some (Advertise "/var/lib/networkservicemesh/nsm.endpoint.io.sock"
               (@advertisement MoreSamples.endpointWorld "uid-42"))
  /\ @connectionSocket MoreSamples.endpointWorld "uid-42"
     = "/var/lib/networkservicemesh/uid-42.nse.io.sock".
Proof. repeat split. Qed.

(** The endpoint started with a flag that is not defined: [main] ends in
    [flag.Parse], with status 2, having done nothing, although every
    later step would have succeeded. *)
Example main_bad_flag :
  @main MoreSamples.bogusFlag = Proc [] (inl (Exit 2))
  /\ exists uid linuxNS,
       @started MoreSamples.bogusFlag uid linuxNS /\ @taken MoreSamples.bogusFlag uid.
Proof.
  split; [reflexivity|]. exists "uid-42", "net:[4026532281]". split.
  - split; [discriminate|]. split; [exists tt; split; reflexivity|].
    split; [reflexivity|]. split; [reflexivity|].
    split; [eexists; reflexivity|]. repeat split.
  - eexists. split; reflexivity.
Qed.

(** The host lists [NSE0]; the interface asked for, [nse0], is found. *)
Example SendEndpointConnectionMechanism_sample :
  @SendEndpointConnectionMechanism MoreSamples.endpointWorld MoreSamples.endpoint
     MoreSamples.useNse0
  = Returns ({| nseconnect.EndpointConnectionMechanismReply.RequestId := "w1";
                nseconnect.EndpointConnectionMechanismReply.MechanismFound := true |},
             None).
Proof. reflexivity. Qed.

End nse_properties.
